(** * Kubernetes MCP server: health model, classifier, inspectors and report renderer

    A shallow embedding of [k8s_mcp_server.py].  Python values that come out
    of [json.loads] stay dynamically typed ([pyvalue]); exceptions are an
    explicit [Result]; the external world enters as explicit arguments
    (the replies of the [kubectl] subprocess, the reading of the wall
    clock) or as the fields of a class (the [json], [yaml] and [datetime]
    libraries). *)

From Stdlib Require Import ZArith List String Ascii Lia Bool DecimalString.
From Stdlib Require Import Floats.
From stdpp Require Import gmap strings.
Import ListNotations.

Local Open Scope list_scope.
Local Open Scope Z_scope.

(** ** Python values *)

(** A Python [str] is modelled by the Rocq string holding its UTF-8 bytes;
    concatenation, equality, substring search and splitting on an ASCII
    separator commute with that encoding. *)

(** What [json.loads] builds and [json.dumps] / [yaml.dump] consume.  A
    [dict] keeps its insertion order, so it is an association list. *)
#[warnings="-register-all"]
Inductive pyvalue : Type :=
| PyNone
| PyBool (b : bool)
| PyInt (n : Z)
| PyFloat (f : float)
| PyStr (s : string)
| PyList (l : list pyvalue)
| PyDict (d : list (string * pyvalue)).

(** The exceptions the modelled operations raise.  [ValueError] and
    [RecursionError] are what [json.loads] raises besides
    [JSONDecodeError], on an integer of more than 4300 digits and on a text
    nested too deep.  [Unmodelled] marks the one place where the embedding
    stops: arithmetic on a [float]. *)
Inductive exn : Type :=
| KeyError (key : string)
| TypeError (msg : string)
| AttributeError (msg : string)
| JSONDecodeError (msg : string)
| ValueError (msg : string)
| RecursionError (msg : string)
| Unmodelled (what : string).

Inductive Result (A : Type) : Type :=
| Ok (a : A)
| Raise (e : exn).
Arguments Ok {A} a.
Arguments Raise {A} e.

Definition bind {A B : Type} (r : Result A) (k : A -> Result B) : Result B :=
  match r with
  | Ok a => k a
  | Raise e => Raise e
  end.

Notation "x <- c1 ;; c2" := (bind c1 (fun x => c2))
  (at level 100, c1 at next level, right associativity).

(** [str(n)] for an [int]. *)
Definition py_str_int (n : Z) : string := NilZero.string_of_int (Z.to_int n).

(** [len(l)] *)
Definition len {A : Type} (l : list A) : Z := Z.of_nat (length l).

(** [sum(1 for x in l if p x)] *)
Definition sum_ones {A : Type} (p : A -> bool) (l : list A) : Z :=
  fold_left (fun acc x => if p x then acc + 1 else acc) l 0.

(** A non-empty list is true. *)
Definition nonempty {A : Type} (l : list A) : bool :=
  match l with
  | [] => false
  | _ :: _ => true
  end.

(** [v == s] for a [str] literal [s]: only an equal [str] compares equal. *)
Definition py_eq_str (v : pyvalue) (s : string) : bool :=
  match v with
  | PyStr t => String.eqb t s
  | _ => false
  end.

(** *** Strings *)

Definition nl : string := String "010" EmptyString.
Definition dq : string := String "034" EmptyString.

(** [needle in hay] for two [str]. *)
Fixpoint str_contains (needle hay : string) : bool :=
  String.prefix needle hay
  || match hay with
     | EmptyString => false
     | String _ rest => str_contains needle rest
     end.

(** The characters (code points) of a [str], each as its UTF-8 bytes: a
    byte [10xxxxxx] continues the character before it. *)
Definition is_continuation (s : string) : bool :=
  match s with
  | String b _ => (128 <=? nat_of_ascii b)%nat && (nat_of_ascii b <? 192)%nat
  | EmptyString => false
  end.

Fixpoint chars (s : string) : list string :=
  match s with
  | EmptyString => []
  | String b rest =>
      match chars rest with
      | g :: gs => if is_continuation g then String b g :: gs
                   else String b EmptyString :: g :: gs
      | [] => [String b EmptyString]
      end
  end.

Definition str_of_bytes (l : list nat) : string :=
  fold_right (fun n s => String (ascii_of_nat n) s) EmptyString l.

(** The characters [str.split()] and [str.strip()] treat as whitespace:
    U+0009..000D, U+001C..001F, U+0020, U+0085, U+00A0, U+1680,
    U+2000..200A, U+2028, U+2029, U+202F, U+205F, U+3000. *)
Definition whitespace : list string :=
  map str_of_bytes
    ([[9]; [10]; [11]; [12]; [13]; [28]; [29]; [30]; [31]; [32];
      [194; 133]; [194; 160]; [225; 154; 128]]
     ++ map (fun k => [226; 128; k]) (seq 128 11)
     ++ [[226; 128; 168]; [226; 128; 169]; [226; 128; 175];
         [226; 129; 159]; [227; 128; 128]])%nat.

Definition is_space (c : string) : bool :=
  existsb (String.eqb c) whitespace.

Definition join_chars (l : list string) : string :=
  fold_right String.append EmptyString l.

Fixpoint drop_space (l : list string) : list string :=
  match l with
  | c :: rest => if is_space c then drop_space rest else l
  | [] => []
  end.

(** [s.strip()] *)
Definition str_strip (s : string) : string :=
  join_chars (rev (drop_space (rev (drop_space (chars s))))).

(** [s.split(sep)] for a one-byte separator: never an empty list. *)
Fixpoint str_split_on (sep : ascii) (s : string) : list string :=
  match s with
  | EmptyString => [EmptyString]
  | String b rest =>
      if Ascii.eqb b sep then EmptyString :: str_split_on sep rest
      else match str_split_on sep rest with
           | w :: ws => String b w :: ws
           | [] => [String b EmptyString]
           end
  end.

(** [s.split()]: the maximal runs of non-whitespace characters. *)
Fixpoint split_chars (l : list string) (cur : string) : list string :=
  match l with
  | [] => if String.eqb cur EmptyString then [] else [cur]
  | c :: rest =>
      if is_space c
      then if String.eqb cur EmptyString then split_chars rest EmptyString
           else cur :: split_chars rest EmptyString
      else split_chars rest (cur +:+ c)
  end.

Definition str_split (s : string) : list string :=
  split_chars (chars s) EmptyString.

(** [s.replace(old, new)] for a one-byte [old]. *)
Fixpoint str_replace (old : ascii) (new : string) (s : string) : string :=
  match s with
  | EmptyString => EmptyString
  | String b rest =>
      if Ascii.eqb b old then new +:+ str_replace old new rest
      else String b (str_replace old new rest)
  end.

(** The last character of a string ([d] when it is empty). *)
Fixpoint str_last (s : string) (d : ascii) : ascii :=
  match s with
  | EmptyString => d
  | String c rest => str_last rest c
  end.

(** [n] as decimal digits, zero-padded to [width] ([%02d], [%04d], [%06d]). *)
Definition pad (width : nat) (n : Z) : string :=
  let digits := py_str_int n in
  fold_right String digits (repeat "0"%char (width - String.length digits)%nat).

(** *** Operations on dynamically typed values *)

Definition type_name (v : pyvalue) : string :=
  match v with
  | PyNone => "NoneType"
  | PyBool _ => "bool"
  | PyInt _ => "int"
  | PyFloat _ => "float"
  | PyStr _ => "str"
  | PyList _ => "list"
  | PyDict _ => "dict"
  end.

Fixpoint dict_lookup (k : string) (d : list (string * pyvalue)) : option pyvalue :=
  match d with
  | [] => None
  | (k', v) :: rest => if String.eqb k' k then Some v else dict_lookup k rest
  end.

(** [v[k]] for a [str] key (messages as CPython 3.11 words them). *)
Definition py_getitem (v : pyvalue) (k : string) : Result pyvalue :=
  match v with
  | PyDict d =>
      match dict_lookup k d with
      | Some x => Ok x
      | None => Raise (KeyError k)
      end
  | PyList _ => Raise (TypeError "list indices must be integers or slices, not str")
  | PyStr _ => Raise (TypeError "string indices must be integers, not 'str'")
  | _ => Raise (TypeError ("'" +:+ type_name v +:+ "' object is not subscriptable"))
  end.

(** [v.get(k, default)] *)
Definition py_get (v : pyvalue) (k : string) (default : pyvalue) : Result pyvalue :=
  match v with
  | PyDict d =>
      match dict_lookup k d with
      | Some x => Ok x
      | None => Ok default
      end
  | _ => Raise (AttributeError ("'" +:+ type_name v +:+ "' object has no attribute 'get'"))
  end.

(** [for x in v] *)
Definition py_iter (v : pyvalue) : Result (list pyvalue) :=
  match v with
  | PyList l => Ok l
  | PyDict d => Ok (map (fun kv => PyStr (fst kv)) d)
  | PyStr s => Ok (map PyStr (chars s))
  | _ => Raise (TypeError ("'" +:+ type_name v +:+ "' object is not iterable"))
  end.

(** [len(v)] *)
Definition py_len (v : pyvalue) : Result Z :=
  match v with
  | PyList l => Ok (len l)
  | PyDict d => Ok (len d)
  | PyStr s => Ok (len (chars s))
  | _ => Raise (TypeError ("object of type '" +:+ type_name v +:+ "' has no len()"))
  end.

(** [needle in v] for a [str] literal [needle]. *)
Definition py_contains (needle : string) (v : pyvalue) : Result bool :=
  match v with
  | PyStr s => Ok (str_contains needle s)
  | PyList l => Ok (existsb (fun x => py_eq_str x needle) l)
  | PyDict d => Ok (existsb (fun kv => String.eqb (fst kv) needle) d)
  | _ => Raise (TypeError ("argument of type '" +:+ type_name v +:+ "' is not iterable"))
  end.

(** [v.split(sep)[-1]] *)
Definition py_split_last (v : pyvalue) (sep : ascii) : Result string :=
  match v with
  | PyStr s => Ok (List.last (str_split_on sep s) EmptyString)
  | _ => Raise (AttributeError ("'" +:+ type_name v +:+ "' object has no attribute 'split'"))
  end.

(** [acc + v] inside [sum(...)], the accumulator being an [int]. *)
Definition py_add_int (acc : Z) (v : pyvalue) : Result Z :=
  match v with
  | PyInt n => Ok (acc + n)
  | PyBool b => Ok (acc + (if b then 1 else 0))
  | PyFloat _ => Raise (Unmodelled "float arithmetic")
  | _ => Raise (TypeError ("unsupported operand type(s) for +: 'int' and '"
                           +:+ type_name v +:+ "'"))
  end.

(** Truth value of [v] (as in [v or default]). *)
Definition py_truthy (v : pyvalue) : bool :=
  match v with
  | PyNone => false
  | PyBool b => b
  | PyInt n => negb (n =? 0)
  | PyFloat f => negb (PrimFloat.eqb f 0%float)
  | PyStr s => negb (String.eqb s EmptyString)
  | PyList l => nonempty l
  | PyDict d => nonempty d
  end.

(** [str(e)] *)
Definition str_exn (e : exn) : string :=
  match e with
  | KeyError k => "'" +:+ k +:+ "'"
  | TypeError m => m
  | AttributeError m => m
  | JSONDecodeError m => m
  | ValueError m => m
  | RecursionError m => m
  | Unmodelled m => m
  end.

(** [for x in l: ...] where the body may raise: the first exception ends the loop. *)
Fixpoint for_each {A B : Type} (f : A -> Result B) (l : list A) : Result (list B) :=
  match l with
  | [] => Ok []
  | x :: rest => y <- f x ;; ys <- for_each f rest ;; Ok (y :: ys)
  end.

Fixpoint for_fold {A B : Type} (f : B -> A -> Result B) (l : list A) (acc : B) : Result B :=
  match l with
  | [] => Ok acc
  | x :: rest => acc' <- f acc x ;; for_fold f rest acc'
  end.

(** ** The interpreter's libraries and the clock

    Code the repository calls and does not contain.  [json_loads] answers
    [inr e] where [json.loads] raises [e]: a [JSONDecodeError] on a text
    that is no JSON, a [ValueError] or a [RecursionError] on one it gives
    up on;
    [timedelta_since s] is [datetime.now(created.tzinfo) - created] for
    [created = datetime.fromisoformat(s)], as [(delta.days, delta.seconds)],
    and [None] where [fromisoformat] raises; [py_repr] is what an f-string
    prints for a [float], a [list] or a [dict]. *)
Class PyEnv : Type := {
  json_loads : string -> pyvalue + exn;
  json_dumps : pyvalue -> string;
  yaml_dump : pyvalue -> string;
  py_repr : pyvalue -> string;
  timedelta_since : string -> option (Z * Z)
}.

(** The reply of [execute_kubectl(args)]: [(stdout, stderr, returncode)].
    The method catches every exception itself and answers [("", str(e), 1)],
    so it is a total function of the arguments; no function below sends the
    same arguments twice. *)
Definition Kubectl : Type := list string -> string * string * Z.

(** ** Data model (the three dataclasses) *)

Module NodeMetrics.
Record t : Type := mk {
  name : pyvalue;
  cpu_usage : string;
  memory_usage : string;
  disk_usage : string;
  status : string;
  age : string;
  version : pyvalue;
  instance_type : pyvalue;
  zone : pyvalue
}.
End NodeMetrics.

Module PodMetrics.
Record t : Type := mk {
  name : pyvalue;
  namespace : pyvalue;
  status : pyvalue;
  cpu_usage : string;
  memory_usage : string;
  restarts : Z;
  age : string;
  node : pyvalue
}.
End PodMetrics.

Module ClusterHealth.
Record t : Type := mk {
  overall_status : string;
  node_count : Z;
  healthy_nodes : Z;
  unhealthy_nodes : Z;
  total_pods : Z;
  running_pods : Z;
  pending_pods : Z;
  failed_pods : Z;
  cpu_utilization : float;
  memory_utilization : float;
  disk_utilization : float;
  critical_issues : list string;
  warnings : list string;
  recommendations : list string
}.
End ClusterHealth.

(** ** Health classifier: the body of [analyze_cluster_health] once the two
    record lists are fetched *)

(** [[pod for pod in pods if pod.restarts > 5]] *)
Definition high_restart_pods (pods : list PodMetrics.t) : list PodMetrics.t :=
  List.filter (fun pod => 5 <? PodMetrics.restarts pod) pods.

(** [pod.status in ["Failed", "CrashLoopBackOff"]] *)
Definition is_failed (pod : PodMetrics.t) : bool :=
  py_eq_str (PodMetrics.status pod) "Failed"
  || py_eq_str (PodMetrics.status pod) "CrashLoopBackOff".

(** [if c: l.append(x)] *)
Definition append_if (c : bool) (x : string) (l : list string) : list string :=
  if c then l ++ [x] else l.

Definition classify_cluster_health
  (nodes : list NodeMetrics.t) (pods : list PodMetrics.t) : ClusterHealth.t :=
  let healthy_nodes := sum_ones (fun node => String.eqb (NodeMetrics.status node) "Ready") nodes in
  let unhealthy_nodes := len nodes - healthy_nodes in
  let running_pods := sum_ones (fun pod => py_eq_str (PodMetrics.status pod) "Running") pods in
  let pending_pods := sum_ones (fun pod => py_eq_str (PodMetrics.status pod) "Pending") pods in
  let failed_pods := sum_ones is_failed pods in
  let cpu_utilization := 0%float in
  let memory_utilization := 0%float in
  let critical_issues := [] in
  let warnings := [] in
  let recommendations := [] in
  let critical_issues :=
    append_if (0 <? unhealthy_nodes)
      (py_str_int unhealthy_nodes +:+ " nodes are not ready") critical_issues in
  let critical_issues :=
    append_if (0 <? failed_pods)
      (py_str_int failed_pods +:+ " pods are in failed state") critical_issues in
  let warnings :=
    append_if (0 <? pending_pods)
      (py_str_int pending_pods +:+ " pods are pending") warnings in
  let high_restart := high_restart_pods pods in
  let warnings :=
    append_if (nonempty high_restart)
      (py_str_int (len high_restart) +:+ " pods have high restart counts") warnings in
  let recommendations :=
    append_if (0 <? unhealthy_nodes)
      "Investigate unhealthy nodes and consider replacement" recommendations in
  let recommendations :=
    append_if (0 <? pending_pods)
      "Check resource constraints and node availability" recommendations in
  let recommendations :=
    append_if (nonempty high_restart)
      "Investigate pods with high restart counts for stability issues" recommendations in
  let overall_status := "Healthy" in
  let overall_status :=
    if nonempty critical_issues then "Critical"
    else if nonempty warnings then "Warning"
    else overall_status in
  ClusterHealth.mk overall_status (len nodes) healthy_nodes unhealthy_nodes
    (len pods) running_pods pending_pods failed_pods
    cpu_utilization memory_utilization 0%float
    critical_issues warnings recommendations.

(** [f"{v}"] *)
Definition py_format `{PyEnv} (v : pyvalue) : string :=
  match v with
  | PyStr s => s
  | PyInt n => py_str_int n
  | PyNone => "None"
  | PyBool b => if b then "True" else "False"
  | _ => py_repr v
  end.

(** ** KubernetesClient *)

(** [_calculate_age]: every exception inside is caught, a value without a
    [replace] method included. *)
Definition _calculate_age `{PyEnv} (timestamp : pyvalue) : string :=
  match timestamp with
  | PyStr s =>
      match timedelta_since (str_replace "Z" "+00:00" s) with
      | Some (days, seconds) =>
          if 0 <? days then py_str_int days +:+ "d"
          else if 3600 <? seconds then py_str_int (seconds / 3600) +:+ "h"
          else py_str_int (seconds / 60) +:+ "m"
      | None => "Unknown"
      end
  | _ => "Unknown"
  end.

(** The lines of a usage snapshot: [metrics_stdout.strip().split('\n')]. *)
Definition snapshot_lines (metrics_stdout : string) : list string :=
  str_split_on "010" (str_strip metrics_stdout).

(** The loop that fills [metrics_map] in [get_nodes_metrics]; a later line
    for the same name overwrites the earlier one. *)
Definition node_metrics_line (m : gmap string (string * string)) (line : string)
  : gmap string (string * string) :=
  if negb (String.eqb line EmptyString) then
    match str_split line with
    | p0 :: p1 :: p2 :: _ => <[p0 := (p1, p2)]> m
    | _ => m
    end
  else m.

Definition node_metrics_map (metrics_stdout : string) : gmap string (string * string) :=
  fold_left node_metrics_line (snapshot_lines metrics_stdout) ∅.

(** The same loop in [get_pods_metrics], keyed [namespace:name] when every
    namespace is listed. *)
Definition pod_metrics_line (namespace : string) (m : gmap string (string * string))
  (line : string) : gmap string (string * string) :=
  if negb (String.eqb line EmptyString) then
    if String.eqb namespace "all" then
      match str_split line with
      | p0 :: p1 :: p2 :: p3 :: _ => <[p0 +:+ ":" +:+ p1 := (p2, p3)]> m
      | _ => m
      end
    else
      match str_split line with
      | p0 :: p1 :: p2 :: _ => <[p0 := (p1, p2)]> m
      | _ => m
      end
  else m.

Definition pod_metrics_map (namespace metrics_stdout : string)
  : gmap string (string * string) :=
  fold_left (pod_metrics_line namespace) (snapshot_lines metrics_stdout) ∅.

(** [(metrics_map.get(key, {}).get('cpu', 'N/A'),
      metrics_map.get(key, {}).get('memory', 'N/A'))]: a [list] or [dict]
    key is unhashable, any other key that is no [str] misses. *)
Definition usage_of (m : gmap string (string * string)) (key : pyvalue)
  : Result (string * string) :=
  match key with
  | PyStr s =>
      match m !! s with
      | Some cm => Ok cm
      | None => Ok ("N/A", "N/A")
      end
  | PyList _ | PyDict _ => Raise (TypeError ("unhashable type: '" +:+ type_name key +:+ "'"))
  | _ => Ok ("N/A", "N/A")
  end.

(** [any(c['type'] == 'Ready' and c['status'] == 'True' for c in conditions)]:
    [and] looks at [status] only once [type] matched, [any] stops at the
    first hit. *)
Fixpoint any_ready (conditions : list pyvalue) : Result bool :=
  match conditions with
  | [] => Ok false
  | condition :: rest =>
      ty <- py_getitem condition "type" ;;
      if py_eq_str ty "Ready" then
        st <- py_getitem condition "status" ;;
        if py_eq_str st "True" then Ok true else any_ready rest
      else any_ready rest
  end.

(** The body of the [for node in ...] loop of [get_nodes_metrics]. *)
Definition node_record `{PyEnv} (metrics_map : gmap string (string * string))
  (node : pyvalue) : Result NodeMetrics.t :=
  metadata <- py_getitem node "metadata" ;;
  name <- py_getitem metadata "name" ;;
  node_status <- py_getitem node "status" ;;
  conditions <- py_getitem node_status "conditions" ;;
  conditions <- py_iter conditions ;;
  ready <- any_ready conditions ;;
  let status := if ready then "Ready" else "NotReady" in
  timestamp <- py_getitem metadata "creationTimestamp" ;;
  let age := _calculate_age timestamp in
  node_info <- py_getitem node_status "nodeInfo" ;;
  version <- py_getitem node_info "kubeletVersion" ;;
  labels <- py_get metadata "labels" (PyDict []) ;;
  instance_type <- py_get labels "node.kubernetes.io/instance-type" PyNone ;;
  labels <- py_get metadata "labels" (PyDict []) ;;
  zone <- py_get labels "topology.kubernetes.io/zone" PyNone ;;
  usage <- usage_of metrics_map name ;;
  Ok (NodeMetrics.mk name (fst usage) (snd usage) "N/A" status age
        version instance_type zone).

(** [except json.JSONDecodeError as e] around a listing: the records built
    so far are returned, and none is built before [json.loads] returns;
    any other exception goes on to the caller. *)
Definition except_json_decode_error {A : Type} (e : exn) : Result (list A) :=
  match e with
  | JSONDecodeError _ => Ok []
  | _ => Raise e
  end.

Definition get_nodes_metrics `{PyEnv} (kubectl : Kubectl) : Result (list NodeMetrics.t) :=
  let '(stdout, stderr, code) := kubectl ["get"; "nodes"; "-o"; "json"] in
  if negb (code =? 0) then Ok []
  else
    match json_loads stdout with
    | inr e => except_json_decode_error e
    | inl nodes_data =>
        let '(metrics_stdout, _, metrics_code) :=
          kubectl ["top"; "nodes"; "--no-headers"] in
        let metrics_map :=
          if metrics_code =? 0 then node_metrics_map metrics_stdout else ∅ in
        items <- py_get nodes_data "items" (PyList []) ;;
        items <- py_iter items ;;
        for_each (node_record metrics_map) items
    end.

(** [sum(cs.get('restartCount', 0) for cs in ...)] *)
Definition sum_restarts (statuses : list pyvalue) : Result Z :=
  for_fold (fun acc cs => n <- py_get cs "restartCount" (PyInt 0) ;; py_add_int acc n)
    statuses 0.

(** The body of the [for pod in ...] loop of [get_pods_metrics]. *)
Definition pod_record `{PyEnv} (namespace : string)
  (metrics_map : gmap string (string * string)) (pod : pyvalue) : Result PodMetrics.t :=
  metadata <- py_getitem pod "metadata" ;;
  name <- py_getitem metadata "name" ;;
  pod_namespace <- py_getitem metadata "namespace" ;;
  pod_status <- py_getitem pod "status" ;;
  status <- py_getitem pod_status "phase" ;;
  statuses <- py_get pod_status "containerStatuses" (PyList []) ;;
  statuses <- py_iter statuses ;;
  restarts <- sum_restarts statuses ;;
  timestamp <- py_getitem metadata "creationTimestamp" ;;
  let age := _calculate_age timestamp in
  spec <- py_getitem pod "spec" ;;
  node <- py_get spec "nodeName" (PyStr "N/A") ;;
  let key :=
    if String.eqb namespace "all"
    then PyStr (py_format pod_namespace +:+ ":" +:+ py_format name)
    else name in
  usage <- usage_of metrics_map key ;;
  Ok (PodMetrics.mk name pod_namespace status (fst usage) (snd usage)
        restarts age node).

Definition namespace_args (namespace : string) : list string :=
  if negb (String.eqb namespace "all") then ["-n"; namespace] else ["--all-namespaces"].

Definition get_pods_metrics `{PyEnv} (kubectl : Kubectl) (namespace : string)
  : Result (list PodMetrics.t) :=
  let args := ["get"; "pods"; "-o"; "json"] ++ namespace_args namespace in
  let '(stdout, stderr, code) := kubectl args in
  if negb (code =? 0) then Ok []
  else
    match json_loads stdout with
    | inr e => except_json_decode_error e
    | inl pods_data =>
        let metrics_args := ["top"; "pods"; "--no-headers"] ++ namespace_args namespace in
        let '(metrics_stdout, _, metrics_code) := kubectl metrics_args in
        let metrics_map :=
          if metrics_code =? 0 then pod_metrics_map namespace metrics_stdout else ∅ in
        items <- py_get pods_data "items" (PyList []) ;;
        items <- py_iter items ;;
        for_each (pod_record namespace metrics_map) items
    end.

(** [analyze_cluster_health]: the two fetches, then the classifier. *)
Definition analyze_cluster_health `{PyEnv} (kubectl : Kubectl) : Result ClusterHealth.t :=
  nodes <- get_nodes_metrics kubectl ;;
  pods <- get_pods_metrics kubectl "all" ;;
  Ok (classify_cluster_health nodes pods).

(** *** Karpenter inspector *)

(** One entry of [karpenter_analysis["node_pools"]]. *)
Module NodePool.
Record t : Type := mk {
  name : pyvalue;
  instance_types : pyvalue;
  limits : pyvalue
}.
End NodePool.

(** The [karpenter_analysis] dict, its keys fixed by the code. *)
Module Karpenter.
Record t : Type := mk {
  installed : bool;
  version : option string;
  node_pools : list NodePool.t;
  provisioned_nodes : Z;
  issues : list string;
  recommendations : list string
}.

Definition initial : t := mk false None [] 0 [] [].

Definition set_installed (k : t) : t :=
  mk true (version k) (node_pools k) (provisioned_nodes k) (issues k) (recommendations k).
Definition set_version (v : option string) (k : t) : t :=
  mk (installed k) v (node_pools k) (provisioned_nodes k) (issues k) (recommendations k).
Definition set_node_pools (p : list NodePool.t) (k : t) : t :=
  mk (installed k) (version k) p (provisioned_nodes k) (issues k) (recommendations k).
Definition set_provisioned_nodes (n : Z) (k : t) : t :=
  mk (installed k) (version k) (node_pools k) n (issues k) (recommendations k).
Definition append_issue (msg : string) (k : t) : t :=
  mk (installed k) (version k) (node_pools k) (provisioned_nodes k)
    (issues k ++ [msg]) (recommendations k).
End Karpenter.

(** The [for container in containers] loop: the tag of the first image that
    mentions karpenter; [None] is the value the key starts with. *)
Fixpoint find_version (containers : list pyvalue) : Result (option string) :=
  match containers with
  | [] => Ok None
  | container :: rest =>
      image <- py_getitem container "image" ;;
      hit <- py_contains "karpenter" image ;;
      if hit then
        image <- py_getitem container "image" ;;
        tag <- py_split_last image ":" ;;
        Ok (Some tag)
      else find_version rest
  end.

(** First probe, after [installed] is set: parse the deployment and read
    the version. *)
Definition probe_version `{PyEnv} (stdout : string) : Result (option string) :=
  match json_loads stdout with
  | inr e => Raise e
  | inl deployment_data =>
      spec <- py_getitem deployment_data "spec" ;;
      template <- py_getitem spec "template" ;;
      spec <- py_getitem template "spec" ;;
      containers <- py_getitem spec "containers" ;;
      containers <- py_iter containers ;;
      find_version containers
  end.

Definition node_pool_entry (np : pyvalue) : Result NodePool.t :=
  metadata <- py_getitem np "metadata" ;;
  name <- py_getitem metadata "name" ;;
  spec <- py_getitem np "spec" ;;
  instance_types <- py_get spec "requirements" (PyList []) ;;
  spec <- py_getitem np "spec" ;;
  limits <- py_get spec "limits" (PyDict []) ;;
  Ok (NodePool.mk name instance_types limits).

(** Second probe: the list comprehension over the NodePools. *)
Definition probe_node_pools `{PyEnv} (stdout : string) : Result (list NodePool.t) :=
  match json_loads stdout with
  | inr e => Raise e
  | inl nodepools_data =>
      items <- py_get nodepools_data "items" (PyList []) ;;
      items <- py_iter items ;;
      for_each node_pool_entry items
  end.

(** Third probe: the number of nodes carrying the provisioner label. *)
Definition probe_provisioned_nodes `{PyEnv} (stdout : string) : Result Z :=
  match json_loads stdout with
  | inr e => Raise e
  | inl nodes_data =>
      items <- py_get nodes_data "items" (PyList []) ;;
      py_len items
  end.

Definition karpenter_deployment_args : list string :=
  ["get"; "deployment"; "karpenter"; "-n"; "karpenter"; "-o"; "json"].
Definition karpenter_nodepools_args : list string :=
  ["get"; "nodepools"; "-o"; "json"].
Definition karpenter_nodes_args : list string :=
  ["get"; "nodes"; "-l"; "karpenter.sh/provisioner-name"; "-o"; "json"].

(** [except Exception as e]: the dict keeps what was written before the
    exception, and gains one issue. *)
Definition karpenter_failed (k : Karpenter.t) (e : exn) : Karpenter.t :=
  Karpenter.append_issue ("Error analyzing Karpenter: " +:+ str_exn e) k.

Definition analyze_karpenter `{PyEnv} (kubectl : Kubectl) : Karpenter.t :=
  let k := Karpenter.initial in
  let '(stdout, stderr, code) := kubectl karpenter_deployment_args in
  if code =? 0 then
    let k := Karpenter.set_installed k in
    match probe_version stdout with
    | Raise e => karpenter_failed k e
    | Ok version =>
        let k := Karpenter.set_version version k in
        let '(stdout, stderr, code) := kubectl karpenter_nodepools_args in
        match (if code =? 0
               then pools <- probe_node_pools stdout ;; Ok (Karpenter.set_node_pools pools k)
               else Ok k) with
        | Raise e => karpenter_failed k e
        | Ok k =>
            let '(stdout, stderr, code) := kubectl karpenter_nodes_args in
            match (if code =? 0
                   then n <- probe_provisioned_nodes stdout ;;
                        Ok (Karpenter.set_provisioned_nodes n k)
                   else Ok k) with
            | Raise e => karpenter_failed k e
            | Ok k => k
            end
        end
    end
  else k.

(** *** ArgoCD inspector *)

Module AppInfo.
Record t : Type := mk {
  name : pyvalue;
  health : pyvalue;
  sync : pyvalue;
  repo : pyvalue
}.
End AppInfo.

Module ArgoCD.
Record t : Type := mk {
  installed : bool;
  applications : list AppInfo.t;
  health_status : string;
  sync_status : string
}.

Definition initial : t := mk false [] "Unknown" "Unknown".
End ArgoCD.

Definition app_info (app : pyvalue) : Result AppInfo.t :=
  metadata <- py_getitem app "metadata" ;;
  name <- py_getitem metadata "name" ;;
  status <- py_getitem app "status" ;;
  health <- py_get status "health" (PyDict []) ;;
  health <- py_get health "status" (PyStr "Unknown") ;;
  status <- py_getitem app "status" ;;
  sync <- py_get status "sync" (PyDict []) ;;
  sync <- py_get sync "status" (PyStr "Unknown") ;;
  spec <- py_getitem app "spec" ;;
  source <- py_getitem spec "source" ;;
  repo <- py_getitem source "repoURL" ;;
  Ok (AppInfo.mk name health sync repo).

(** The [for app in ...] loop.  [applications] is appended to in place, so
    the entries built before an exception stay in the result; the two
    counters are locals. *)
Fixpoint apps_loop (apps : list pyvalue) (applications : list AppInfo.t)
  (healthy_apps synced_apps : Z) : list AppInfo.t * Result (Z * Z) :=
  match apps with
  | [] => (applications, Ok (healthy_apps, synced_apps))
  | app :: rest =>
      match app_info app with
      | Raise e => (applications, Raise e)
      | Ok info =>
          apps_loop rest (applications ++ [info])
            (if py_eq_str (AppInfo.health info) "Healthy" then healthy_apps + 1 else healthy_apps)
            (if py_eq_str (AppInfo.sync info) "Synced" then synced_apps + 1 else synced_apps)
      end
  end.

Definition argocd_args : list string :=
  ["get"; "applications"; "-n"; "argocd"; "-o"; "json"].

Definition get_argocd_status `{PyEnv} (kubectl : Kubectl) : ArgoCD.t :=
  let '(stdout, stderr, code) := kubectl argocd_args in
  if code =? 0 then
    match json_loads stdout with
    | inr _ => ArgoCD.mk true [] "Unknown" "Unknown"
    | inl apps_data =>
        match (items <- py_get apps_data "items" (PyList []) ;; py_iter items) with
        | Raise _ => ArgoCD.mk true [] "Unknown" "Unknown"
        | Ok apps =>
            match apps_loop apps [] 0 0 with
            | (applications, Raise _) => ArgoCD.mk true applications "Unknown" "Unknown"
            | (applications, Ok (healthy_apps, synced_apps)) =>
                match (items <- py_get apps_data "items" (PyList []) ;; py_len items) with
                | Raise _ => ArgoCD.mk true applications "Unknown" "Unknown"
                | Ok total_apps =>
                    if 0 <? total_apps then
                      ArgoCD.mk true applications
                        (py_str_int healthy_apps +:+ "/" +:+ py_str_int total_apps +:+ " Healthy")
                        (py_str_int synced_apps +:+ "/" +:+ py_str_int total_apps +:+ " Synced")
                    else ArgoCD.mk true applications "Unknown" "Unknown"
                end
            end
        end
    end
  else ArgoCD.initial.

(** ** Report renderer *)

Inductive ClusterProvider : Type := EKS | GKE | AKS | GENERIC.

(** [provider.value.upper()] *)
Definition provider_upper (p : ClusterProvider) : string :=
  match p with
  | EKS => "EKS"
  | GKE => "GKE"
  | AKS => "AKS"
  | GENERIC => "GENERIC"
  end.

(** [_detect_provider], from the outcome of [subprocess.run] on
    [kubectl cluster-info dump]: the completed process as
    [(stdout, returncode)], or the exception it raised (a missing
    [kubectl], the 30 s timeout), which the method catches. *)
Definition _detect_provider (result : Result (string * Z)) : ClusterProvider :=
  match result with
  | Ok (stdout, returncode) =>
      if returncode =? 0 then
        let cluster_info := stdout in
        if str_contains "eks.amazonaws.com" cluster_info then EKS
        else if str_contains "gke.googleapis.com" cluster_info then GKE
        else if str_contains "aks.azure.com" cluster_info then AKS
        else GENERIC
      else GENERIC
  | Raise _ => GENERIC
  end.

(** A reading of [datetime.now()]: a naive local time (years 1000..9999). *)
Module datetime.
Record t : Type := mk {
  year : Z;
  month : Z;
  day : Z;
  hour : Z;
  minute : Z;
  second : Z;
  microsecond : Z
}.

(** [strftime('%Y-%m-%d %H:%M:%S')] *)
Definition strftime (d : t) : string :=
  pad 4 (year d) +:+ "-" +:+ pad 2 (month d) +:+ "-" +:+ pad 2 (day d) +:+ " "
  +:+ pad 2 (hour d) +:+ ":" +:+ pad 2 (minute d) +:+ ":" +:+ pad 2 (second d).

(** [isoformat()]: the fraction is printed only when it is not zero. *)
Definition isoformat (d : t) : string :=
  pad 4 (year d) +:+ "-" +:+ pad 2 (month d) +:+ "-" +:+ pad 2 (day d) +:+ "T"
  +:+ pad 2 (hour d) +:+ ":" +:+ pad 2 (minute d) +:+ ":" +:+ pad 2 (second d)
  +:+ (if microsecond d =? 0 then EmptyString else "." +:+ pad 6 (microsecond d)).
End datetime.

(** [f"{x:.1f}"]: the binary value rounded to one decimal, ties to even. *)
Definition format_1f (x : float) : string :=
  match Prim2SF x with
  | S754_zero s => if s then "-0.0" else "0.0"
  | S754_infinity s => if s then "-inf" else "inf"
  | S754_nan => "nan"
  | S754_finite s m e =>
      let num := Z.pos m * 10 * 2 ^ Z.max e 0 in
      let den := 2 ^ Z.max (- e) 0 in
      let q := num / den in
      let r := num mod den in
      let tenths :=
        if (den <? 2 * r) || ((den =? 2 * r) && Z.odd q) then q + 1 else q in
      (if s then "-" else EmptyString)
      +:+ py_str_int (tenths / 10) +:+ "." +:+ py_str_int (tenths mod 10)
  end.

(** [report += f"- ... {x}\n"] for each [x] of a list. *)
Definition append_lines (bullet : string) (items : list string) (report : string) : string :=
  fold_left (fun report item => report +:+ bullet +:+ item +:+ nl) items report.

Definition node_row `{PyEnv} (node : NodeMetrics.t) : string :=
  "| " +:+ py_format (NodeMetrics.name node)
  +:+ " | " +:+ NodeMetrics.status node
  +:+ " | " +:+ NodeMetrics.cpu_usage node
  +:+ " | " +:+ NodeMetrics.memory_usage node
  +:+ " | " +:+ NodeMetrics.age node
  +:+ " | " +:+ py_format (NodeMetrics.version node)
  +:+ " | " +:+ (if py_truthy (NodeMetrics.instance_type node)
                 then py_format (NodeMetrics.instance_type node) else "N/A")
  +:+ " |" +:+ nl.

Definition pod_row `{PyEnv} (pod : PodMetrics.t) : string :=
  "| " +:+ py_format (PodMetrics.name pod)
  +:+ " | " +:+ py_format (PodMetrics.namespace pod)
  +:+ " | " +:+ py_format (PodMetrics.status pod)
  +:+ " | " +:+ py_str_int (PodMetrics.restarts pod)
  +:+ " | " +:+ py_format (PodMetrics.node pod)
  +:+ " |" +:+ nl.

(** [[pod for pod in pods if pod.status != "Running" or pod.restarts > 5]] *)
Definition problem_pods (pods : list PodMetrics.t) : list PodMetrics.t :=
  List.filter
    (fun pod => negb (py_eq_str (PodMetrics.status pod) "Running")
                || (5 <? PodMetrics.restarts pod))
    pods.

Definition app_line `{PyEnv} (app : AppInfo.t) : string :=
  "- " +:+ py_format (AppInfo.name app) +:+ ": " +:+ py_format (AppInfo.health app)
  +:+ "/" +:+ py_format (AppInfo.sync app) +:+ nl.

(** [generate_markdown_report] builds [report] by appending block after
    block; each block below is one stretch of the function, from the text
    so far to the text after it.  [now] is the reading of [datetime.now()]
    the function takes itself and [provider] the module-level
    [k8s_client.provider]. *)
Definition report_summary (now : datetime.t) (provider : ClusterProvider)
  (health : ClusterHealth.t) : string :=
  "# Kubernetes Cluster Health Report

Generated: " +:+ datetime.strftime now +:+ "
Provider: " +:+ provider_upper provider +:+ "

## 🎯 Overall Health Status: " +:+ ClusterHealth.overall_status health +:+ "

### 📊 Cluster Summary
- **Nodes**: " +:+ py_str_int (ClusterHealth.node_count health)
  +:+ " total (" +:+ py_str_int (ClusterHealth.healthy_nodes health)
  +:+ " healthy, " +:+ py_str_int (ClusterHealth.unhealthy_nodes health) +:+ " unhealthy)
- **Pods**: " +:+ py_str_int (ClusterHealth.total_pods health)
  +:+ " total (" +:+ py_str_int (ClusterHealth.running_pods health)
  +:+ " running, " +:+ py_str_int (ClusterHealth.pending_pods health)
  +:+ " pending, " +:+ py_str_int (ClusterHealth.failed_pods health) +:+ " failed)
- **CPU Utilization**: " +:+ format_1f (ClusterHealth.cpu_utilization health) +:+ "%
- **Memory Utilization**: " +:+ format_1f (ClusterHealth.memory_utilization health) +:+ "%

### 🔴 Critical Issues
".

Definition add_critical_issues (health : ClusterHealth.t) (report : string) : string :=
  if nonempty (ClusterHealth.critical_issues health)
  then append_lines "- ❌ " (ClusterHealth.critical_issues health) report
  else report +:+ "- ✅ No critical issues detected" +:+ nl.

Definition add_warnings (health : ClusterHealth.t) (report : string) : string :=
  let report := report +:+ nl +:+ "### ⚠️ Warnings" +:+ nl in
  if nonempty (ClusterHealth.warnings health)
  then append_lines "- ⚠️ " (ClusterHealth.warnings health) report
  else report +:+ "- ✅ No warnings" +:+ nl.

Definition add_node_details `{PyEnv} (nodes : list NodeMetrics.t) (report : string) : string :=
  let report :=
    report +:+ nl +:+ "## 🖥️ Node Details (" +:+ py_str_int (len nodes) +:+ " nodes)"
    +:+ nl +:+ nl in
  let report :=
    report +:+ "| Name | Status | CPU | Memory | Age | Version | Instance Type |" +:+ nl in
  let report :=
    report +:+ "|------|--------|-----|--------|-----|---------|---------------|" +:+ nl in
  let report :=
    fold_left (fun report node => report +:+ node_row node) (firstn 10 nodes) report in
  if 10 <? len nodes
  then report +:+ nl +:+ "*... and " +:+ py_str_int (len nodes - 10) +:+ " more nodes*" +:+ nl
  else report.

Definition add_problem_pods `{PyEnv} (pods : list PodMetrics.t) (report : string) : string :=
  let problem := problem_pods pods in
  if nonempty problem then
    let report :=
      report +:+ nl +:+ "## 🚨 Problem Pods (" +:+ py_str_int (len problem) +:+ " pods)"
      +:+ nl +:+ nl in
    let report := report +:+ "| Name | Namespace | Status | Restarts | Node |" +:+ nl in
    let report := report +:+ "|------|-----------|--------|----------|------|" +:+ nl in
    fold_left (fun report pod => report +:+ pod_row pod) (firstn 20 problem) report
  else report.

Definition add_karpenter (karpenter : Karpenter.t) (report : string) : string :=
  if Karpenter.installed karpenter then
    let report := report +:+ nl +:+ "## 🚀 Karpenter Status" +:+ nl in
    let report :=
      report +:+ "- **Version**: "
      +:+ match Karpenter.version karpenter with Some v => v | None => "None" end +:+ nl in
    let report :=
      report +:+ "- **Node Pools**: " +:+ py_str_int (len (Karpenter.node_pools karpenter))
      +:+ nl in
    let report :=
      report +:+ "- **Provisioned Nodes**: "
      +:+ py_str_int (Karpenter.provisioned_nodes karpenter) +:+ nl in
    if nonempty (Karpenter.issues karpenter) then
      let report := report +:+ nl +:+ "**Issues:**" +:+ nl in
      append_lines "- ❌ " (Karpenter.issues karpenter) report
    else report
  else report +:+ nl +:+ "## 🚀 Karpenter Status" +:+ nl +:+ "- ❌ Not installed" +:+ nl.

Definition add_argocd `{PyEnv} (argocd : ArgoCD.t) (report : string) : string :=
  if ArgoCD.installed argocd then
    let report := report +:+ nl +:+ "## 🔄 ArgoCD Status" +:+ nl in
    let report :=
      report +:+ "- **Applications**: " +:+ py_str_int (len (ArgoCD.applications argocd))
      +:+ nl in
    let report := report +:+ "- **Health**: " +:+ ArgoCD.health_status argocd +:+ nl in
    let report := report +:+ "- **Sync**: " +:+ ArgoCD.sync_status argocd +:+ nl in
    if nonempty (ArgoCD.applications argocd) then
      let report := report +:+ nl +:+ "**Applications:**" +:+ nl in
      fold_left (fun report app => report +:+ app_line app)
        (firstn 10 (ArgoCD.applications argocd)) report
    else report
  else report +:+ nl +:+ "## 🔄 ArgoCD Status" +:+ nl +:+ "- ❌ Not installed" +:+ nl.

Definition add_recommendations (include_recommendations : bool) (health : ClusterHealth.t)
  (report : string) : string :=
  if include_recommendations && nonempty (ClusterHealth.recommendations health) then
    let report := report +:+ nl +:+ "## 💡 Recommendations" +:+ nl in
    append_lines "- 🔧 " (ClusterHealth.recommendations health) report
  else report.

Definition generate_markdown_report `{PyEnv} (now : datetime.t) (provider : ClusterProvider)
  (health : ClusterHealth.t) (nodes : list NodeMetrics.t) (pods : list PodMetrics.t)
  (karpenter : Karpenter.t) (argocd : ArgoCD.t) (include_recommendations : bool) : string :=
  let report := report_summary now provider health in
  let report := add_critical_issues health report in
  let report := add_warnings health report in
  let report := add_node_details nodes report in
  let report := add_problem_pods pods report in
  let report := add_karpenter karpenter report in
  let report := add_argocd argocd report in
  let report := add_recommendations include_recommendations health report in
  report.

(** What the problem-pod block writes: nothing at all when no pod
    qualifies, else the heading with the number of qualifying pods, the
    table head and one row for each of the first 20 of them. *)
Definition problem_pods_section `{PyEnv} (pods : list PodMetrics.t) : string :=
  match problem_pods pods with
  | [] => EmptyString
  | _ :: _ =>
      nl +:+ "## 🚨 Problem Pods (" +:+ py_str_int (len (problem_pods pods)) +:+ " pods)"
      +:+ nl +:+ nl
      +:+ "| Name | Namespace | Status | Restarts | Node |" +:+ nl
      +:+ "|------|-----------|--------|----------|------|" +:+ nl
      +:+ join_chars (map pod_row (firstn 20 (problem_pods pods)))
  end.

(** *** The structured formats *)

Definition py_str_list (l : list string) : pyvalue := PyList (map PyStr l).

(** [asdict(health)] *)
Definition asdict_health (h : ClusterHealth.t) : pyvalue :=
  PyDict [
    ("overall_status", PyStr (ClusterHealth.overall_status h));
    ("node_count", PyInt (ClusterHealth.node_count h));
    ("healthy_nodes", PyInt (ClusterHealth.healthy_nodes h));
    ("unhealthy_nodes", PyInt (ClusterHealth.unhealthy_nodes h));
    ("total_pods", PyInt (ClusterHealth.total_pods h));
    ("running_pods", PyInt (ClusterHealth.running_pods h));
    ("pending_pods", PyInt (ClusterHealth.pending_pods h));
    ("failed_pods", PyInt (ClusterHealth.failed_pods h));
    ("cpu_utilization", PyFloat (ClusterHealth.cpu_utilization h));
    ("memory_utilization", PyFloat (ClusterHealth.memory_utilization h));
    ("disk_utilization", PyFloat (ClusterHealth.disk_utilization h));
    ("critical_issues", py_str_list (ClusterHealth.critical_issues h));
    ("warnings", py_str_list (ClusterHealth.warnings h));
    ("recommendations", py_str_list (ClusterHealth.recommendations h))
  ].

(** [asdict(node)] *)
Definition asdict_node (n : NodeMetrics.t) : pyvalue :=
  PyDict [
    ("name", NodeMetrics.name n);
    ("cpu_usage", PyStr (NodeMetrics.cpu_usage n));
    ("memory_usage", PyStr (NodeMetrics.memory_usage n));
    ("disk_usage", PyStr (NodeMetrics.disk_usage n));
    ("status", PyStr (NodeMetrics.status n));
    ("age", PyStr (NodeMetrics.age n));
    ("version", NodeMetrics.version n);
    ("instance_type", NodeMetrics.instance_type n);
    ("zone", NodeMetrics.zone n)
  ].

(** [asdict(pod)] *)
Definition asdict_pod (p : PodMetrics.t) : pyvalue :=
  PyDict [
    ("name", PodMetrics.name p);
    ("namespace", PodMetrics.namespace p);
    ("status", PodMetrics.status p);
    ("cpu_usage", PyStr (PodMetrics.cpu_usage p));
    ("memory_usage", PyStr (PodMetrics.memory_usage p));
    ("restarts", PyInt (PodMetrics.restarts p));
    ("age", PyStr (PodMetrics.age p));
    ("node", PodMetrics.node p)
  ].

(** The two inspector results as the dicts they are in the source. *)
Definition node_pool_dict (np : NodePool.t) : pyvalue :=
  PyDict [
    ("name", NodePool.name np);
    ("instance_types", NodePool.instance_types np);
    ("limits", NodePool.limits np)
  ].

Definition karpenter_dict (k : Karpenter.t) : pyvalue :=
  PyDict [
    ("installed", PyBool (Karpenter.installed k));
    ("version", match Karpenter.version k with Some v => PyStr v | None => PyNone end);
    ("node_pools", PyList (map node_pool_dict (Karpenter.node_pools k)));
    ("provisioned_nodes", PyInt (Karpenter.provisioned_nodes k));
    ("issues", py_str_list (Karpenter.issues k));
    ("recommendations", py_str_list (Karpenter.recommendations k))
  ].

Definition app_info_dict (a : AppInfo.t) : pyvalue :=
  PyDict [
    ("name", AppInfo.name a);
    ("health", AppInfo.health a);
    ("sync", AppInfo.sync a);
    ("repo", AppInfo.repo a)
  ].

Definition argocd_dict (a : ArgoCD.t) : pyvalue :=
  PyDict [
    ("installed", PyBool (ArgoCD.installed a));
    ("applications", PyList (map app_info_dict (ArgoCD.applications a)));
    ("health_status", PyStr (ArgoCD.health_status a));
    ("sync_status", PyStr (ArgoCD.sync_status a))
  ].

(** [report_data], the same dict in the [yaml] and in the [json] branch. *)
Definition report_data (now : datetime.t) (health : ClusterHealth.t)
  (nodes : list NodeMetrics.t) (karpenter : Karpenter.t) (argocd : ArgoCD.t) : pyvalue :=
  PyDict [
    ("cluster_health", asdict_health health);
    ("nodes", PyList (map asdict_node nodes));
    ("karpenter", karpenter_dict karpenter);
    ("argocd", argocd_dict argocd);
    ("generated_at", PyStr (datetime.isoformat now))
  ].

(** The [generate_health_report] branch of [handle_call_tool], from the
    point where the five results are gathered. *)
Definition generate_health_report `{PyEnv} (format_type : string)
  (include_recommendations : bool) (now : datetime.t) (provider : ClusterProvider)
  (health : ClusterHealth.t) (nodes : list NodeMetrics.t) (pods : list PodMetrics.t)
  (karpenter : Karpenter.t) (argocd : ArgoCD.t) : string :=
  if String.eqb format_type "markdown" then
    generate_markdown_report now provider health nodes pods karpenter argocd
      include_recommendations
  else if String.eqb format_type "yaml" then
    yaml_dump (report_data now health nodes karpenter argocd)
  else
    json_dumps (report_data now health nodes karpenter argocd).

(** ** Resource-fix generator *)

(** The value of an f-string whose replacement fields are plain names:
    [{{] and [}}] stand for one brace, [{name}] for the value of [name],
    and a single [}] outside a field is rejected when the module is
    compiled. *)
Inductive fstring_result : Type :=
| FValue (s : string)
| FSyntaxError (msg : string)
| FNameError (name : string).

Definition fprepend (prefix : string) (r : fstring_result) : fstring_result :=
  match r with
  | FValue s => FValue (prefix +:+ s)
  | _ => r
  end.

Fixpoint fstring (vars : list (string * string)) (field : option string) (s : string)
  : fstring_result :=
  match s with
  | EmptyString =>
      match field with
      | Some _ => FSyntaxError "f-string: expecting '}'"
      | None => FValue EmptyString
      end
  | String c rest =>
      match field with
      | Some name =>
          if Ascii.eqb c "}" then
            match List.find (fun kv => String.eqb (fst kv) name) vars with
            | Some kv => fprepend (snd kv) (fstring vars None rest)
            | None => FNameError name
            end
          else fstring vars (Some (name +:+ String c EmptyString)) rest
      | None =>
          if Ascii.eqb c "{" then
            match rest with
            | String c' rest' =>
                if Ascii.eqb c' "{" then fprepend "{" (fstring vars None rest')
                else fstring vars (Some EmptyString) rest
            | EmptyString => fstring vars (Some EmptyString) rest
            end
          else if Ascii.eqb c "}" then
            match rest with
            | String c' rest' =>
                if Ascii.eqb c' "}" then fprepend "}" (fstring vars None rest')
                else FSyntaxError "f-string: single '}' is not allowed"
            | EmptyString => FSyntaxError "f-string: single '}' is not allowed"
            end
          else fprepend (String c EmptyString) (fstring vars None rest)
      end
  end.

(** The f-string of the [resource_limits] branch, character for character. *)
Definition resource_limits_template : string :=
  "# Resource Limits Fix for {target}
apiVersion: v1
kind: LimitRange
metadata:
  name: {target}-limits
  namespace: {namespace}
spec:
  limits:
  - default:
      cpu: " +:+ dq +:+ "500m" +:+ dq +:+ "
      memory: " +:+ dq +:+ "512Mi" +:+ dq +:+ "
    defaultRequest:
      cpu: " +:+ dq +:+ "100m" +:+ dq +:+ "
      memory: " +:+ dq +:+ "128Mi" +:+ dq +:+ "
    type: Container
---
# Patch for existing deployment
# kubectl patch deployment {target} -n {namespace} -p '{{" +:+ dq +:+ "spec" +:+ dq
  +:+ ":{{" +:+ dq +:+ "template" +:+ dq +:+ ":{{" +:+ dq +:+ "spec" +:+ dq +:+ ":{{"
  +:+ dq +:+ "containers" +:+ dq +:+ ":[{{" +:+ dq +:+ "name" +:+ dq +:+ ":" +:+ dq
  +:+ "{target}" +:+ dq +:+ "," +:+ dq +:+ "resources" +:+ dq +:+ ":{{" +:+ dq
  +:+ "limits" +:+ dq +:+ ":{{" +:+ dq +:+ "cpu" +:+ dq +:+ ":" +:+ dq +:+ "500m" +:+ dq
  +:+ "," +:+ dq +:+ "memory" +:+ dq +:+ ":" +:+ dq +:+ "512Mi" +:+ dq +:+ "}}," +:+ dq
  +:+ "requests" +:+ dq +:+ ":{{" +:+ dq +:+ "cpu" +:+ dq +:+ ":" +:+ dq +:+ "100m"
  +:+ dq +:+ "," +:+ dq +:+ "memory" +:+ dq +:+ ":" +:+ dq +:+ "128Mi" +:+ dq
  +:+ "}}}}}}]}}}}}}}'
".

(** [generate_resource_fixes].  The source file ends inside the [hpa]
    branch; [later_branches] stands for what follows the first test. *)
Definition generate_resource_fixes
  (later_branches : string -> string -> string -> fstring_result)
  (issue_type target namespace : string) : fstring_result :=
  if String.eqb issue_type "resource_limits" then
    fstring [("target", target); ("namespace", namespace)] None resource_limits_template
  else later_branches issue_type target namespace.

(** ** The MCP tools *)

(** [types.Tool] and [types.TextContent], as far as the server fills them. *)
Module Tool.
Record t : Type := mk {
  name : string;
  description : string;
  inputSchema : pyvalue
}.
End Tool.

Module TextContent.
Record t : Type := mk {
  type : string;
  text : string
}.
End TextContent.

Definition handle_list_tools : list Tool.t := [
  Tool.mk "cluster_health_check"
    "Perform comprehensive cluster health analysis"
    (PyDict [
       ("type", PyStr "object");
       ("properties", PyDict [
          ("include_recommendations", PyDict [
             ("type", PyStr "boolean");
             ("description", PyStr "Include recommendations in the analysis");
             ("default", PyBool true)])])]);
  Tool.mk "get_nodes_status"
    "Get detailed information about cluster nodes"
    (PyDict [
       ("type", PyStr "object");
       ("properties", PyDict [
          ("include_metrics", PyDict [
             ("type", PyStr "boolean");
             ("description", PyStr "Include resource usage metrics");
             ("default", PyBool true)])])]);
  Tool.mk "get_pods_status"
    "Get detailed information about pods"
    (PyDict [
       ("type", PyStr "object");
       ("properties", PyDict [
          ("namespace", PyDict [
             ("type", PyStr "string");
             ("description", PyStr "Specific namespace to query (default: all)");
             ("default", PyStr "all")]);
          ("include_metrics", PyDict [
             ("type", PyStr "boolean");
             ("description", PyStr "Include resource usage metrics");
             ("default", PyBool true)])])]);
  Tool.mk "kubectl_query"
    "Execute kubectl commands"
    (PyDict [
       ("type", PyStr "object");
       ("properties", PyDict [
          ("command", PyDict [
             ("type", PyStr "string");
             ("description", PyStr "kubectl command to execute (without 'kubectl' prefix)")])]);
       ("required", PyList [PyStr "command"])]);
  Tool.mk "helm_query"
    "Execute helm commands"
    (PyDict [
       ("type", PyStr "object");
       ("properties", PyDict [
          ("command", PyDict [
             ("type", PyStr "string");
             ("description", PyStr "helm command to execute (without 'helm' prefix)")])]);
       ("required", PyList [PyStr "command"])]);
  Tool.mk "analyze_karpenter"
    "Analyze Karpenter autoscaler status and configuration"
    (PyDict [
       ("type", PyStr "object");
       ("properties", PyDict [])]);
  Tool.mk "get_argocd_status"
    "Get ArgoCD applications status"
    (PyDict [
       ("type", PyStr "object");
       ("properties", PyDict [])]);
  Tool.mk "generate_health_report"
    "Generate comprehensive cluster health report"
    (PyDict [
       ("type", PyStr "object");
       ("properties", PyDict [
          ("format", PyDict [
             ("type", PyStr "string");
             ("enum", PyList [PyStr "json"; PyStr "markdown"; PyStr "yaml"]);
             ("description", PyStr "Report format");
             ("default", PyStr "markdown")]);
          ("include_recommendations", PyDict [
             ("type", PyStr "boolean");
             ("description", PyStr "Include recommendations");
             ("default", PyBool true)])])]);
  Tool.mk "create_resource_fixes"
    "Generate Kubernetes manifests to fix resource issues"
    (PyDict [
       ("type", PyStr "object");
       ("properties", PyDict [
          ("issue_type", PyDict [
             ("type", PyStr "string");
             ("enum", PyList [PyStr "resource_limits"; PyStr "hpa"; PyStr "pdb";
                              PyStr "node_affinity"]);
             ("description", PyStr "Type of resource issue to fix")]);
          ("target", PyDict [
             ("type", PyStr "string");
             ("description", PyStr "Target resource (deployment, pod, etc.)")]);
          ("namespace", PyDict [
             ("type", PyStr "string");
             ("description", PyStr "Target namespace");
             ("default", PyStr "default")])]);
       ("required", PyList [PyStr "issue_type"; PyStr "target"])])
].

(** What a tool call finds around it.  [provider] is [k8s_client.provider],
    detected once when the module is loaded; [cluster n] is [execute_kubectl]
    while the [n]-th client method of the call runs (no method sends the
    same arguments twice, and the cluster may change between two methods);
    [helm] is [execute_helm]; [clock] is the one reading of
    [datetime.now()] a report takes; [resource_fixes] is
    [generate_resource_fixes], whose text ends inside its second branch. *)
Module Server.
Record t : Type := mk {
  provider : ClusterProvider;
  cluster : nat -> Kubectl;
  helm : list string -> string * string * Z;
  clock : datetime.t;
  resource_fixes : pyvalue -> pyvalue -> pyvalue -> Result string
}.
End Server.

(** [command.split()] *)
Definition py_split (v : pyvalue) : Result (list string) :=
  match v with
  | PyStr s => Ok (str_split s)
  | _ => Raise (AttributeError ("'" +:+ type_name v +:+ "' object has no attribute 'split'"))
  end.

(** [get_pods_metrics(namespace)] for the value a caller hands in.  A
    namespace that is no [str] differs from "all" and is put into the
    argument list, where [create_subprocess_exec] raises on it;
    [execute_kubectl] catches that and answers code 1, so the fetch returns
    no record. *)
Definition get_pods_metrics_for `{PyEnv} (kubectl : Kubectl) (namespace : pyvalue)
  : Result (list PodMetrics.t) :=
  match namespace with
  | PyStr s => get_pods_metrics kubectl s
  | _ => Ok []
  end.

(** [[types.TextContent(type="text", text=text)]] *)
Definition text_content (text : string) : list TextContent.t :=
  [TextContent.mk "text" text].

Definition handle_call_tool `{PyEnv} (server : Server.t) (name : string) (arguments : pyvalue)
  : Result (list TextContent.t) :=
  if String.eqb name "cluster_health_check" then
    health <- analyze_cluster_health (Server.cluster server 0) ;;
    let result := asdict_health health in
    Ok (text_content (json_dumps result))
  else if String.eqb name "get_nodes_status" then
    nodes <- get_nodes_metrics (Server.cluster server 0) ;;
    let result := PyList (map asdict_node nodes) in
    Ok (text_content (json_dumps result))
  else if String.eqb name "get_pods_status" then
    namespace <- py_get arguments "namespace" (PyStr "all") ;;
    pods <- get_pods_metrics_for (Server.cluster server 0) namespace ;;
    let result := PyList (map asdict_pod pods) in
    Ok (text_content (json_dumps result))
  else if String.eqb name "kubectl_query" then
    command <- py_get arguments "command" (PyStr EmptyString) ;;
    args <- py_split command ;;
    let '(stdout, stderr, code) := Server.cluster server 0 args in
    let result := PyDict [
      ("command", PyStr ("kubectl " +:+ py_format command));
      ("returncode", PyInt code);
      ("stdout", PyStr stdout);
      ("stderr", PyStr stderr)
    ] in
    Ok (text_content (json_dumps result))
  else if String.eqb name "helm_query" then
    command <- py_get arguments "command" (PyStr EmptyString) ;;
    args <- py_split command ;;
    let '(stdout, stderr, code) := Server.helm server args in
    let result := PyDict [
      ("command", PyStr ("helm " +:+ py_format command));
      ("returncode", PyInt code);
      ("stdout", PyStr stdout);
      ("stderr", PyStr stderr)
    ] in
    Ok (text_content (json_dumps result))
  else if String.eqb name "analyze_karpenter" then
    let result := karpenter_dict (analyze_karpenter (Server.cluster server 0)) in
    Ok (text_content (json_dumps result))
  else if String.eqb name "get_argocd_status" then
    let result := argocd_dict (get_argocd_status (Server.cluster server 0)) in
    Ok (text_content (json_dumps result))
  else if String.eqb name "generate_health_report" then
    format_type <- py_get arguments "format" (PyStr "markdown") ;;
    include_recommendations <- py_get arguments "include_recommendations" (PyBool true) ;;
    health <- analyze_cluster_health (Server.cluster server 0) ;;
    nodes <- get_nodes_metrics (Server.cluster server 1) ;;
    pods <- get_pods_metrics (Server.cluster server 2) "all" ;;
    let karpenter := analyze_karpenter (Server.cluster server 3) in
    let argocd := get_argocd_status (Server.cluster server 4) in
    let report :=
      if py_eq_str format_type "markdown" then
        generate_markdown_report (Server.clock server) (Server.provider server)
          health nodes pods karpenter argocd (py_truthy include_recommendations)
      else if py_eq_str format_type "yaml" then
        yaml_dump (report_data (Server.clock server) health nodes karpenter argocd)
      else
        json_dumps (report_data (Server.clock server) health nodes karpenter argocd) in
    Ok (text_content report)
  else if String.eqb name "create_resource_fixes" then
    issue_type <- py_get arguments "issue_type" PyNone ;;
    target <- py_get arguments "target" PyNone ;;
    namespace <- py_get arguments "namespace" (PyStr "default") ;;
    manifests <- Server.resource_fixes server issue_type target namespace ;;
    Ok (text_content manifests)
  else
    Ok (text_content ("Unknown tool: " +:+ name)).

(** *** Reading a structured report back

    The inverse direction, written for the round trip: from the value a
    JSON or YAML parser gives for the rendered text to the records. *)

Definition field_str (d : list (string * pyvalue)) (k : string) : option string :=
  match dict_lookup k d with Some (PyStr s) => Some s | _ => None end.

Definition field_int (d : list (string * pyvalue)) (k : string) : option Z :=
  match dict_lookup k d with Some (PyInt n) => Some n | _ => None end.

Definition field_float (d : list (string * pyvalue)) (k : string) : option float :=
  match dict_lookup k d with Some (PyFloat f) => Some f | _ => None end.

Definition field_bool (d : list (string * pyvalue)) (k : string) : option bool :=
  match dict_lookup k d with Some (PyBool b) => Some b | _ => None end.

Definition parse_str (v : pyvalue) : option string :=
  match v with PyStr s => Some s | _ => None end.

Definition field_list {A : Type} (parse : pyvalue -> option A)
  (d : list (string * pyvalue)) (k : string) : option (list A) :=
  match dict_lookup k d with
  | Some (PyList l) => mapM parse l
  | _ => None
  end.

Definition parse_health (v : pyvalue) : option ClusterHealth.t :=
  match v with
  | PyDict d =>
      overall_status ← field_str d "overall_status";
      node_count ← field_int d "node_count";
      healthy_nodes ← field_int d "healthy_nodes";
      unhealthy_nodes ← field_int d "unhealthy_nodes";
      total_pods ← field_int d "total_pods";
      running_pods ← field_int d "running_pods";
      pending_pods ← field_int d "pending_pods";
      failed_pods ← field_int d "failed_pods";
      cpu_utilization ← field_float d "cpu_utilization";
      memory_utilization ← field_float d "memory_utilization";
      disk_utilization ← field_float d "disk_utilization";
      critical_issues ← field_list parse_str d "critical_issues";
      warnings ← field_list parse_str d "warnings";
      recommendations ← field_list parse_str d "recommendations";
      Some (ClusterHealth.mk overall_status node_count healthy_nodes unhealthy_nodes
              total_pods running_pods pending_pods failed_pods
              cpu_utilization memory_utilization disk_utilization
              critical_issues warnings recommendations)
  | _ => None
  end.

Definition parse_node (v : pyvalue) : option NodeMetrics.t :=
  match v with
  | PyDict d =>
      name ← dict_lookup "name" d;
      cpu_usage ← field_str d "cpu_usage";
      memory_usage ← field_str d "memory_usage";
      disk_usage ← field_str d "disk_usage";
      status ← field_str d "status";
      age ← field_str d "age";
      version ← dict_lookup "version" d;
      instance_type ← dict_lookup "instance_type" d;
      zone ← dict_lookup "zone" d;
      Some (NodeMetrics.mk name cpu_usage memory_usage disk_usage status age
              version instance_type zone)
  | _ => None
  end.

(** Reading a pod record back from its dict. *)
Definition parse_pod (v : pyvalue) : option PodMetrics.t :=
  match v with
  | PyDict d =>
      name ← dict_lookup "name" d;
      namespace ← dict_lookup "namespace" d;
      status ← dict_lookup "status" d;
      cpu_usage ← field_str d "cpu_usage";
      memory_usage ← field_str d "memory_usage";
      restarts ← field_int d "restarts";
      age ← field_str d "age";
      node ← dict_lookup "node" d;
      Some (PodMetrics.mk name namespace status cpu_usage memory_usage restarts age node)
  | _ => None
  end.

Definition parse_node_pool (v : pyvalue) : option NodePool.t :=
  match v with
  | PyDict d =>
      name ← dict_lookup "name" d;
      instance_types ← dict_lookup "instance_types" d;
      limits ← dict_lookup "limits" d;
      Some (NodePool.mk name instance_types limits)
  | _ => None
  end.

Definition parse_karpenter (v : pyvalue) : option Karpenter.t :=
  match v with
  | PyDict d =>
      installed ← field_bool d "installed";
      version ← match dict_lookup "version" d with
                | Some PyNone => Some None
                | Some (PyStr s) => Some (Some s)
                | _ => None
                end;
      node_pools ← field_list parse_node_pool d "node_pools";
      provisioned_nodes ← field_int d "provisioned_nodes";
      issues ← field_list parse_str d "issues";
      recommendations ← field_list parse_str d "recommendations";
      Some (Karpenter.mk installed version node_pools provisioned_nodes issues recommendations)
  | _ => None
  end.

Definition parse_app_info (v : pyvalue) : option AppInfo.t :=
  match v with
  | PyDict d =>
      name ← dict_lookup "name" d;
      health ← dict_lookup "health" d;
      sync ← dict_lookup "sync" d;
      repo ← dict_lookup "repo" d;
      Some (AppInfo.mk name health sync repo)
  | _ => None
  end.

Definition parse_argocd (v : pyvalue) : option ArgoCD.t :=
  match v with
  | PyDict d =>
      installed ← field_bool d "installed";
      applications ← field_list parse_app_info d "applications";
      health_status ← field_str d "health_status";
      sync_status ← field_str d "sync_status";
      Some (ArgoCD.mk installed applications health_status sync_status)
  | _ => None
  end.

(** Everything a structured report holds: the health verdict, the node
    records, the two inspector results and the timestamp text. *)
Definition parse_report_data (v : pyvalue)
  : option (ClusterHealth.t * list NodeMetrics.t * Karpenter.t * ArgoCD.t * string) :=
  match v with
  | PyDict d =>
      health ← dict_lookup "cluster_health" d ≫= parse_health;
      nodes ← field_list parse_node d "nodes";
      karpenter ← dict_lookup "karpenter" d ≫= parse_karpenter;
      argocd ← dict_lookup "argocd" d ≫= parse_argocd;
      generated_at ← field_str d "generated_at";
      Some (health, nodes, karpenter, argocd, generated_at)
  | _ => None
  end.

(** ** What is stated of a verdict *)

(** The invariant the data model states for a verdict: the overall status
    follows the two finding lists. *)
Definition status_follows_findings (h : ClusterHealth.t) : Prop :=
  (ClusterHealth.overall_status h = "Critical" <-> ClusterHealth.critical_issues h <> [])
  /\ (ClusterHealth.critical_issues h = [] ->
      (ClusterHealth.overall_status h = "Warning" <-> ClusterHealth.warnings h <> []))
  /\ (ClusterHealth.critical_issues h = [] -> ClusterHealth.warnings h = [] ->
      ClusterHealth.overall_status h = "Healthy").

(** The node counters of a verdict add up, and an unhealthy node makes it
    Critical. *)
Definition node_counts_consistent (h : ClusterHealth.t) : Prop :=
  ClusterHealth.healthy_nodes h + ClusterHealth.unhealthy_nodes h = ClusterHealth.node_count h
  /\ 0 <= ClusterHealth.unhealthy_nodes h
  /\ (0 < ClusterHealth.unhealthy_nodes h -> ClusterHealth.overall_status h = "Critical").

(** ** Listings as the cluster serves them *)

Definition reply_stdout (reply : string * string * Z) : string := fst (fst reply).
Definition reply_code (reply : string * string * Z) : Z := snd reply.

Definition has_key (k : string) (v : pyvalue) : bool :=
  match v with
  | PyDict d => match dict_lookup k d with Some _ => true | None => false end
  | _ => false
  end.

(** [metadata.labels] is left out when a node has no label, and is a dict
    otherwise. *)
Definition labels_shaped (metadata : list (string * pyvalue)) : bool :=
  match dict_lookup "labels" metadata with
  | None | Some (PyDict _) => true
  | Some _ => false
  end.

(** A node of a node listing, as far as [get_nodes_metrics] reads it: a
    name, a creation timestamp, conditions that each have a type and a
    status, and the kubelet version. *)
Definition node_shaped (node : pyvalue) : bool :=
  match node with
  | PyDict d =>
      match dict_lookup "metadata" d, dict_lookup "status" d with
      | Some (PyDict metadata), Some (PyDict status) =>
          match dict_lookup "name" metadata, dict_lookup "creationTimestamp" metadata,
                dict_lookup "conditions" status, dict_lookup "nodeInfo" status with
          | Some (PyStr _), Some _, Some (PyList conditions), Some node_info =>
              forallb (fun c => has_key "type" c && has_key "status" c) conditions
              && has_key "kubeletVersion" node_info
              && labels_shaped metadata
          | _, _, _, _ => false
          end
      | _, _ => false
      end
  | _ => false
  end.

(** A container status with an integer [restartCount], or none. *)
Definition container_status_shaped (cs : pyvalue) : bool :=
  match cs with
  | PyDict d =>
      match dict_lookup "restartCount" d with
      | None | Some (PyInt _) => true
      | Some _ => false
      end
  | _ => false
  end.

(** A pod of a pod listing, as far as [get_pods_metrics] reads it. *)
Definition pod_shaped (pod : pyvalue) : bool :=
  match pod with
  | PyDict d =>
      match dict_lookup "metadata" d, dict_lookup "status" d, dict_lookup "spec" d with
      | Some (PyDict metadata), Some (PyDict status), Some (PyDict _) =>
          match dict_lookup "name" metadata, dict_lookup "namespace" metadata,
                dict_lookup "creationTimestamp" metadata, dict_lookup "phase" status with
          | Some (PyStr _), Some (PyStr _), Some _, Some _ =>
              match dict_lookup "containerStatuses" status with
              | None => true
              | Some (PyList statuses) => forallb container_status_shaped statuses
              | Some _ => false
              end
          | _, _, _, _ => false
          end
      | _, _, _ => false
      end
  | _ => false
  end.

(** The usage map [get_nodes_metrics] works with, from the reply to
    [kubectl top nodes]: empty when the command failed. *)
Definition node_metrics_in_effect (kubectl : Kubectl) : gmap string (string * string) :=
  let reply := kubectl ["top"; "nodes"; "--no-headers"] in
  if reply_code reply =? 0 then node_metrics_map (reply_stdout reply) else ∅.

Definition pod_metrics_in_effect (kubectl : Kubectl) (namespace : string)
  : gmap string (string * string) :=
  let reply := kubectl (["top"; "pods"; "--no-headers"] ++ namespace_args namespace) in
  if reply_code reply =? 0 then pod_metrics_map namespace (reply_stdout reply) else ∅.

(** The key under which [get_pods_metrics] looks a pod up. *)
Definition pod_key `{PyEnv} (namespace : string) (pod : PodMetrics.t) : pyvalue :=
  if String.eqb namespace "all"
  then PyStr (py_format (PodMetrics.namespace pod) +:+ ":" +:+ py_format (PodMetrics.name pod))
  else PodMetrics.name pod.

(** A record as it is built when there is no usage snapshot. *)
Definition node_without_usage (r : NodeMetrics.t) : NodeMetrics.t :=
  NodeMetrics.mk (NodeMetrics.name r) "N/A" "N/A" (NodeMetrics.disk_usage r)
    (NodeMetrics.status r) (NodeMetrics.age r) (NodeMetrics.version r)
    (NodeMetrics.instance_type r) (NodeMetrics.zone r).

Definition pod_without_usage (r : PodMetrics.t) : PodMetrics.t :=
  PodMetrics.mk (PodMetrics.name r) (PodMetrics.namespace r) (PodMetrics.status r)
    "N/A" "N/A" (PodMetrics.restarts r) (PodMetrics.age r) (PodMetrics.node r).

(** Two outcomes of a fetch that differ at most in the usage fields: the
    same exception, or record lists of which the second is the first with
    its usage fields unavailable. *)
Definition same_but_usage {A : Type} (without_usage : A -> A)
  (with_snapshot without_snapshot : Result (list A)) : Prop :=
  match with_snapshot, without_snapshot with
  | Ok recs, Ok recs' => recs' = map without_usage recs
  | Raise e, Raise e' => e = e'
  | _, _ => False
  end.

(** A usage line is parseable when it has enough fields. *)
Definition parseable (fields : nat) (line : string) : bool :=
  (fields <=? length (str_split line))%nat.

(** [marker in text], spelled out: [text] is some text, [marker], and some
    more text. *)
Definition mentions (marker text : string) : Prop :=
  exists before after : string, text = before +:+ marker +:+ after.

(** The usage a snapshot line gives for the node [name]: the second and
    third field of a line whose first field is [name]. *)
Definition node_line_usage (name line : string) : option (string * string) :=
  match str_split line with
  | p0 :: p1 :: p2 :: _ => if String.eqb p0 name then Some (p1, p2) else None
  | _ => None
  end.

(** The same for the pod looked up under [key]: with every namespace
    listed the first two fields make the key and the next two the usage. *)
Definition pod_line_usage (namespace key line : string) : option (string * string) :=
  if String.eqb namespace "all" then
    match str_split line with
    | p0 :: p1 :: p2 :: p3 :: _ =>
        if String.eqb (p0 +:+ ":" +:+ p1) key then Some (p2, p3) else None
    | _ => None
    end
  else
    match str_split line with
    | p0 :: p1 :: p2 :: _ => if String.eqb p0 key then Some (p1, p2) else None
    | _ => None
    end.

(** [cs.get('restartCount', 0)] of a container status that carries an
    integer count, or none. *)
Definition restart_count (cs : pyvalue) : Z :=
  match cs with
  | PyDict d => match dict_lookup "restartCount" d with Some (PyInt n) => n | _ => 0 end
  | _ => 0
  end.

(** [" ".join(words)] *)
Fixpoint join_words (words : list string) : string :=
  match words with
  | [] => EmptyString
  | [w] => w
  | w :: rest => w +:+ " " +:+ join_words rest
  end.

(** A word of a command line: not empty, free of whitespace characters,
    and a text of its own (its first byte does not continue a character). *)
Definition is_word (w : string) : bool :=
  negb (String.eqb w EmptyString)
  && negb (is_continuation w)
  && forallb (fun c => negb (is_space c)) (chars w).

(** The properties a tool's input schema declares, and the defaults it
    declares for them. *)
Definition schema_properties (tool : Tool.t) : list (string * pyvalue) :=
  match Tool.inputSchema tool with
  | PyDict schema =>
      match dict_lookup "properties" schema with
      | Some (PyDict properties) => properties
      | _ => []
      end
  | _ => []
  end.

Definition schema_defaults (tool : Tool.t) : list (string * pyvalue) :=
  omap (fun property =>
          match snd property with
          | PyDict d => option_map (pair (fst property)) (dict_lookup "default" d)
          | _ => None
          end)
    (schema_properties tool).

(** ** A stand-in interpreter and cluster for the examples

    [json.loads] is given by a table from texts to the values they denote,
    and answers with the message of an empty document for any other text;
    the clock puts every timestamp three days back; the serialisers and
    [repr] are stand-ins that print nothing.  [kubectl] is a table
    from argument lists to replies and fails for any other command. *)
Fixpoint table_lookup {A B : Type} (eqb : A -> A -> bool) (k : A) (table : list (A * B))
  : option B :=
  match table with
  | [] => None
  | (k', v) :: rest => if eqb k' k then Some v else table_lookup eqb k rest
  end.

Definition table_env (documents : list (string * pyvalue)) : PyEnv := {|
  json_loads s :=
    match table_lookup String.eqb s documents with
    | Some v => inl v
    | None => inr (JSONDecodeError "Expecting value: line 1 column 1 (char 0)")
    end;
  json_dumps _ := EmptyString;
  yaml_dump _ := EmptyString;
  py_repr _ := EmptyString;
  timedelta_since _ := Some (3, 0)
|}.

Fixpoint args_eqb (a b : list string) : bool :=
  match a, b with
  | [], [] => true
  | x :: a', y :: b' => String.eqb x y && args_eqb a' b'
  | _, _ => false
  end.

Definition table_kubectl (replies : list (list string * (string * Z))) : Kubectl :=
  fun args =>
    match table_lookup args_eqb args replies with
    | Some (stdout, code) => (stdout, EmptyString, code)
    | None => (EmptyString, "error: the server doesn't have a resource type", 1)
    end.

(** A JSON text, written with ['] where the text has a double quote. *)
Definition json_text (s : string) : string := str_replace "'" dq s.

Definition example_node (name ready : string) : pyvalue :=
  PyDict [
    ("metadata", PyDict [("name", PyStr name);
                         ("creationTimestamp", PyStr "2024-03-06T07:05:03Z")]);
    ("status", PyDict [
       ("conditions", PyList [PyDict [("type", PyStr "Ready"); ("status", PyStr ready)]]);
       ("nodeInfo", PyDict [("kubeletVersion", PyStr "v1.29.0")])])
  ].

Definition example_nodes : list pyvalue :=
  [example_node "node-a" "True"; example_node "node-b" "False"].

Definition example_nodes_text : string :=
  json_text "{'items': [{'metadata': {'name': 'node-a', 'creationTimestamp': '2024-03-06T07:05:03Z'}, 'status': {'conditions': [{'type': 'Ready', 'status': 'True'}], 'nodeInfo': {'kubeletVersion': 'v1.29.0'}}}, {'metadata': {'name': 'node-b', 'creationTimestamp': '2024-03-06T07:05:03Z'}, 'status': {'conditions': [{'type': 'Ready', 'status': 'False'}], 'nodeInfo': {'kubeletVersion': 'v1.29.0'}}}]}".

(** A node that has registered and not yet reported: no [status.conditions]. *)
Definition fresh_node : pyvalue :=
  PyDict [
    ("metadata", PyDict [("name", PyStr "node-c");
                         ("creationTimestamp", PyStr "2024-03-06T07:05:03Z")]);
    ("status", PyDict [("nodeInfo", PyDict [("kubeletVersion", PyStr "v1.29.0")])])
  ].

Definition fresh_node_text : string :=
  json_text "{'items': [{'metadata': {'name': 'node-c', 'creationTimestamp': '2024-03-06T07:05:03Z'}, 'status': {'nodeInfo': {'kubeletVersion': 'v1.29.0'}}}]}".

Definition example_pods : list pyvalue :=
  [PyDict [
     ("metadata", PyDict [("name", PyStr "web-0"); ("namespace", PyStr "default");
                          ("creationTimestamp", PyStr "2024-03-06T07:05:03Z")]);
     ("spec", PyDict [("nodeName", PyStr "node-a")]);
     ("status", PyDict [("phase", PyStr "Running");
                        ("containerStatuses", PyList [PyDict [("restartCount", PyInt 6)]])])
   ]].

Definition example_pods_text : string :=
  json_text "{'items': [{'metadata': {'name': 'web-0', 'namespace': 'default', 'creationTimestamp': '2024-03-06T07:05:03Z'}, 'spec': {'nodeName': 'node-a'}, 'status': {'phase': 'Running', 'containerStatuses': [{'restartCount': 6}]}}]}".

Definition example_deployment : pyvalue :=
  PyDict [("spec", PyDict [("template", PyDict [("spec", PyDict [
    ("containers", PyList [
       PyDict [("image", PyStr "public.ecr.aws/karpenter/controller:v0.32.1")]])])])])].

Definition example_deployment_text : string :=
  json_text "{'spec': {'template': {'spec': {'containers': [{'image': 'public.ecr.aws/karpenter/controller:v0.32.1'}]}}}}".

Definition two_items_text : string := json_text "{'items': [{}, {}]}".

(** Two applications, the second without [spec.source.repoURL]. *)
Definition example_apps : list pyvalue :=
  [PyDict [
     ("metadata", PyDict [("name", PyStr "shop")]);
     ("status", PyDict [("health", PyDict [("status", PyStr "Healthy")]);
                        ("sync", PyDict [("status", PyStr "Synced")])]);
     ("spec", PyDict [("source", PyDict [("repoURL", PyStr "https://git.example/shop")])])];
   PyDict [
     ("metadata", PyDict [("name", PyStr "blog")]);
     ("status", PyDict []);
     ("spec", PyDict [("source", PyDict [])])]].

Definition example_apps_text : string :=
  json_text "{'items': [{'metadata': {'name': 'shop'}, 'status': {'health': {'status': 'Healthy'}, 'sync': {'status': 'Synced'}}, 'spec': {'source': {'repoURL': 'https://git.example/shop'}}}, {'metadata': {'name': 'blog'}, 'status': {}, 'spec': {'source': {}}}]}".

Definition example_env : PyEnv :=
  table_env [
    (example_nodes_text, PyDict [("items", PyList example_nodes)]);
    (fresh_node_text, PyDict [("items", PyList [fresh_node])]);
    (example_pods_text, PyDict [("items", PyList example_pods)]);
    (example_deployment_text, example_deployment);
    (two_items_text, PyDict [("items", PyList [PyDict []; PyDict []])]);
    (example_apps_text, PyDict [("items", PyList example_apps)])
  ].

(** A cluster whose metrics server is missing: both [kubectl top] fail. *)
Definition cluster_without_metrics : Kubectl :=
  table_kubectl [
    (["get"; "nodes"; "-o"; "json"], (example_nodes_text, 0));
    (["get"; "pods"; "-o"; "json"; "--all-namespaces"], (example_pods_text, 0))
  ].

(** The same cluster with a usage line for [node-a] only. *)
Definition cluster_with_one_usage_line : Kubectl :=
  table_kubectl [
    (["get"; "nodes"; "-o"; "json"], (example_nodes_text, 0));
    (["top"; "nodes"; "--no-headers"], ("node-a   250m   12%   1024Mi   40%" +:+ nl, 0));
    (["get"; "pods"; "-o"; "json"; "--all-namespaces"], (example_pods_text, 0))
  ].

Definition cluster_with_fresh_node : Kubectl :=
  table_kubectl [
    (["get"; "nodes"; "-o"; "json"], (fresh_node_text, 0));
    (["get"; "pods"; "-o"; "json"; "--all-namespaces"], (example_pods_text, 0))
  ].

(** Karpenter is deployed, the NodePool resource is not served, two nodes
    carry the provisioner label. *)
Definition cluster_without_nodepools : Kubectl :=
  table_kubectl [
    (karpenter_deployment_args, (example_deployment_text, 0));
    (karpenter_nodes_args, (two_items_text, 0))
  ].

(** The deployment is there and the first probe prints a warning and no JSON. *)
Definition cluster_with_stray_warning : Kubectl :=
  table_kubectl [
    (karpenter_deployment_args, ("warning: deprecated", 0));
    (karpenter_nodes_args, (two_items_text, 0))
  ].

Definition cluster_with_argocd : Kubectl :=
  table_kubectl [(argocd_args, (example_apps_text, 0))].

(** A ready node followed by one that has not reported yet, on a cluster
    without a metrics server. *)
Definition mixed_nodes_text : string :=
  json_text "{'items': [{'metadata': {'name': 'node-a', 'creationTimestamp': '2024-03-06T07:05:03Z'}, 'status': {'conditions': [{'type': 'Ready', 'status': 'True'}], 'nodeInfo': {'kubeletVersion': 'v1.29.0'}}}, {'metadata': {'name': 'node-c', 'creationTimestamp': '2024-03-06T07:05:03Z'}, 'status': {'nodeInfo': {'kubeletVersion': 'v1.29.0'}}}]}".

Definition mixed_nodes_env : PyEnv :=
  table_env [(mixed_nodes_text,
              PyDict [("items", PyList [example_node "node-a" "True"; fresh_node])])].

Definition cluster_with_mixed_nodes : Kubectl :=
  table_kubectl [(["get"; "nodes"; "-o"; "json"], (mixed_nodes_text, 0))].

(** A node listing that is one integer of 5001 digits, which [json.loads]
    refuses to convert, and the interpreter that refuses it. *)
Definition long_integer_text : string :=
  str_of_bytes (49 :: repeat 48 5000)%nat.

Definition long_integer_env : PyEnv := {|
  json_loads s :=
    if String.eqb s long_integer_text
    then inr (ValueError "Exceeds the limit (4300 digits) for integer string conversion: value has 5001 digits; use sys.set_int_max_str_digits() to increase the limit")
    else inr (JSONDecodeError "Expecting value: line 1 column 1 (char 0)");
  json_dumps _ := EmptyString;
  yaml_dump _ := EmptyString;
  py_repr _ := EmptyString;
  timedelta_since _ := Some (3, 0)
|}.

Definition cluster_with_long_integer : Kubectl :=
  table_kubectl [(["get"; "nodes"; "-o"; "json"], (long_integer_text, 0))].

(** One application, complete, and the interpreter and cluster that serve it. *)
Definition shop_app : pyvalue :=
  PyDict [
    ("metadata", PyDict [("name", PyStr "shop")]);
    ("status", PyDict [("health", PyDict [("status", PyStr "Healthy")]);
                       ("sync", PyDict [("status", PyStr "OutOfSync")])]);
    ("spec", PyDict [("source", PyDict [("repoURL", PyStr "https://git.example/shop")])])].

Definition shop_app_text : string :=
  json_text "{'items': [{'metadata': {'name': 'shop'}, 'status': {'health': {'status': 'Healthy'}, 'sync': {'status': 'OutOfSync'}}, 'spec': {'source': {'repoURL': 'https://git.example/shop'}}}]}".

Definition gitops_env : PyEnv :=
  table_env [(shop_app_text, PyDict [("items", PyList [shop_app])])].

Definition cluster_with_one_application : Kubectl :=
  table_kubectl [(argocd_args, (shop_app_text, 0))].

(** A server in front of a cluster that answers the same throughout a
    call, on a machine without [helm]. *)
Definition steady_server (kubectl : Kubectl) : Server.t :=
  Server.mk GENERIC (fun _ => kubectl)
    (fun _ => (EmptyString, "[Errno 2] No such file or directory: 'helm'", 1))
    (datetime.mk 2024 3 9 7 5 3 0)
    (fun _ _ _ => Raise (Unmodelled "generate_resource_fixes")).

(** * Properties *)

(** ** Counting and list helpers *)

Lemma sum_ones_from {A : Type} (p : A -> bool) (l : list A) (acc : Z) :
  fold_left (fun acc x => if p x then acc + 1 else acc) l acc
  = acc + len (List.filter p l).
Proof.
  revert acc. induction l as [|x l IH]; intros acc; simpl.
  - unfold len. simpl. lia.
  - rewrite IH. destruct (p x); unfold len; simpl; lia.
Qed.

Lemma sum_ones_filter {A : Type} (p : A -> bool) (l : list A) :
  sum_ones p l = len (List.filter p l).
Proof. unfold sum_ones. rewrite sum_ones_from. lia. Qed.

Lemma sum_ones_bounds {A : Type} (p : A -> bool) (l : list A) :
  0 <= sum_ones p l <= len l.
Proof.
  rewrite sum_ones_filter. unfold len. split; [lia|].
  apply inj_le. apply List.filter_length_le.
Qed.

Lemma nonempty_true {A : Type} (l : list A) : nonempty l = true <-> l <> [].
Proof. destruct l; simpl; split; congruence. Qed.

Lemma nonempty_false {A : Type} (l : list A) : nonempty l = false <-> l = [].
Proof. destruct l; simpl; split; congruence. Qed.

Lemma nonempty_len {A : Type} (l : list A) : nonempty l = (0 <? len l).
Proof. destruct l; unfold len; simpl; [reflexivity|]. symmetry. apply Z.ltb_lt. lia. Qed.

Lemma in_append_if (c : bool) (x y : string) (l : list string) :
  In y (append_if c x l) <-> In y l \/ (c = true /\ y = x).
Proof.
  unfold append_if. destruct c.
  - rewrite in_app_iff. simpl. intuition congruence.
  - intuition congruence.
Qed.

Lemma nonempty_append_if (c : bool) (x : string) (l : list string) :
  nonempty (append_if c x l) = nonempty l || c.
Proof.
  unfold append_if. destruct c.
  - destruct l; reflexivity.
  - rewrite orb_false_r. reflexivity.
Qed.

Lemma str_last_app (a : string) (c : ascii) (s : string) (d : ascii) :
  str_last (a +:+ String c s) d = str_last s c.
Proof. revert d. induction a as [|b a IH]; intros d; simpl; [reflexivity|apply IH]. Qed.

Lemma pending_is_not_high_restart (a b : string) :
  a +:+ " pods are pending" <> b +:+ " pods have high restart counts".
Proof.
  intros E. apply (f_equal (fun s => str_last s "000"%char)) in E.
  rewrite !str_last_app in E. simpl in E. discriminate.
Qed.

(** ** The classifier *)

Lemma classify_critical_issues nodes pods :
  let u := len nodes - sum_ones (fun node => String.eqb (NodeMetrics.status node) "Ready") nodes in
  let f := sum_ones is_failed pods in
  ClusterHealth.critical_issues (classify_cluster_health nodes pods)
  = append_if (0 <? f) (py_str_int f +:+ " pods are in failed state")
      (append_if (0 <? u) (py_str_int u +:+ " nodes are not ready") []).
Proof. reflexivity. Qed.

Lemma classify_warnings nodes pods :
  let p := sum_ones (fun pod => py_eq_str (PodMetrics.status pod) "Pending") pods in
  let hr := high_restart_pods pods in
  ClusterHealth.warnings (classify_cluster_health nodes pods)
  = append_if (nonempty hr) (py_str_int (len hr) +:+ " pods have high restart counts")
      (append_if (0 <? p) (py_str_int p +:+ " pods are pending") []).
Proof. reflexivity. Qed.

Lemma classify_recommendations nodes pods :
  let u := len nodes - sum_ones (fun node => String.eqb (NodeMetrics.status node) "Ready") nodes in
  let p := sum_ones (fun pod => py_eq_str (PodMetrics.status pod) "Pending") pods in
  ClusterHealth.recommendations (classify_cluster_health nodes pods)
  = append_if (nonempty (high_restart_pods pods))
      "Investigate pods with high restart counts for stability issues"
      (append_if (0 <? p) "Check resource constraints and node availability"
         (append_if (0 <? u) "Investigate unhealthy nodes and consider replacement" [])).
Proof. reflexivity. Qed.

Lemma classify_overall_status nodes pods :
  let h := classify_cluster_health nodes pods in
  ClusterHealth.overall_status h
  = if nonempty (ClusterHealth.critical_issues h) then "Critical"
    else if nonempty (ClusterHealth.warnings h) then "Warning"
    else "Healthy".
Proof. reflexivity. Qed.

Lemma classify_status_follows_findings nodes pods :
  status_follows_findings (classify_cluster_health nodes pods).
Proof.
  set (h := classify_cluster_health nodes pods). unfold status_follows_findings.
  assert (E : ClusterHealth.overall_status h
              = if nonempty (ClusterHealth.critical_issues h) then "Critical"
                else if nonempty (ClusterHealth.warnings h) then "Warning"
                else "Healthy") by apply classify_overall_status.
  rewrite E. clear E.
  rewrite <- !nonempty_true, <- !nonempty_false.
  destruct (nonempty (ClusterHealth.critical_issues h));
    destruct (nonempty (ClusterHealth.warnings h));
    intuition (try discriminate; try congruence).
Qed.

(** A verdict of [analyze_cluster_health] is the classifier's verdict on
    the two record lists it fetched. *)
Lemma analyze_cluster_health_Ok `{PyEnv} (kubectl : Kubectl) (h : ClusterHealth.t) :
  analyze_cluster_health kubectl = Ok h ->
  exists nodes pods,
    get_nodes_metrics kubectl = Ok nodes
    /\ get_pods_metrics kubectl "all" = Ok pods
    /\ h = classify_cluster_health nodes pods.
Proof.
  unfold analyze_cluster_health. intros E.
  destruct (get_nodes_metrics kubectl) as [nodes|e]; [|discriminate].
  destruct (get_pods_metrics kubectl "all") as [pods|e]; [|discriminate].
  injection E as <-. eauto.
Qed.

(** C1.  The overall status is a function of the two finding lists of the
    same verdict: Critical exactly when [critical_issues] is non-empty;
    otherwise Warning exactly when [warnings] is non-empty; otherwise
    Healthy.  This holds of the classifier on every pair of record lists,
    and so of every verdict [analyze_cluster_health] returns. *)
Theorem overall_status_derived_from_lists :
  (forall nodes pods, status_follows_findings (classify_cluster_health nodes pods))
  /\ (forall (E : PyEnv) (kubectl : Kubectl) (h : ClusterHealth.t),
      analyze_cluster_health kubectl = Ok h -> status_follows_findings h).
Proof.
  split; [apply classify_status_follows_findings|].
  intros E kubectl h Hh. apply analyze_cluster_health_Ok in Hh as (nodes & pods & _ & _ & ->).
  apply classify_status_follows_findings.
Qed.

Lemma classify_counts nodes pods :
  let h := classify_cluster_health nodes pods in
  ClusterHealth.node_count h = len nodes
  /\ ClusterHealth.healthy_nodes h
     = sum_ones (fun node => String.eqb (NodeMetrics.status node) "Ready") nodes
  /\ ClusterHealth.unhealthy_nodes h = len nodes - ClusterHealth.healthy_nodes h.
Proof. repeat split. Qed.

Lemma classify_node_counts_consistent nodes pods :
  node_counts_consistent (classify_cluster_health nodes pods).
Proof.
  set (h := classify_cluster_health nodes pods).
  destruct (classify_counts nodes pods) as (Hn & Hh & Hu). fold h in Hn, Hh, Hu.
  pose proof (sum_ones_bounds (fun node => String.eqb (NodeMetrics.status node) "Ready") nodes) as B.
  rewrite <- Hh in B. unfold node_counts_consistent. split; [lia|]. split; [lia|].
  intros Hpos.
  assert (E : ClusterHealth.overall_status h
              = if nonempty (ClusterHealth.critical_issues h) then "Critical"
                else if nonempty (ClusterHealth.warnings h) then "Warning"
                else "Healthy") by apply classify_overall_status.
  assert (C : ClusterHealth.critical_issues h
              = append_if (0 <? sum_ones is_failed pods)
                  (py_str_int (sum_ones is_failed pods) +:+ " pods are in failed state")
                  (append_if (0 <? ClusterHealth.unhealthy_nodes h)
                     (py_str_int (ClusterHealth.unhealthy_nodes h) +:+ " nodes are not ready") []))
    by apply classify_critical_issues.
  rewrite E, C, !nonempty_append_if.
  apply Z.ltb_lt in Hpos. rewrite Hpos. reflexivity.
Qed.

(** C8.  Healthy and unhealthy nodes add up to the node count, which is
    the length of the node list, the healthy ones being those whose status
    is Ready; and one unhealthy node makes the status Critical whatever the
    pods are.  This holds of the classifier on every pair of lists, and so
    of every verdict [analyze_cluster_health] returns. *)
Theorem node_counts_add_up_and_unhealthy_is_critical :
  (forall nodes pods,
      let h := classify_cluster_health nodes pods in
      node_counts_consistent h
      /\ ClusterHealth.node_count h = len nodes
      /\ ClusterHealth.healthy_nodes h
         = len (List.filter (fun node => String.eqb (NodeMetrics.status node) "Ready") nodes))
  /\ (forall (E : PyEnv) (kubectl : Kubectl) (h : ClusterHealth.t),
      analyze_cluster_health kubectl = Ok h -> node_counts_consistent h).
Proof.
  split.
  - intros nodes pods h. split; [apply classify_node_counts_consistent|].
    split; [reflexivity|]. apply sum_ones_filter.
  - intros E kubectl h Hh.
    apply analyze_cluster_health_Ok in Hh as (nodes & pods & _ & _ & ->).
    apply classify_node_counts_consistent.
Qed.

(** The scenario of the specification: three nodes, one of them NotReady,
    no pod. *)
Example one_of_three_nodes_not_ready :
  let node status := NodeMetrics.mk (PyStr "n") "N/A" "N/A" "N/A" status "1d" (PyStr "v1") PyNone PyNone in
  let h := classify_cluster_health [node "Ready"; node "NotReady"; node "Ready"] [] in
  ClusterHealth.overall_status h = "Critical"
  /\ ClusterHealth.critical_issues h = ["1 nodes are not ready"]
  /\ ClusterHealth.warnings h = []
  /\ ClusterHealth.recommendations h = ["Investigate unhealthy nodes and consider replacement"].
Proof. vm_compute. repeat split. Qed.

(** C9.  The high-restart threshold is exclusive at 5.  [high_restart_pods]
    holds exactly the pods with more than 5 restarts, so never a pod with
    5 and always a pod with 6; the warning, whose count is the length of
    that list, and the restart recommendation are present exactly when the
    list is non-empty. *)
Theorem restart_threshold_is_exclusive nodes pods :
  let h := classify_cluster_health nodes pods in
  let hr := high_restart_pods pods in
  (forall p, In p hr <-> In p pods /\ 5 < PodMetrics.restarts p)
  /\ (forall p, PodMetrics.restarts p = 5 -> ~ In p hr)
  /\ (forall p, In p pods -> PodMetrics.restarts p = 6 -> In p hr)
  /\ ((exists count, In (count +:+ " pods have high restart counts") (ClusterHealth.warnings h))
      <-> hr <> [])
  /\ (hr <> [] ->
      In (py_str_int (len hr) +:+ " pods have high restart counts") (ClusterHealth.warnings h))
  /\ (In "Investigate pods with high restart counts for stability issues"
        (ClusterHealth.recommendations h) <-> hr <> []).
Proof.
  intros h hr.
  assert (Hin : forall p, In p hr <-> In p pods /\ 5 < PodMetrics.restarts p).
  { intros p. unfold hr, high_restart_pods. rewrite List.filter_In, Z.ltb_lt. reflexivity. }
  assert (W : ClusterHealth.warnings h
              = append_if (nonempty hr) (py_str_int (len hr) +:+ " pods have high restart counts")
                  (append_if (0 <? sum_ones (fun pod => py_eq_str (PodMetrics.status pod) "Pending") pods)
                     (py_str_int (sum_ones (fun pod => py_eq_str (PodMetrics.status pod) "Pending") pods)
                      +:+ " pods are pending") []))
    by apply classify_warnings.
  assert (R : ClusterHealth.recommendations h
              = append_if (nonempty hr)
                  "Investigate pods with high restart counts for stability issues"
                  (append_if (0 <? sum_ones (fun pod => py_eq_str (PodMetrics.status pod) "Pending") pods)
                     "Check resource constraints and node availability"
                     (append_if (0 <? len nodes
                                      - sum_ones (fun node => String.eqb (NodeMetrics.status node) "Ready") nodes)
                        "Investigate unhealthy nodes and consider replacement" [])))
    by apply classify_recommendations.
  split; [exact Hin|]. split; [|split; [|split; [|split]]].
  - intros p H5 Hp. apply Hin in Hp. lia.
  - intros p Hp H6. apply Hin. split; [exact Hp|lia].
  - rewrite W, <- nonempty_true. split.
    + intros (count & Hc). apply in_append_if in Hc as [Hc|[Hc _]]; [|exact Hc].
      apply in_append_if in Hc as [[]|[_ Hc]].
      symmetry in Hc. apply pending_is_not_high_restart in Hc. contradiction.
    + intros Hne. exists (py_str_int (len hr)). apply in_append_if. right. split; [exact Hne|reflexivity].
  - intros Hne. rewrite W. apply in_append_if. right.
    split; [apply nonempty_true; exact Hne|reflexivity].
  - rewrite R, <- nonempty_true. split.
    + intros Hc. apply in_append_if in Hc as [Hc|[Hc _]]; [|exact Hc].
      apply in_append_if in Hc as [Hc|[_ Hc]]; [|discriminate].
      apply in_append_if in Hc as [[]|[_ Hc]]. discriminate.
    + intros Hne. apply in_append_if. right. split; [exact Hne|reflexivity].
Qed.

(** The boundary itself: five restarts raise nothing, six raise the warning
    and the recommendation. *)
Example five_restarts_not_flagged_six_flagged :
  let pod n := PodMetrics.mk (PyStr "p") (PyStr "default") (PyStr "Running") "N/A" "N/A" n "1d" (PyStr "n") in
  ClusterHealth.warnings (classify_cluster_health [] [pod 5]) = []
  /\ ClusterHealth.recommendations (classify_cluster_health [] [pod 5]) = []
  /\ ClusterHealth.overall_status (classify_cluster_health [] [pod 5]) = "Healthy"
  /\ ClusterHealth.warnings (classify_cluster_health [] [pod 5; pod 6])
     = ["1 pods have high restart counts"]
  /\ ClusterHealth.recommendations (classify_cluster_health [] [pod 5; pod 6])
     = ["Investigate pods with high restart counts for stability issues"].
Proof. vm_compute. repeat split. Qed.

(** ** The report renderer *)

Lemma str_app_cons (x : ascii) (a b : string) : String x a +:+ b = String x (a +:+ b).
Proof. reflexivity. Qed.

Lemma str_app_nil_l (a : string) : EmptyString +:+ a = a.
Proof. reflexivity. Qed.

Lemma str_app_assoc (a b c : string) : (a +:+ b) +:+ c = a +:+ b +:+ c.
Proof.
  induction a as [|x a IH]; [reflexivity|].
  rewrite !str_app_cons. f_equal. exact IH.
Qed.

Lemma str_app_nil_r (a : string) : a +:+ EmptyString = a.
Proof. induction a as [|x a IH]; [reflexivity|]. rewrite str_app_cons. f_equal. exact IH. Qed.

Lemma str_app_length (a b : string) :
  String.length (a +:+ b) = (String.length a + String.length b)%nat.
Proof.
  induction a as [|x a IH]; [reflexivity|].
  rewrite str_app_cons. simpl. f_equal. exact IH.
Qed.

Lemma str_app_inv_l (a b c : string) : a +:+ b = a +:+ c -> b = c.
Proof.
  induction a as [|x a IH]; intros E; [exact E|].
  rewrite !str_app_cons in E. injection E. exact IH.
Qed.

Lemma str_app_inv_r (a b c : string) : a +:+ c = b +:+ c -> a = b.
Proof.
  revert b. induction a as [|x a IH]; intros [|y b] E.
  - reflexivity.
  - apply (f_equal String.length) in E. rewrite !str_app_length in E. simpl in E. lia.
  - apply (f_equal String.length) in E. rewrite !str_app_length in E. simpl in E. lia.
  - rewrite !str_app_cons in E. injection E as -> E. f_equal. apply IH. exact E.
Qed.

Lemma fold_left_append {A : Type} (f : A -> string) (l : list A) (report : string) :
  fold_left (fun report x => report +:+ f x) l report
  = report +:+ join_chars (map f l).
Proof.
  revert report. induction l as [|x l IH]; intros report; simpl.
  - symmetry. apply str_app_nil_r.
  - rewrite IH. apply str_app_assoc.
Qed.

Lemma append_lines_app (bullet : string) (items : list string) (report : string) :
  append_lines bullet items report
  = report +:+ join_chars (map (fun item => bullet +:+ item +:+ nl) items).
Proof. unfold append_lines. apply fold_left_append. Qed.

(** Rewrites a block applied to [report] into [report] followed by text. *)
Ltac block_text :=
  rewrite ?append_lines_app, ?fold_left_append, ?str_app_assoc, ?str_app_nil_l;
  try reflexivity.

Lemma add_critical_issues_app health report :
  add_critical_issues health report = report +:+ add_critical_issues health EmptyString.
Proof. unfold add_critical_issues. destruct (nonempty _); block_text. Qed.

Lemma add_warnings_app health report :
  add_warnings health report = report +:+ add_warnings health EmptyString.
Proof. unfold add_warnings. destruct (nonempty _); block_text. Qed.

Lemma add_node_details_app `{PyEnv} nodes report :
  add_node_details nodes report = report +:+ add_node_details nodes EmptyString.
Proof. unfold add_node_details. destruct (10 <? len nodes); block_text. Qed.

Lemma add_problem_pods_app `{PyEnv} pods report :
  add_problem_pods pods report = report +:+ add_problem_pods pods EmptyString.
Proof.
  unfold add_problem_pods. destruct (nonempty _); block_text.
  symmetry. apply str_app_nil_r.
Qed.

Lemma add_karpenter_app karpenter report :
  add_karpenter karpenter report = report +:+ add_karpenter karpenter EmptyString.
Proof.
  unfold add_karpenter.
  destruct (Karpenter.installed karpenter); [destruct (nonempty _)|]; block_text.
Qed.

Lemma add_argocd_app `{PyEnv} argocd report :
  add_argocd argocd report = report +:+ add_argocd argocd EmptyString.
Proof.
  unfold add_argocd.
  destruct (ArgoCD.installed argocd); [destruct (nonempty _)|]; block_text.
Qed.

Lemma add_recommendations_app incl health report :
  add_recommendations incl health report
  = report +:+ add_recommendations incl health EmptyString.
Proof.
  unfold add_recommendations. destruct (incl && nonempty _); block_text.
  symmetry. apply str_app_nil_r.
Qed.

Lemma add_problem_pods_text `{PyEnv} pods :
  add_problem_pods pods EmptyString = problem_pods_section pods.
Proof.
  unfold add_problem_pods, problem_pods_section.
  destruct (problem_pods pods) as [|p rest] eqn:E; [reflexivity|].
  simpl nonempty. cbv iota. block_text.
Qed.

Lemma filter_nil_iff {A : Type} (p : A -> bool) (l : list A) :
  List.filter p l = [] <-> forall x, In x l -> p x = false.
Proof.
  induction l as [|a l IH]; simpl.
  - split; [intros _ x []|reflexivity].
  - destruct (p a) eqn:Ha; split.
    + discriminate.
    + intros Hall. specialize (Hall a (or_introl eq_refl)). congruence.
    + intros Hnil x [<-|Hx]; [exact Ha|]. apply IH; assumption.
    + intros Hall. apply IH. intros x Hx. apply Hall. right. exact Hx.
Qed.

(** The report is the text before the problem-pod block, that block, and
    the text after it; only the block depends on the pods. *)
Lemma markdown_report_around_pods `{PyEnv} now provider health nodes pods karpenter argocd incl :
  generate_markdown_report now provider health nodes pods karpenter argocd incl
  = add_node_details nodes
      (add_warnings health (add_critical_issues health (report_summary now provider health)))
    +:+ problem_pods_section pods
    +:+ add_karpenter karpenter EmptyString +:+ add_argocd argocd EmptyString
    +:+ add_recommendations incl health EmptyString.
Proof.
  unfold generate_markdown_report. cbv zeta.
  rewrite add_recommendations_app, add_argocd_app, add_karpenter_app, add_problem_pods_app.
  rewrite add_problem_pods_text, !str_app_assoc. reflexivity.
Qed.

(** C10.  In the markdown report the problem-pod block is the only text
    that depends on the pods.  It is empty exactly when no pod has a status
    other than Running or more than 5 restarts; otherwise it is the heading
    with the number of such pods, the table head, and one row for each of
    the first 20 of them, in the order of the input.  A row shows its pod:
    the name, the namespace, the status, the restart count and the node,
    in this order between bars, each string as it is and the count in
    decimal. *)
Theorem problem_pods_block_only_for_problem_pods `{PyEnv}
  now provider health nodes karpenter argocd incl :
  exists before after : string,
    forall pods,
      let qualifies pod :=
        negb (py_eq_str (PodMetrics.status pod) "Running") || (5 <? PodMetrics.restarts pod) in
      let row pod :=
        "| " +:+ py_format (PodMetrics.name pod)
        +:+ " | " +:+ py_format (PodMetrics.namespace pod)
        +:+ " | " +:+ py_format (PodMetrics.status pod)
        +:+ " | " +:+ py_str_int (PodMetrics.restarts pod)
        +:+ " | " +:+ py_format (PodMetrics.node pod)
        +:+ " |" +:+ nl in
      generate_markdown_report now provider health nodes pods karpenter argocd incl
      = before +:+ problem_pods_section pods +:+ after
      /\ (problem_pods_section pods = EmptyString
          <-> forall pod, In pod pods -> qualifies pod = false)
      /\ (forall pod, In pod pods -> qualifies pod = true ->
          problem_pods_section pods
          = nl +:+ "## 🚨 Problem Pods ("
            +:+ py_str_int (len (List.filter qualifies pods)) +:+ " pods)" +:+ nl +:+ nl
            +:+ "| Name | Namespace | Status | Restarts | Node |" +:+ nl
            +:+ "|------|-----------|--------|----------|------|" +:+ nl
            +:+ join_chars (map row (firstn 20 (List.filter qualifies pods))))
      /\ (forall name namespace status cpu_usage memory_usage restarts age node,
          row (PodMetrics.mk (PyStr name) (PyStr namespace) (PyStr status)
                 cpu_usage memory_usage restarts age (PyStr node))
          = "| " +:+ name +:+ " | " +:+ namespace +:+ " | " +:+ status
            +:+ " | " +:+ py_str_int restarts +:+ " | " +:+ node +:+ " |" +:+ nl).
Proof.
  eexists. eexists. intros pods qualifies row.
  split; [apply markdown_report_around_pods|].
  assert (Hnil : problem_pods pods = [] <-> forall pod, In pod pods -> qualifies pod = false)
    by apply filter_nil_iff.
  split; [|split].
  - rewrite <- Hnil. unfold problem_pods_section.
    destruct (problem_pods pods) as [|p rest]; split; try reflexivity; discriminate.
  - intros pod Hin Hq. unfold problem_pods_section.
    destruct (problem_pods pods) as [|p rest] eqn:E; [|rewrite <- E; reflexivity].
    destruct Hnil as [Hnil _]. rewrite (Hnil eq_refl pod Hin) in Hq. discriminate.
  - reflexivity.
Qed.

(** Fifteen nodes: ten rows and the note for the five left out (a scenario
    of the specification). *)
Example fifteen_nodes_ten_rows `{PyEnv} :
  let node := NodeMetrics.mk (PyStr "n") "1" "2" "N/A" "Ready" "1d" (PyStr "v1") PyNone PyNone in
  add_node_details (repeat node 15) EmptyString
  = nl +:+ "## 🖥️ Node Details (15 nodes)" +:+ nl +:+ nl
    +:+ "| Name | Status | CPU | Memory | Age | Version | Instance Type |" +:+ nl
    +:+ "|------|--------|-----|--------|-----|---------|---------------|" +:+ nl
    +:+ join_chars (repeat (node_row node) 10)
    +:+ nl +:+ "*... and 5 more nodes*" +:+ nl.
Proof.
  intros node. unfold add_node_details. cbv zeta.
  replace (10 <? len (repeat node 15)) with true by reflexivity.
  replace (len (repeat node 15)) with 15 by reflexivity.
  rewrite fold_left_append, !str_app_assoc, str_app_nil_l. reflexivity.
Qed.

(** The report with the reading of the clock singled out. *)
Lemma markdown_report_around_timestamp `{PyEnv} provider health nodes pods karpenter argocd incl :
  exists rest : string,
    forall now,
      generate_markdown_report now provider health nodes pods karpenter argocd incl
      = "# Kubernetes Cluster Health Report" +:+ nl +:+ nl +:+ "Generated: "
        +:+ datetime.strftime now +:+ rest.
Proof.
  eexists. intros now. rewrite markdown_report_around_pods.
  rewrite add_node_details_app, add_warnings_app, add_critical_issues_app.
  unfold report_summary. rewrite !str_app_assoc. reflexivity.
Qed.

Lemma report_data_clock now1 now2 health nodes karpenter argocd :
  report_data now1 health nodes karpenter argocd
  = report_data now2 health nodes karpenter argocd
  <-> datetime.isoformat now1 = datetime.isoformat now2.
Proof.
  unfold report_data. split.
  - intros E. injection E. trivial.
  - intros ->. reflexivity.
Qed.

(** Two markdown reports of the same inputs are equal exactly when the
    two readings of the clock print the same. *)
Lemma markdown_report_same_iff_same_second `{PyEnv}
  now1 now2 provider health nodes pods karpenter argocd incl :
  generate_markdown_report now1 provider health nodes pods karpenter argocd incl
  = generate_markdown_report now2 provider health nodes pods karpenter argocd incl
  <-> datetime.strftime now1 = datetime.strftime now2.
Proof.
  destruct (markdown_report_around_timestamp provider health nodes pods karpenter argocd incl)
    as (rest & Hsplit).
  rewrite !Hsplit. split.
  - intros E. do 4 apply str_app_inv_l in E. apply str_app_inv_r in E. exact E.
  - intros ->. reflexivity.
Qed.

(** C6 as the code has it.  The renderer is a function of its inputs and
    of its own reading of the clock, with nothing else varying between two
    runs: two markdown reports of the same inputs are equal exactly when
    the two readings agree down to the second, two structured documents
    exactly when the readings have the same ISO text, and then the JSON
    and the YAML texts are equal too. *)
Theorem report_varies_only_with_the_clock_reading `{PyEnv}
  now1 now2 provider health nodes pods karpenter argocd incl :
  (generate_markdown_report now1 provider health nodes pods karpenter argocd incl
   = generate_markdown_report now2 provider health nodes pods karpenter argocd incl
   <-> datetime.strftime now1 = datetime.strftime now2)
  /\ (report_data now1 health nodes karpenter argocd
      = report_data now2 health nodes karpenter argocd
      <-> datetime.isoformat now1 = datetime.isoformat now2)
  /\ (forall format_type,
      (if String.eqb format_type "markdown"
       then datetime.strftime now1 = datetime.strftime now2
       else datetime.isoformat now1 = datetime.isoformat now2) ->
      generate_health_report format_type incl now1 provider health nodes pods karpenter argocd
      = generate_health_report format_type incl now2 provider health nodes pods karpenter argocd).
Proof.
  pose proof (markdown_report_same_iff_same_second
                now1 now2 provider health nodes pods karpenter argocd incl) as Hmd.
  split; [exact Hmd|]. split; [apply report_data_clock|].
  intros format_type Hclock. unfold generate_health_report.
  destruct (String.eqb format_type "markdown").
  - apply Hmd. exact Hclock.
  - apply report_data_clock with (health := health) (nodes := nodes)
      (karpenter := karpenter) (argocd := argocd) in Hclock.
    rewrite Hclock. reflexivity.
Qed.

(** C6, counterexample.  One bundle rendered at two readings of the clock,
    a second apart: the two markdown reports differ, whatever the
    interpreter's libraries are. *)
Lemma markdown_report_changes_with_the_clock :
  let now1 := datetime.mk 2024 3 9 7 5 3 0 in
  let now2 := datetime.mk 2024 3 9 7 5 4 0 in
  let health := classify_cluster_health [] [] in
  datetime.strftime now1 = "2024-03-09 07:05:03"
  /\ datetime.strftime now2 = "2024-03-09 07:05:04"
  /\ forall (E : PyEnv) incl,
      generate_health_report "markdown" incl now1 GENERIC health [] []
        Karpenter.initial ArgoCD.initial
      <> generate_health_report "markdown" incl now2 GENERIC health [] []
           Karpenter.initial ArgoCD.initial.
Proof.
  intros now1 now2 health. split; [reflexivity|]. split; [reflexivity|].
  intros E incl Heq. unfold generate_health_report in Heq. simpl String.eqb in Heq. cbv iota in Heq.
  apply markdown_report_same_iff_same_second in Heq. discriminate.
Qed.

(** ** The structured document *)

Lemma mapM_parse_str (l : list string) : mapM parse_str (map PyStr l) = Some l.
Proof. apply mapM_fmap_Some. intros s. reflexivity. Qed.

Lemma parse_health_asdict (h : ClusterHealth.t) : parse_health (asdict_health h) = Some h.
Proof.
  destruct h. unfold parse_health, asdict_health, field_list, py_str_list. simpl.
  rewrite !mapM_parse_str. reflexivity.
Qed.

Lemma parse_node_asdict (n : NodeMetrics.t) : parse_node (asdict_node n) = Some n.
Proof. destruct n. reflexivity. Qed.

Lemma parse_node_pool_dict (np : NodePool.t) : parse_node_pool (node_pool_dict np) = Some np.
Proof. destruct np. reflexivity. Qed.

Lemma parse_app_info_dict (a : AppInfo.t) : parse_app_info (app_info_dict a) = Some a.
Proof. destruct a. reflexivity. Qed.

Lemma parse_karpenter_dict (k : Karpenter.t) : parse_karpenter (karpenter_dict k) = Some k.
Proof.
  destruct k as [installed version pools provisioned issues recs].
  unfold parse_karpenter, karpenter_dict, field_list, py_str_list. simpl.
  rewrite !mapM_parse_str.
  rewrite (mapM_fmap_Some parse_node_pool node_pool_dict) by apply parse_node_pool_dict.
  destruct version; reflexivity.
Qed.

Lemma parse_argocd_dict (a : ArgoCD.t) : parse_argocd (argocd_dict a) = Some a.
Proof.
  destruct a as [installed apps health sync].
  unfold parse_argocd, argocd_dict, field_list. simpl.
  rewrite (mapM_fmap_Some parse_app_info app_info_dict) by apply parse_app_info_dict.
  reflexivity.
Qed.

(** C2 as the code has it.  The document both structured formats
    serialise has the five keys [cluster_health], [nodes], [karpenter],
    [argocd] and [generated_at]; read back, it gives every field of the
    health verdict, of each node record and of the two inspector results,
    and the ISO text of the renderer's clock reading.  The pod records are
    not in it. *)
Theorem structured_report_round_trip now health nodes karpenter argocd :
  parse_report_data (report_data now health nodes karpenter argocd)
  = Some (health, nodes, karpenter, argocd, datetime.isoformat now)
  /\ (exists entries,
      report_data now health nodes karpenter argocd = PyDict entries
      /\ map fst entries = ["cluster_health"; "nodes"; "karpenter"; "argocd"; "generated_at"])
  /\ (forall `{PyEnv} format_type incl provider pods,
      String.eqb format_type "markdown" = false ->
      exists serialise : pyvalue -> string,
        generate_health_report format_type incl now provider health nodes pods karpenter argocd
        = serialise (report_data now health nodes karpenter argocd)
        /\ (serialise = yaml_dump \/ serialise = json_dumps)).
Proof.
  split.
  - unfold parse_report_data, report_data, field_list.
    cbn -[asdict_health karpenter_dict argocd_dict asdict_node
          parse_health parse_karpenter parse_argocd parse_node mapM].
    rewrite parse_health_asdict, parse_karpenter_dict, parse_argocd_dict.
    rewrite (mapM_fmap_Some parse_node asdict_node) by apply parse_node_asdict.
    reflexivity.
  - split; [eexists; split; reflexivity|].
    intros E format_type incl provider pods Hfmt. unfold generate_health_report.
    rewrite Hfmt. destruct (String.eqb format_type "yaml"); eexists; split; eauto.
Qed.

(** C2, counterexample.  Two bundles that differ in their pod records
    only: in both structured formats, whatever the serialiser, the same
    text; no reading of that text gives the pod records back. *)
Lemma structured_report_has_no_pods :
  let pod := PodMetrics.mk (PyStr "web-0") (PyStr "default") (PyStr "Pending")
               "N/A" "N/A" 7 "1d" (PyStr "N/A") in
  let pods1 : list PodMetrics.t := [] in
  let pods2 := [pod] in
  pods1 <> pods2
  /\ forall (E : PyEnv) format_type incl now provider health nodes karpenter argocd,
      String.eqb format_type "markdown" = false ->
      generate_health_report format_type incl now provider health nodes pods1 karpenter argocd
      = generate_health_report format_type incl now provider health nodes pods2 karpenter argocd.
Proof.
  intros pod pods1 pods2. split; [discriminate|].
  intros E format_type incl now provider health nodes karpenter argocd Hfmt.
  unfold generate_health_report. rewrite Hfmt. reflexivity.
Qed.

(** ** Record construction *)

Lemma bind_Ok {A B : Type} (c : Result A) (k : A -> Result B) (b : B) :
  bind c k = Ok b -> exists a, c = Ok a /\ k a = Ok b.
Proof. destruct c as [a|e]; simpl; [eauto|discriminate]. Qed.

(** Splits a chain of binds that ended well into its steps. *)
Ltac bind_inv H :=
  repeat (let a := fresh "v" in
          let Ha := fresh "Hv" in
          apply bind_Ok in H as (a & Ha & H)).

Lemma for_each_length {A B : Type} (f : A -> Result B) (l : list A) (ys : list B) :
  for_each f l = Ok ys -> length ys = length l.
Proof.
  revert ys. induction l as [|x l IH]; intros ys E; simpl in E.
  - injection E as <-. reflexivity.
  - bind_inv E. injection E as <-. simpl. f_equal. apply IH. assumption.
Qed.

Lemma for_each_Forall2 {A B : Type} (f : A -> Result B) (l : list A) (ys : list B) :
  for_each f l = Ok ys -> Forall2 (fun x y => f x = Ok y) l ys.
Proof.
  revert ys. induction l as [|x l IH]; intros ys E; simpl in E.
  - injection E as <-. constructor.
  - bind_inv E. injection E as <-. constructor; [assumption|]. apply IH. assumption.
Qed.

Lemma for_each_total {A B : Type} (f : A -> Result B) (l : list A) :
  Forall (fun x => exists y, f x = Ok y) l -> exists ys, for_each f l = Ok ys.
Proof.
  induction 1 as [|x l (y & Hy) _ (ys & Hys)]; simpl.
  - eexists. reflexivity.
  - rewrite Hy. simpl. rewrite Hys. simpl. eexists. reflexivity.
Qed.

Lemma for_each_In {A B : Type} (f : A -> Result B) (l : list A) (ys : list B) (y : B) :
  for_each f l = Ok ys -> In y ys -> exists x, In x l /\ f x = Ok y.
Proof.
  intros E Hy. apply for_each_Forall2 in E.
  induction E as [|x y' l ys Hxy _ IH]; [destruct Hy|].
  destruct Hy as [<-|Hy].
  - exists x. split; [left; reflexivity|assumption].
  - destruct (IH Hy) as (x' & Hin & Hx'). exists x'. split; [right|]; assumption.
Qed.

Lemma usage_of_str (m : gmap string (string * string)) (s : string) :
  usage_of m (PyStr s) = Ok (match m !! s with Some cm => cm | None => ("N/A", "N/A") end).
Proof. unfold usage_of. destruct (m !! s); reflexivity. Qed.

Lemma usage_of_empty (key : pyvalue) (usage : string * string) :
  usage_of ∅ key = Ok usage -> usage = ("N/A", "N/A").
Proof.
  destruct key; simpl; try rewrite lookup_empty; intros E;
    try discriminate; injection E as <-; reflexivity.
Qed.

Lemma node_record_usage `{PyEnv} m node r :
  node_record m node = Ok r ->
  usage_of m (NodeMetrics.name r) = Ok (NodeMetrics.cpu_usage r, NodeMetrics.memory_usage r).
Proof.
  unfold node_record. intros E. bind_inv E. injection E as <-. simpl.
  match goal with U : usage_of _ _ = Ok ?u |- _ => rewrite U; destruct u end.
  reflexivity.
Qed.

Lemma pod_record_usage `{PyEnv} namespace m pod r :
  pod_record namespace m pod = Ok r ->
  usage_of m (pod_key namespace r) = Ok (PodMetrics.cpu_usage r, PodMetrics.memory_usage r).
Proof.
  unfold pod_record, pod_key. intros E. bind_inv E. injection E as <-. simpl.
  match goal with U : usage_of _ _ = Ok ?u |- _ => rewrite U; destruct u end.
  reflexivity.
Qed.

Lemma has_key_getitem k v :
  has_key k v = true -> exists x, py_getitem v k = Ok x.
Proof.
  destruct v; simpl; try discriminate.
  destruct (dict_lookup k d); [eauto|discriminate].
Qed.

Lemma any_ready_shaped conditions :
  forallb (fun c => has_key "type" c && has_key "status" c) conditions = true ->
  exists ready, any_ready conditions = Ok ready.
Proof.
  induction conditions as [|c rest IH]; simpl; intros Hs; [eauto|].
  apply andb_true_iff in Hs as [Hc Hrest]. apply andb_true_iff in Hc as [Hty Hst].
  destruct (has_key_getitem _ _ Hty) as (ty & ->).
  destruct (has_key_getitem _ _ Hst) as (st & ->). simpl.
  destruct (IH Hrest) as (ready & ->).
  destruct (py_eq_str ty "Ready"); [destruct (py_eq_str st "True")|]; eauto.
Qed.

Lemma labels_get metadata :
  labels_shaped metadata = true ->
  forall k, exists x,
    (labels <- py_get (PyDict metadata) "labels" (PyDict []) ;; py_get labels k PyNone) = Ok x.
Proof.
  unfold labels_shaped. intros Hs k. simpl.
  destruct (dict_lookup "labels" metadata) as [[| | | | | |labels]|]; try discriminate; simpl.
  - destruct (dict_lookup k labels); eauto.
  - eauto.
Qed.

Lemma node_record_shaped `{PyEnv} m node :
  node_shaped node = true -> exists r, node_record m node = Ok r.
Proof.
  intros Hs. destruct node as [| | | | | |d]; try discriminate. simpl in Hs.
  destruct (dict_lookup "metadata" d) as [[| | | | | |metadata]|] eqn:Hmd; try discriminate.
  destruct (dict_lookup "status" d) as [[| | | | | |status]|] eqn:Hst; try discriminate.
  destruct (dict_lookup "name" metadata) as [[| | | |name| |]|] eqn:Hname; try discriminate.
  destruct (dict_lookup "creationTimestamp" metadata) as [timestamp|] eqn:Hts; try discriminate.
  destruct (dict_lookup "conditions" status) as [[| | | | |conditions|]|] eqn:Hc; try discriminate.
  destruct (dict_lookup "nodeInfo" status) as [node_info|] eqn:Hni; try discriminate.
  apply andb_true_iff in Hs as [Hs Hlabels]. apply andb_true_iff in Hs as [Hconds Hver].
  destruct (any_ready_shaped _ Hconds) as (ready & Hready).
  destruct (has_key_getitem _ _ Hver) as (version & Hversion).
  unfold node_record. simpl. rewrite Hmd. simpl. rewrite Hname. simpl. rewrite Hst. simpl.
  rewrite Hc. simpl. rewrite Hready. simpl. rewrite Hts. simpl. rewrite Hni. simpl.
  rewrite Hversion. simpl.
  unfold labels_shaped in Hlabels.
  destruct (dict_lookup "labels" metadata) as [[| | | | | |labels]|]; try discriminate; simpl.
  - destruct (dict_lookup "node.kubernetes.io/instance-type" labels);
      destruct (dict_lookup "topology.kubernetes.io/zone" labels);
      destruct (m !! name); simpl; eauto.
  - destruct (m !! name); simpl; eauto.
Qed.

Lemma sum_restarts_shaped statuses :
  forallb container_status_shaped statuses = true ->
  forall acc, exists n,
    for_fold (fun acc cs => n <- py_get cs "restartCount" (PyInt 0) ;; py_add_int acc n)
      statuses acc = Ok n.
Proof.
  induction statuses as [|cs rest IH]; simpl; intros Hs acc; [eauto|].
  apply andb_true_iff in Hs as [Hcs Hrest].
  destruct cs as [| | | | | |d]; try discriminate. simpl in Hcs. simpl.
  destruct (dict_lookup "restartCount" d) as [[| |n| | | |]|]; try discriminate; simpl;
    apply IH; assumption.
Qed.

Lemma pod_record_shaped `{PyEnv} namespace m pod :
  pod_shaped pod = true -> exists r, pod_record namespace m pod = Ok r.
Proof.
  intros Hs. destruct pod as [| | | | | |d]; try discriminate. simpl in Hs.
  destruct (dict_lookup "metadata" d) as [[| | | | | |metadata]|] eqn:Hmd; try discriminate.
  destruct (dict_lookup "status" d) as [[| | | | | |status]|] eqn:Hst; try discriminate.
  destruct (dict_lookup "spec" d) as [[| | | | | |spec]|] eqn:Hspec; try discriminate.
  destruct (dict_lookup "name" metadata) as [[| | | |name| |]|] eqn:Hname; try discriminate.
  destruct (dict_lookup "namespace" metadata) as [[| | | |ns| |]|] eqn:Hns; try discriminate.
  destruct (dict_lookup "creationTimestamp" metadata) as [timestamp|] eqn:Hts; try discriminate.
  destruct (dict_lookup "phase" status) as [phase|] eqn:Hphase; try discriminate.
  unfold pod_record. simpl. rewrite Hmd. simpl. rewrite Hname. simpl. rewrite Hns. simpl.
  rewrite Hst. simpl. rewrite Hphase. simpl.
  assert (Htail : forall restarts, exists r,
    (timestamp <- py_getitem (PyDict metadata) "creationTimestamp" ;;
     spec <- py_getitem (PyDict d) "spec" ;;
     node <- py_get spec "nodeName" (PyStr "N/A") ;;
     usage <- usage_of m
       (if String.eqb namespace "all"
        then PyStr (py_format (PyStr ns) +:+ ":" +:+ py_format (PyStr name))
        else PyStr name) ;;
     Ok (PodMetrics.mk (PyStr name) (PyStr ns) phase (fst usage) (snd usage)
           restarts (_calculate_age timestamp) node)) = Ok r).
  { intros restarts. simpl. rewrite Hts. simpl. rewrite Hspec. simpl.
    destruct (dict_lookup "nodeName" spec); simpl;
      destruct (String.eqb namespace "all"); rewrite usage_of_str; simpl; eauto. }
  destruct (dict_lookup "containerStatuses" status) as [[| | | | |statuses|]|];
    try discriminate; simpl.
  - destruct (sum_restarts_shaped _ Hs 0) as (n & Hn). unfold sum_restarts. rewrite Hn.
    simpl. apply Htail.
  - apply Htail.
Qed.

Lemma except_json_decode_error_Ok {A : Type} (e : exn) (recs : list A) :
  except_json_decode_error e = Ok recs -> recs = [].
Proof. destruct e; simpl; intros E; try discriminate E. injection E as <-. reflexivity. Qed.

Lemma get_nodes_metrics_unfold `{PyEnv} (kubectl : Kubectl) :
  get_nodes_metrics kubectl
  = let reply := kubectl ["get"; "nodes"; "-o"; "json"] in
    if negb (reply_code reply =? 0) then Ok []
    else match json_loads (reply_stdout reply) with
         | inr e => except_json_decode_error e
         | inl nodes_data =>
             items <- py_get nodes_data "items" (PyList []) ;;
             items <- py_iter items ;;
             for_each (node_record (node_metrics_in_effect kubectl)) items
         end.
Proof.
  unfold get_nodes_metrics, node_metrics_in_effect, reply_code, reply_stdout.
  destruct (kubectl ["get"; "nodes"; "-o"; "json"]) as [[stdout stderr] code]. simpl.
  destruct (kubectl ["top"; "nodes"; "--no-headers"]) as [[mstdout mstderr] mcode]. simpl.
  reflexivity.
Qed.

Lemma get_pods_metrics_unfold `{PyEnv} (kubectl : Kubectl) (namespace : string) :
  get_pods_metrics kubectl namespace
  = let reply := kubectl (["get"; "pods"; "-o"; "json"] ++ namespace_args namespace) in
    if negb (reply_code reply =? 0) then Ok []
    else match json_loads (reply_stdout reply) with
         | inr e => except_json_decode_error e
         | inl pods_data =>
             items <- py_get pods_data "items" (PyList []) ;;
             items <- py_iter items ;;
             for_each (pod_record namespace (pod_metrics_in_effect kubectl namespace)) items
         end.
Proof.
  unfold get_pods_metrics, pod_metrics_in_effect, reply_code, reply_stdout.
  destruct (kubectl (["get"; "pods"; "-o"; "json"] ++ namespace_args namespace))
    as [[stdout stderr] code].
  destruct (kubectl (["top"; "pods"; "--no-headers"] ++ namespace_args namespace))
    as [[mstdout mstderr] mcode].
  reflexivity.
Qed.

Lemma node_metrics_map_unparseable (metrics_stdout : string) :
  existsb (parseable 3) (snapshot_lines metrics_stdout) = false ->
  node_metrics_map metrics_stdout = ∅.
Proof.
  unfold node_metrics_map. generalize (snapshot_lines metrics_stdout) as lines.
  induction lines as [|line lines IH]; simpl; intros Hs; [reflexivity|].
  apply orb_false_iff in Hs as [Hline Hrest].
  replace (node_metrics_line ∅ line) with (∅ : gmap string (string * string)); [auto|].
  unfold node_metrics_line, parseable in *.
  destruct (negb _); [|reflexivity].
  destruct (str_split line) as [|p0 [|p1 [|p2 rest]]]; try reflexivity.
  simpl in Hline. discriminate.
Qed.

Lemma pod_metrics_map_unparseable (namespace metrics_stdout : string) :
  existsb (parseable (if String.eqb namespace "all" then 4 else 3))
    (snapshot_lines metrics_stdout) = false ->
  pod_metrics_map namespace metrics_stdout = ∅.
Proof.
  unfold pod_metrics_map. generalize (snapshot_lines metrics_stdout) as lines.
  induction lines as [|line lines IH]; simpl; intros Hs; [reflexivity|].
  apply orb_false_iff in Hs as [Hline Hrest].
  replace (pod_metrics_line namespace ∅ line) with (∅ : gmap string (string * string)); [auto|].
  unfold pod_metrics_line, parseable in *.
  destruct (negb _); [|reflexivity].
  destruct (String.eqb namespace "all");
    destruct (str_split line) as [|p0 [|p1 [|p2 [|p3 rest]]]]; try reflexivity;
    simpl in Hline; discriminate.
Qed.

Lemma forallb_Forall_ok {A B : Type} (shaped : A -> bool) (f : A -> Result B) (l : list A) :
  (forall x, shaped x = true -> exists y, f x = Ok y) ->
  forallb shaped l = true -> Forall (fun x => exists y, f x = Ok y) l.
Proof.
  intros Hf Hs. apply List.Forall_forall. intros x Hx. apply Hf.
  rewrite forallb_forall in Hs. apply Hs. exact Hx.
Qed.

Lemma node_metrics_in_effect_empty (kubectl : Kubectl) :
  let top := kubectl ["top"; "nodes"; "--no-headers"] in
  reply_code top <> 0
  \/ existsb (parseable 3) (snapshot_lines (reply_stdout top)) = false ->
  node_metrics_in_effect kubectl = ∅.
Proof.
  intros top Hfail. unfold node_metrics_in_effect. fold top.
  destruct (reply_code top =? 0) eqn:Hcode; [|reflexivity].
  destruct Hfail as [Hne|Hlines].
  - apply Z.eqb_eq in Hcode. contradiction.
  - apply node_metrics_map_unparseable. exact Hlines.
Qed.

Lemma pod_metrics_in_effect_empty (kubectl : Kubectl) (namespace : string) :
  let top := kubectl (["top"; "pods"; "--no-headers"] ++ namespace_args namespace) in
  reply_code top <> 0
  \/ existsb (parseable (if String.eqb namespace "all" then 4 else 3))
       (snapshot_lines (reply_stdout top)) = false ->
  pod_metrics_in_effect kubectl namespace = ∅.
Proof.
  intros top Hfail. unfold pod_metrics_in_effect. fold top.
  destruct (reply_code top =? 0) eqn:Hcode; [|reflexivity].
  destruct Hfail as [Hne|Hlines].
  - apply Z.eqb_eq in Hcode. contradiction.
  - apply pod_metrics_map_unparseable. exact Hlines.
Qed.

Lemma get_nodes_metrics_listing `{PyEnv} (kubectl : Kubectl) data items :
  let reply := kubectl ["get"; "nodes"; "-o"; "json"] in
  reply_code reply = 0 ->
  json_loads (reply_stdout reply) = inl data ->
  py_get data "items" (PyList []) = Ok (PyList items) ->
  get_nodes_metrics kubectl = for_each (node_record (node_metrics_in_effect kubectl)) items.
Proof.
  intros reply Hcode Hdata Hitems. rewrite get_nodes_metrics_unfold. cbv zeta. fold reply.
  rewrite Hcode, Hdata, Hitems. reflexivity.
Qed.

Lemma get_pods_metrics_listing `{PyEnv} (kubectl : Kubectl) namespace data items :
  let reply := kubectl (["get"; "pods"; "-o"; "json"] ++ namespace_args namespace) in
  reply_code reply = 0 ->
  json_loads (reply_stdout reply) = inl data ->
  py_get data "items" (PyList []) = Ok (PyList items) ->
  get_pods_metrics kubectl namespace
  = for_each (pod_record namespace (pod_metrics_in_effect kubectl namespace)) items.
Proof.
  intros reply Hcode Hdata Hitems. rewrite get_pods_metrics_unfold. cbv zeta. fold reply.
  rewrite Hcode, Hdata, Hitems. reflexivity.
Qed.

Lemma usage_of_map_irrelevant (m : gmap string (string * string)) (key : pyvalue) :
  match usage_of m key, usage_of ∅ key with
  | Ok _, Ok usage => usage = ("N/A", "N/A")
  | Raise e, Raise e' => e = e'
  | _, _ => False
  end.
Proof.
  destruct key; simpl; try reflexivity.
  rewrite lookup_empty. destruct (m !! s); reflexivity.
Qed.

(** Runs the steps two record constructions share, up to the usage lookup. *)
Ltac shared_steps :=
  repeat match goal with
         | |- context [bind ?c _] =>
             lazymatch c with
             | usage_of _ _ => fail
             | _ => destruct c; simpl; try reflexivity
             end
         end.

Lemma node_record_map_irrelevant `{PyEnv} (m : gmap string (string * string)) (node : pyvalue) :
  match node_record m node, node_record ∅ node with
  | Ok r, Ok r' => r' = node_without_usage r
  | Raise e, Raise e' => e = e'
  | _, _ => False
  end.
Proof.
  unfold node_record. shared_steps.
  match goal with |- context [usage_of m ?k] => pose proof (usage_of_map_irrelevant m k) as U end.
  destruct (usage_of m _); destruct (usage_of ∅ _); simpl; try exact U.
  rewrite U. reflexivity.
Qed.

Lemma pod_record_map_irrelevant `{PyEnv} (namespace : string)
  (m : gmap string (string * string)) (pod : pyvalue) :
  match pod_record namespace m pod, pod_record namespace ∅ pod with
  | Ok r, Ok r' => r' = pod_without_usage r
  | Raise e, Raise e' => e = e'
  | _, _ => False
  end.
Proof.
  unfold pod_record. shared_steps.
  match goal with |- context [usage_of m ?k] => pose proof (usage_of_map_irrelevant m k) as U end.
  destruct (usage_of m _); destruct (usage_of ∅ _); simpl; try exact U.
  rewrite U. reflexivity.
Qed.

Lemma for_each_map_irrelevant {A B : Type} (f f' : A -> Result B) (without_usage : B -> B)
  (l : list A) :
  (forall x, match f x, f' x with
             | Ok r, Ok r' => r' = without_usage r
             | Raise e, Raise e' => e = e'
             | _, _ => False
             end) ->
  same_but_usage without_usage (for_each f l) (for_each f' l).
Proof.
  intros Hf. unfold same_but_usage. induction l as [|x l IH]; simpl; [reflexivity|].
  specialize (Hf x). destruct (f x) as [r|e]; destruct (f' x) as [r'|e']; simpl;
    try contradiction; [|exact Hf].
  destruct (for_each f l) as [rs|e]; destruct (for_each f' l) as [rs'|e']; simpl;
    try contradiction; [|exact IH].
  subst. reflexivity.
Qed.

Lemma get_nodes_metrics_without_snapshot `{PyEnv} (kubectl kubectl' : Kubectl) :
  kubectl' ["get"; "nodes"; "-o"; "json"] = kubectl ["get"; "nodes"; "-o"; "json"] ->
  node_metrics_in_effect kubectl' = ∅ ->
  same_but_usage node_without_usage (get_nodes_metrics kubectl) (get_nodes_metrics kubectl').
Proof.
  intros Hlisting Hempty. rewrite !get_nodes_metrics_unfold. cbv zeta.
  rewrite Hlisting, Hempty.
  destruct (negb _); [reflexivity|].
  destruct (json_loads _) as [data|e]; [|destruct e; reflexivity].
  destruct (py_get data "items" (PyList [])) as [items|e]; simpl; [|reflexivity].
  destruct (py_iter items) as [l|e]; simpl; [|reflexivity].
  apply for_each_map_irrelevant. intros node. apply node_record_map_irrelevant.
Qed.

Lemma get_pods_metrics_without_snapshot `{PyEnv} (kubectl kubectl' : Kubectl) (namespace : string) :
  kubectl' (["get"; "pods"; "-o"; "json"] ++ namespace_args namespace)
  = kubectl (["get"; "pods"; "-o"; "json"] ++ namespace_args namespace) ->
  pod_metrics_in_effect kubectl' namespace = ∅ ->
  same_but_usage pod_without_usage
    (get_pods_metrics kubectl namespace) (get_pods_metrics kubectl' namespace).
Proof.
  intros Hlisting Hempty. rewrite !get_pods_metrics_unfold. cbv zeta.
  rewrite Hlisting, Hempty.
  destruct (negb _); [reflexivity|].
  destruct (json_loads _) as [data|e]; [|destruct e; reflexivity].
  destruct (py_get data "items" (PyList [])) as [items|e]; simpl; [|reflexivity].
  destruct (py_iter items) as [l|e]; simpl; [|reflexivity].
  apply for_each_map_irrelevant. intros pod. apply pod_record_map_irrelevant.
Qed.

(** C4 as the code has it.  When the usage snapshot cannot be had (the
    command fails, or no line of its output has enough fields) every node,
    and every pod, of a listing whose items are shaped as [node_shaped] and
    [pod_shaped] say still gets its record, in order and as it is built
    against an empty usage map, with "N/A" for both usage fields.
    In general each record carries what the lookup of its own identity
    gives: the values of its line, or "N/A" twice when it has none, the
    other records being untouched.  And for any listing at all, losing the
    snapshot changes nothing in the outcome of the fetch but the usage
    fields, which become "N/A": it adds no exception and drops no record. *)
Theorem usage_snapshot_failure_degrades_to_na `{PyEnv} (kubectl : Kubectl) (namespace : string) :
  let nodes_reply := kubectl ["get"; "nodes"; "-o"; "json"] in
  let top_nodes := kubectl ["top"; "nodes"; "--no-headers"] in
  let pods_reply := kubectl (["get"; "pods"; "-o"; "json"] ++ namespace_args namespace) in
  let top_pods := kubectl (["top"; "pods"; "--no-headers"] ++ namespace_args namespace) in
  (forall data items,
      reply_code nodes_reply = 0 ->
      json_loads (reply_stdout nodes_reply) = inl data ->
      py_get data "items" (PyList []) = Ok (PyList items) ->
      forallb node_shaped items = true ->
      reply_code top_nodes <> 0
      \/ existsb (parseable 3) (snapshot_lines (reply_stdout top_nodes)) = false ->
      exists recs,
        get_nodes_metrics kubectl = Ok recs
        /\ length recs = length items
        /\ Forall2 (fun node r => node_record ∅ node = Ok r) items recs
        /\ Forall (fun r => NodeMetrics.cpu_usage r = "N/A"
                            /\ NodeMetrics.memory_usage r = "N/A") recs)
  /\ (forall recs r name,
      get_nodes_metrics kubectl = Ok recs -> In r recs -> NodeMetrics.name r = PyStr name ->
      match node_metrics_in_effect kubectl !! name with
      | Some (cpu, memory) =>
          NodeMetrics.cpu_usage r = cpu /\ NodeMetrics.memory_usage r = memory
      | None => NodeMetrics.cpu_usage r = "N/A" /\ NodeMetrics.memory_usage r = "N/A"
      end)
  /\ (forall data items,
      reply_code pods_reply = 0 ->
      json_loads (reply_stdout pods_reply) = inl data ->
      py_get data "items" (PyList []) = Ok (PyList items) ->
      forallb pod_shaped items = true ->
      reply_code top_pods <> 0
      \/ existsb (parseable (if String.eqb namespace "all" then 4 else 3))
           (snapshot_lines (reply_stdout top_pods)) = false ->
      exists recs,
        get_pods_metrics kubectl namespace = Ok recs
        /\ length recs = length items
        /\ Forall2 (fun pod r => pod_record namespace ∅ pod = Ok r) items recs
        /\ Forall (fun r => PodMetrics.cpu_usage r = "N/A"
                            /\ PodMetrics.memory_usage r = "N/A") recs)
  /\ (forall recs r key,
      get_pods_metrics kubectl namespace = Ok recs -> In r recs ->
      pod_key namespace r = PyStr key ->
      match pod_metrics_in_effect kubectl namespace !! key with
      | Some (cpu, memory) =>
          PodMetrics.cpu_usage r = cpu /\ PodMetrics.memory_usage r = memory
      | None => PodMetrics.cpu_usage r = "N/A" /\ PodMetrics.memory_usage r = "N/A"
      end)
  /\ (forall kubectl' : Kubectl,
      let top_nodes' := kubectl' ["top"; "nodes"; "--no-headers"] in
      kubectl' ["get"; "nodes"; "-o"; "json"] = nodes_reply ->
      reply_code top_nodes' <> 0
      \/ existsb (parseable 3) (snapshot_lines (reply_stdout top_nodes')) = false ->
      same_but_usage node_without_usage
        (get_nodes_metrics kubectl) (get_nodes_metrics kubectl'))
  /\ (forall kubectl' : Kubectl,
      let top_pods' := kubectl' (["top"; "pods"; "--no-headers"] ++ namespace_args namespace) in
      kubectl' (["get"; "pods"; "-o"; "json"] ++ namespace_args namespace) = pods_reply ->
      reply_code top_pods' <> 0
      \/ existsb (parseable (if String.eqb namespace "all" then 4 else 3))
           (snapshot_lines (reply_stdout top_pods')) = false ->
      same_but_usage pod_without_usage
        (get_pods_metrics kubectl namespace) (get_pods_metrics kubectl' namespace)).
Proof.
  intros nodes_reply top_nodes pods_reply top_pods.
  split; [|split; [|split; [|split; [|split]]]].
  - intros data items Hcode Hdata Hitems Hshaped Hfail.
    rewrite (get_nodes_metrics_listing kubectl data items Hcode Hdata Hitems).
    rewrite (node_metrics_in_effect_empty kubectl Hfail).
    destruct (for_each_total (node_record ∅) items) as (recs & Hrecs).
    { apply (forallb_Forall_ok node_shaped); [|exact Hshaped].
      intros node. apply node_record_shaped. }
    exists recs. split; [exact Hrecs|]. split; [eapply for_each_length; exact Hrecs|].
    split; [apply for_each_Forall2; exact Hrecs|].
    apply List.Forall_forall. intros r Hr.
    destruct (for_each_In _ _ _ _ Hrecs Hr) as (node & _ & Hnode).
    apply node_record_usage in Hnode. apply usage_of_empty in Hnode.
    injection Hnode as -> ->. split; reflexivity.
  - intros recs r name Hrecs Hr Hname.
    assert (Hnode : exists node, node_record (node_metrics_in_effect kubectl) node = Ok r).
    { rewrite get_nodes_metrics_unfold in Hrecs. cbv zeta in Hrecs.
      destruct (negb _) in Hrecs; [injection Hrecs as <-; destruct Hr|].
      destruct (json_loads _) in Hrecs;
        [|apply except_json_decode_error_Ok in Hrecs; subst recs; destruct Hr].
      bind_inv Hrecs. destruct (for_each_In _ _ _ _ Hrecs Hr) as (node & _ & Hnode). eauto. }
    destruct Hnode as (node & Hnode). apply node_record_usage in Hnode.
    rewrite Hname, usage_of_str in Hnode.
    destruct (node_metrics_in_effect kubectl !! name) as [[cpu memory]|];
      injection Hnode as <- <-; split; reflexivity.
  - intros data items Hcode Hdata Hitems Hshaped Hfail.
    rewrite (get_pods_metrics_listing kubectl namespace data items Hcode Hdata Hitems).
    rewrite (pod_metrics_in_effect_empty kubectl namespace Hfail).
    destruct (for_each_total (pod_record namespace ∅) items) as (recs & Hrecs).
    { apply (forallb_Forall_ok pod_shaped); [|exact Hshaped].
      intros pod. apply pod_record_shaped. }
    exists recs. split; [exact Hrecs|]. split; [eapply for_each_length; exact Hrecs|].
    split; [apply for_each_Forall2; exact Hrecs|].
    apply List.Forall_forall. intros r Hr.
    destruct (for_each_In _ _ _ _ Hrecs Hr) as (pod & _ & Hpod).
    apply pod_record_usage in Hpod. apply usage_of_empty in Hpod.
    injection Hpod as -> ->. split; reflexivity.
  - intros recs r key Hrecs Hr Hkey.
    assert (Hpod : exists pod,
               pod_record namespace (pod_metrics_in_effect kubectl namespace) pod = Ok r).
    { rewrite get_pods_metrics_unfold in Hrecs. cbv zeta in Hrecs.
      destruct (negb _) in Hrecs; [injection Hrecs as <-; destruct Hr|].
      destruct (json_loads _) in Hrecs;
        [|apply except_json_decode_error_Ok in Hrecs; subst recs; destruct Hr].
      bind_inv Hrecs. destruct (for_each_In _ _ _ _ Hrecs Hr) as (pod & _ & Hpod). eauto. }
    destruct Hpod as (pod & Hpod). apply pod_record_usage in Hpod.
    rewrite Hkey, usage_of_str in Hpod.
    destruct (pod_metrics_in_effect kubectl namespace !! key) as [[cpu memory]|];
      injection Hpod as <- <-; split; reflexivity.
  - intros kubectl' top_nodes' Hlisting Hfail.
    apply get_nodes_metrics_without_snapshot; [exact Hlisting|].
    apply node_metrics_in_effect_empty. exact Hfail.
  - intros kubectl' top_pods' Hlisting Hfail.
    apply get_pods_metrics_without_snapshot; [exact Hlisting|].
    apply pod_metrics_in_effect_empty. exact Hfail.
Qed.

(** ** Failures of a listing *)

Lemma get_nodes_metrics_failed `{PyEnv} (kubectl : Kubectl) :
  let reply := kubectl ["get"; "nodes"; "-o"; "json"] in
  (reply_code reply <> 0
   \/ exists msg, json_loads (reply_stdout reply) = inr (JSONDecodeError msg)) ->
  get_nodes_metrics kubectl = Ok [].
Proof.
  intros reply Hfail. rewrite get_nodes_metrics_unfold. cbv zeta. fold reply.
  destruct (reply_code reply =? 0) eqn:Hcode; [|reflexivity]. simpl.
  destruct Hfail as [Hne|(msg & ->)]; [|reflexivity].
  apply Z.eqb_eq in Hcode. contradiction.
Qed.

Lemma get_pods_metrics_failed `{PyEnv} (kubectl : Kubectl) (namespace : string) :
  let reply := kubectl (["get"; "pods"; "-o"; "json"] ++ namespace_args namespace) in
  (reply_code reply <> 0
   \/ exists msg, json_loads (reply_stdout reply) = inr (JSONDecodeError msg)) ->
  get_pods_metrics kubectl namespace = Ok [].
Proof.
  intros reply Hfail. rewrite get_pods_metrics_unfold. cbv zeta. fold reply.
  destruct (reply_code reply =? 0) eqn:Hcode; [|reflexivity]. simpl.
  destruct Hfail as [Hne|(msg & ->)]; [|reflexivity].
  apply Z.eqb_eq in Hcode. contradiction.
Qed.

Lemma except_json_decode_error_other {A : Type} (e : exn) :
  (forall msg, e <> JSONDecodeError msg) ->
  except_json_decode_error (A := A) e = Raise e.
Proof. intros Hother. destruct e; try reflexivity. destruct (Hother msg eq_refl). Qed.

Lemma get_nodes_metrics_escape `{PyEnv} (kubectl : Kubectl) (e : exn) :
  let reply := kubectl ["get"; "nodes"; "-o"; "json"] in
  reply_code reply = 0 ->
  json_loads (reply_stdout reply) = inr e ->
  (forall msg, e <> JSONDecodeError msg) ->
  get_nodes_metrics kubectl = Raise e.
Proof.
  intros reply Hcode Hdata Hother. rewrite get_nodes_metrics_unfold. cbv zeta. fold reply.
  rewrite Hcode, Hdata. apply except_json_decode_error_other. exact Hother.
Qed.

Lemma get_pods_metrics_escape `{PyEnv} (kubectl : Kubectl) (namespace : string) (e : exn) :
  let reply := kubectl (["get"; "pods"; "-o"; "json"] ++ namespace_args namespace) in
  reply_code reply = 0 ->
  json_loads (reply_stdout reply) = inr e ->
  (forall msg, e <> JSONDecodeError msg) ->
  get_pods_metrics kubectl namespace = Raise e.
Proof.
  intros reply Hcode Hdata Hother. rewrite get_pods_metrics_unfold. cbv zeta. fold reply.
  rewrite Hcode, Hdata. apply except_json_decode_error_other. exact Hother.
Qed.

Lemma apps_loop_stops (good : list pyvalue) (bad : pyvalue) (rest : list pyvalue)
  (infos : list AppInfo.t) (e : exn) :
  for_each app_info good = Ok infos -> app_info bad = Raise e ->
  forall applications healthy_apps synced_apps,
    apps_loop (good ++ bad :: rest) applications healthy_apps synced_apps
    = (applications ++ infos, Raise e).
Proof.
  revert infos. induction good as [|app good IH]; intros infos Hgood Hbad acc h s; simpl in *.
  - injection Hgood as <-. rewrite Hbad, app_nil_r. reflexivity.
  - bind_inv Hgood. injection Hgood as <-.
    match goal with Happ : app_info app = Ok ?i |- _ => rewrite Happ end.
    erewrite IH by eassumption. rewrite <- app_assoc. reflexivity.
Qed.

Lemma get_argocd_status_unfold `{PyEnv} (kubectl : Kubectl) :
  get_argocd_status kubectl
  = let reply := kubectl argocd_args in
    if reply_code reply =? 0 then
      match json_loads (reply_stdout reply) with
      | inr _ => ArgoCD.mk true [] "Unknown" "Unknown"
      | inl apps_data =>
          match (items <- py_get apps_data "items" (PyList []) ;; py_iter items) with
          | Raise _ => ArgoCD.mk true [] "Unknown" "Unknown"
          | Ok apps =>
              match apps_loop apps [] 0 0 with
              | (applications, Raise _) => ArgoCD.mk true applications "Unknown" "Unknown"
              | (applications, Ok (healthy_apps, synced_apps)) =>
                  match (items <- py_get apps_data "items" (PyList []) ;; py_len items) with
                  | Raise _ => ArgoCD.mk true applications "Unknown" "Unknown"
                  | Ok total_apps =>
                      if 0 <? total_apps then
                        ArgoCD.mk true applications
                          (py_str_int healthy_apps +:+ "/" +:+ py_str_int total_apps +:+ " Healthy")
                          (py_str_int synced_apps +:+ "/" +:+ py_str_int total_apps +:+ " Synced")
                      else ArgoCD.mk true applications "Unknown" "Unknown"
                  end
              end
          end
      end
    else ArgoCD.initial.
Proof.
  unfold get_argocd_status, reply_code, reply_stdout.
  destruct (kubectl argocd_args) as [[stdout stderr] code]. reflexivity.
Qed.

(** C3 as the code has it.  Record construction returns normally in two
    cases.  With the empty list, when the listing command exits non-zero or
    [json.loads] rejects its output with a [JSONDecodeError]; any other
    exception of [json.loads] leaves the function.  With one record per
    item, in order, when the output is an object whose [items], if there,
    is a list of items shaped as [node_shaped] and [pod_shaped] say: the
    fields the loop indexes are there and of the type it uses them at.
    The health analysis then returns the verdict of the classifier.  The
    GitOps inspector always returns a status, installed exactly when its
    command succeeded; it absorbs what [json.loads] raises and what is
    raised while it reads an application, one without
    [spec.source.repoURL] included, and returns the applications read
    before it. *)
Theorem record_construction_on_well_formed_listings `{PyEnv}
  (kubectl : Kubectl) (namespace : string) :
  let nodes_reply := kubectl ["get"; "nodes"; "-o"; "json"] in
  let pods_reply := kubectl (["get"; "pods"; "-o"; "json"] ++ namespace_args namespace) in
  let apps_reply := kubectl argocd_args in
  ((reply_code nodes_reply <> 0
    \/ exists msg, json_loads (reply_stdout nodes_reply) = inr (JSONDecodeError msg)) ->
   get_nodes_metrics kubectl = Ok [])
  /\ (forall e,
      reply_code nodes_reply = 0 ->
      json_loads (reply_stdout nodes_reply) = inr e ->
      (forall msg, e <> JSONDecodeError msg) ->
      get_nodes_metrics kubectl = Raise e)
  /\ (forall data items,
      reply_code nodes_reply = 0 ->
      json_loads (reply_stdout nodes_reply) = inl data ->
      py_get data "items" (PyList []) = Ok (PyList items) ->
      forallb node_shaped items = true ->
      exists recs,
        get_nodes_metrics kubectl = Ok recs
        /\ Forall2 (fun node r => node_record (node_metrics_in_effect kubectl) node = Ok r)
             items recs)
  /\ ((reply_code pods_reply <> 0
       \/ exists msg, json_loads (reply_stdout pods_reply) = inr (JSONDecodeError msg)) ->
      get_pods_metrics kubectl namespace = Ok [])
  /\ (forall e,
      reply_code pods_reply = 0 ->
      json_loads (reply_stdout pods_reply) = inr e ->
      (forall msg, e <> JSONDecodeError msg) ->
      get_pods_metrics kubectl namespace = Raise e)
  /\ (forall data items,
      reply_code pods_reply = 0 ->
      json_loads (reply_stdout pods_reply) = inl data ->
      py_get data "items" (PyList []) = Ok (PyList items) ->
      forallb pod_shaped items = true ->
      exists recs,
        get_pods_metrics kubectl namespace = Ok recs
        /\ Forall2 (fun pod r =>
                      pod_record namespace (pod_metrics_in_effect kubectl namespace) pod = Ok r)
             items recs)
  /\ (forall nodes pods,
      get_nodes_metrics kubectl = Ok nodes ->
      get_pods_metrics kubectl "all" = Ok pods ->
      analyze_cluster_health kubectl = Ok (classify_cluster_health nodes pods))
  /\ (forall data good bad rest infos e,
      reply_code apps_reply = 0 ->
      json_loads (reply_stdout apps_reply) = inl data ->
      py_get data "items" (PyList []) = Ok (PyList (good ++ bad :: rest)) ->
      for_each app_info good = Ok infos ->
      app_info bad = Raise e ->
      get_argocd_status kubectl = ArgoCD.mk true infos "Unknown" "Unknown")
  /\ (forall e,
      reply_code apps_reply = 0 ->
      json_loads (reply_stdout apps_reply) = inr e ->
      get_argocd_status kubectl = ArgoCD.mk true [] "Unknown" "Unknown")
  /\ ArgoCD.installed (get_argocd_status kubectl) = (reply_code apps_reply =? 0).
Proof.
  intros nodes_reply pods_reply apps_reply.
  split; [apply get_nodes_metrics_failed|].
  split; [apply get_nodes_metrics_escape|].
  split.
  { intros data items Hcode Hdata Hitems Hshaped.
    rewrite (get_nodes_metrics_listing kubectl data items Hcode Hdata Hitems).
    destruct (for_each_total (node_record (node_metrics_in_effect kubectl)) items)
      as (recs & Hrecs).
    { apply (forallb_Forall_ok node_shaped); [|exact Hshaped].
      intros node. apply node_record_shaped. }
    exists recs. split; [exact Hrecs|]. apply for_each_Forall2. exact Hrecs. }
  split; [apply get_pods_metrics_failed|].
  split; [apply get_pods_metrics_escape|].
  split.
  { intros data items Hcode Hdata Hitems Hshaped.
    rewrite (get_pods_metrics_listing kubectl namespace data items Hcode Hdata Hitems).
    destruct (for_each_total
                (pod_record namespace (pod_metrics_in_effect kubectl namespace)) items)
      as (recs & Hrecs).
    { apply (forallb_Forall_ok pod_shaped); [|exact Hshaped].
      intros pod. apply pod_record_shaped. }
    exists recs. split; [exact Hrecs|]. apply for_each_Forall2. exact Hrecs. }
  split.
  { intros nodes pods Hnodes Hpods. unfold analyze_cluster_health.
    rewrite Hnodes. simpl. rewrite Hpods. reflexivity. }
  split.
  { intros data good bad rest infos e Hcode Hdata Hitems Hgood Hbad.
    rewrite get_argocd_status_unfold. cbv zeta. fold apps_reply.
    rewrite Hcode, Hdata, Hitems. simpl.
    rewrite (apps_loop_stops good bad rest infos e Hgood Hbad). reflexivity. }
  split.
  { intros e Hcode Hdata.
    rewrite get_argocd_status_unfold. cbv zeta. fold apps_reply.
    rewrite Hcode, Hdata. reflexivity. }
  rewrite get_argocd_status_unfold. cbv zeta. fold apps_reply.
  destruct (reply_code apps_reply =? 0); [|reflexivity].
  destruct (json_loads _) as [data|msg]; [|reflexivity].
  destruct (bind _ _) as [apps|e]; [|reflexivity].
  destruct (apps_loop apps [] 0 0) as [applications [[healthy synced]|e]]; [|reflexivity].
  destruct (bind _ _) as [total|e]; [|reflexivity].
  destruct (0 <? total); reflexivity.
Qed.

(** ** The Karpenter inspector *)

Lemma analyze_karpenter_unfold `{PyEnv} (kubectl : Kubectl) :
  analyze_karpenter kubectl
  = let deployment := kubectl karpenter_deployment_args in
    let nodepools := kubectl karpenter_nodepools_args in
    let nodes := kubectl karpenter_nodes_args in
    if reply_code deployment =? 0 then
      match probe_version (reply_stdout deployment) with
      | Raise e => karpenter_failed (Karpenter.mk true None [] 0 [] []) e
      | Ok version =>
          match (if reply_code nodepools =? 0
                 then probe_node_pools (reply_stdout nodepools) else Ok []) with
          | Raise e => karpenter_failed (Karpenter.mk true version [] 0 [] []) e
          | Ok pools =>
              match (if reply_code nodes =? 0
                     then probe_provisioned_nodes (reply_stdout nodes) else Ok 0) with
              | Raise e => karpenter_failed (Karpenter.mk true version pools 0 [] []) e
              | Ok n => Karpenter.mk true version pools n [] []
              end
          end
      end
    else Karpenter.initial.
Proof.
  unfold analyze_karpenter, reply_code, reply_stdout.
  destruct (kubectl karpenter_deployment_args) as [[out1 err1] code1].
  destruct (kubectl karpenter_nodepools_args) as [[out2 err2] code2].
  destruct (kubectl karpenter_nodes_args) as [[out3 err3] code3].
  cbv zeta. simpl fst. simpl snd.
  destruct (code1 =? 0); [|reflexivity].
  destruct (probe_version out1) as [version|e]; [|reflexivity].
  destruct (code2 =? 0); destruct (code3 =? 0);
    try (destruct (probe_node_pools out2) as [pools|e]; simpl; [|reflexivity]);
    try (destruct (probe_provisioned_nodes out3) as [n|e]; simpl);
    reflexivity.
Qed.

(** C7 as the code has it.  A probe whose payload is malformed raises:
    the fields written so far stay, the later ones keep their defaults and
    the error becomes the one entry of [issues].  A probe whose command
    exits non-zero is skipped without an issue: after the presence check
    that is the whole result, after the NodePool listing or the node count
    only that probe's field keeps its default and the next probe still
    runs. *)
Theorem karpenter_probe_outcomes `{PyEnv} (kubectl : Kubectl) :
  let deployment := kubectl karpenter_deployment_args in
  let nodepools := kubectl karpenter_nodepools_args in
  let nodes := kubectl karpenter_nodes_args in
  let result := analyze_karpenter kubectl in
  let issue e := "Error analyzing Karpenter: " +:+ str_exn e in
  (reply_code deployment <> 0 -> result = Karpenter.initial)
  /\ (reply_code deployment = 0 ->
      (forall e, probe_version (reply_stdout deployment) = Raise e ->
       result = Karpenter.mk true None [] 0 [issue e] [])
      /\ (forall version, probe_version (reply_stdout deployment) = Ok version ->
          (reply_code nodepools = 0 ->
           forall e, probe_node_pools (reply_stdout nodepools) = Raise e ->
           result = Karpenter.mk true version [] 0 [issue e] [])
          /\ (forall pools,
              (reply_code nodepools = 0
               /\ probe_node_pools (reply_stdout nodepools) = Ok pools)
              \/ (reply_code nodepools <> 0 /\ pools = []) ->
              (reply_code nodes <> 0 -> result = Karpenter.mk true version pools 0 [] [])
              /\ (reply_code nodes = 0 ->
                  (forall e, probe_provisioned_nodes (reply_stdout nodes) = Raise e ->
                   result = Karpenter.mk true version pools 0 [issue e] [])
                  /\ (forall n, probe_provisioned_nodes (reply_stdout nodes) = Ok n ->
                      result = Karpenter.mk true version pools n [] []))))).
Proof.
  intros deployment nodepools nodes result issue.
  unfold result. rewrite analyze_karpenter_unfold. cbv zeta.
  fold deployment nodepools nodes.
  split.
  { intros Hne. apply Z.eqb_neq in Hne. rewrite Hne. reflexivity. }
  intros ->. simpl. split.
  { intros e ->. reflexivity. }
  intros version ->. split.
  { intros -> e ->. reflexivity. }
  intros pools Hpools.
  assert (Hstep : (if reply_code nodepools =? 0
                   then probe_node_pools (reply_stdout nodepools) else Ok []) = Ok pools).
  { destruct Hpools as [[-> ->]|[Hne ->]]; [reflexivity|].
    apply Z.eqb_neq in Hne. rewrite Hne. reflexivity. }
  rewrite Hstep. split.
  { intros Hne. apply Z.eqb_neq in Hne. rewrite Hne. reflexivity. }
  intros ->. simpl. split.
  - intros e ->. reflexivity.
  - intros n ->. reflexivity.
Qed.

(** ** Examples and counterexamples of the client *)

(** C3, counterexample.  A node listing whose one node has no
    [status.conditions]: the [KeyError] leaves [get_nodes_metrics] and the
    health analysis. *)
Lemma node_without_conditions_raises :
  json_loads (PyEnv := example_env)
    (reply_stdout (cluster_with_fresh_node ["get"; "nodes"; "-o"; "json"]))
  = inl (PyDict [("items", PyList [fresh_node])])
  /\ get_nodes_metrics (H := example_env) cluster_with_fresh_node
     = Raise (KeyError "conditions")
  /\ analyze_cluster_health (H := example_env) cluster_with_fresh_node
     = Raise (KeyError "conditions").
Proof. vm_compute. repeat split. Qed.

(** C3, at a cluster whose node listing is well formed, at one that serves
    no node listing, at one whose second application has no [repoURL], and
    at one whose node listing is an integer too long to convert. *)
Lemma record_construction_examples :
  (exists recs,
      get_nodes_metrics (H := example_env) cluster_without_metrics = Ok recs
      /\ Forall2 (fun node r =>
                    node_record (H := example_env)
                      (node_metrics_in_effect cluster_without_metrics) node = Ok r)
           example_nodes recs)
  /\ get_nodes_metrics (H := example_env) cluster_with_argocd = Ok []
  /\ get_argocd_status (H := example_env) cluster_with_argocd
     = ArgoCD.mk true
         [AppInfo.mk (PyStr "shop") (PyStr "Healthy") (PyStr "Synced")
            (PyStr "https://git.example/shop")]
         "Unknown" "Unknown"
  /\ get_nodes_metrics (H := long_integer_env) cluster_with_long_integer
     = Raise (ValueError "Exceeds the limit (4300 digits) for integer string conversion: value has 5001 digits; use sys.set_int_max_str_digits() to increase the limit").
Proof.
  split; [|split; [|split]].
  - destruct (record_construction_on_well_formed_listings
                (H := example_env) cluster_without_metrics "all")
      as (_ & _ & Hshaped & _).
    apply (Hshaped (PyDict [("items", PyList example_nodes)]) example_nodes); reflexivity.
  - destruct (record_construction_on_well_formed_listings
                (H := example_env) cluster_with_argocd "all")
      as (Hfailed & _).
    apply Hfailed. left. vm_compute. discriminate.
  - destruct (record_construction_on_well_formed_listings
                (H := example_env) cluster_with_argocd "all")
      as (_ & _ & _ & _ & _ & _ & _ & Happ & _).
    apply (Happ (PyDict [("items", PyList example_apps)])
             [hd PyNone example_apps] (nth 1 example_apps PyNone) []
             _ (KeyError "repoURL")); reflexivity.
  - destruct (record_construction_on_well_formed_listings
                (H := long_integer_env) cluster_with_long_integer "all")
      as (_ & Hescape & _).
    apply Hescape; [reflexivity|vm_compute; reflexivity|discriminate].
Defined.

(** The fields alone do not make an item well formed: a node whose labels
    are [null], a pod whose restart count is a string and a pod whose spec
    is a list carry every field the loops index, and raise. *)
Example items_of_another_type_raise :
  let node labels :=
    PyDict [
      ("metadata", PyDict [("name", PyStr "node-a");
                           ("creationTimestamp", PyStr "2024-03-06T07:05:03Z");
                           ("labels", labels)]);
      ("status", PyDict [
         ("conditions", PyList [PyDict [("type", PyStr "Ready"); ("status", PyStr "True")]]);
         ("nodeInfo", PyDict [("kubeletVersion", PyStr "v1.29.0")])])] in
  let pod spec count :=
    PyDict [
      ("metadata", PyDict [("name", PyStr "web-0"); ("namespace", PyStr "default");
                           ("creationTimestamp", PyStr "2024-03-06T07:05:03Z")]);
      ("spec", spec);
      ("status", PyDict [("phase", PyStr "Running");
                         ("containerStatuses", PyList [PyDict [("restartCount", count)]])])] in
  node_record (H := example_env) ∅ (node PyNone)
  = Raise (AttributeError "'NoneType' object has no attribute 'get'")
  /\ pod_record (H := example_env) "all" ∅ (pod (PyDict []) (PyStr "3"))
     = Raise (TypeError "unsupported operand type(s) for +: 'int' and 'str'")
  /\ pod_record (H := example_env) "all" ∅ (pod (PyList []) (PyInt 3))
     = Raise (AttributeError "'list' object has no attribute 'get'").
Proof. repeat split. Qed.

(** C4, counterexample.  The usage snapshot fails and the second of two
    listed nodes has no [status.conditions]: the [KeyError] leaves
    [get_nodes_metrics], and the first node gets no record either. *)
Lemma snapshot_failure_does_not_absorb_a_key_error :
  reply_code (cluster_with_mixed_nodes ["top"; "nodes"; "--no-headers"]) = 1
  /\ json_loads (PyEnv := mixed_nodes_env)
       (reply_stdout (cluster_with_mixed_nodes ["get"; "nodes"; "-o"; "json"]))
     = inl (PyDict [("items", PyList [example_node "node-a" "True"; fresh_node])])
  /\ get_nodes_metrics (H := mixed_nodes_env) cluster_with_mixed_nodes
     = Raise (KeyError "conditions").
Proof. vm_compute. repeat split. Qed.

(** C4, at a cluster without a metrics server, and at one whose usage
    snapshot has a line for [node-a] and none for [node-b]. *)
Lemma usage_snapshot_examples :
  (exists recs,
      get_nodes_metrics (H := example_env) cluster_without_metrics = Ok recs
      /\ length recs = length example_nodes
      /\ Forall2 (fun node r => node_record (H := example_env) ∅ node = Ok r)
           example_nodes recs
      /\ Forall (fun r => NodeMetrics.cpu_usage r = "N/A"
                          /\ NodeMetrics.memory_usage r = "N/A") recs)
  /\ (forall recs r,
      get_nodes_metrics (H := example_env) cluster_with_one_usage_line = Ok recs ->
      In r recs ->
      (NodeMetrics.name r = PyStr "node-a" ->
       NodeMetrics.cpu_usage r = "250m" /\ NodeMetrics.memory_usage r = "12%")
      /\ (NodeMetrics.name r = PyStr "node-b" ->
          NodeMetrics.cpu_usage r = "N/A" /\ NodeMetrics.memory_usage r = "N/A")).
Proof.
  split.
  - apply (proj1 (usage_snapshot_failure_degrades_to_na
                    (H := example_env) cluster_without_metrics "all")
             (PyDict [("items", PyList example_nodes)]) example_nodes);
      try reflexivity.
    left. vm_compute. discriminate.
  - intros recs r Hrecs Hr. split; intros Hname.
    + exact (proj1 (proj2 (usage_snapshot_failure_degrades_to_na
                             (H := example_env) cluster_with_one_usage_line "all"))
               recs r "node-a" Hrecs Hr Hname).
    + exact (proj1 (proj2 (usage_snapshot_failure_degrades_to_na
                             (H := example_env) cluster_with_one_usage_line "all"))
               recs r "node-b" Hrecs Hr Hname).
Defined.

(** C7, counterexample.  The NodePool listing exits non-zero; the node
    count, a later field, is filled all the same and [issues] stays
    empty. *)
Lemma karpenter_counts_nodes_after_failed_nodepool_listing :
  reply_code (cluster_without_nodepools karpenter_nodepools_args) = 1
  /\ analyze_karpenter (H := example_env) cluster_without_nodepools
     = Karpenter.mk true (Some "v0.32.1") [] 2 [] [].
Proof. vm_compute. split; reflexivity. Qed.

(** C7, at a cluster whose first probe prints no JSON. *)
Lemma karpenter_malformed_deployment_example :
  analyze_karpenter (H := example_env) cluster_with_stray_warning
  = Karpenter.mk true None [] 0
      ["Error analyzing Karpenter: Expecting value: line 1 column 1 (char 0)"] [].
Proof.
  apply (proj1 (proj2 (karpenter_probe_outcomes (H := example_env) cluster_with_stray_warning)
                  eq_refl)
           (JSONDecodeError "Expecting value: line 1 column 1 (char 0)")).
  reflexivity.
Defined.

(** ** Examples of the classifier and of the renderer *)

(** C1, at the example cluster: a node that is not ready, a pod with six
    restarts. *)
Lemma status_follows_findings_example :
  exists h,
    analyze_cluster_health (H := example_env) cluster_without_metrics = Ok h
    /\ ClusterHealth.overall_status h = "Critical"
    /\ ClusterHealth.critical_issues h = ["1 nodes are not ready"]
    /\ ClusterHealth.warnings h = ["1 pods have high restart counts"]
    /\ status_follows_findings h.
Proof.
  eexists. split; [vm_compute; reflexivity|]. do 3 (split; [reflexivity|]).
  apply (proj2 overall_status_derived_from_lists example_env cluster_without_metrics).
  vm_compute. reflexivity.
Defined.

(** C8, at the example cluster: two nodes, one of them not ready. *)
Lemma node_counts_example :
  exists h,
    analyze_cluster_health (H := example_env) cluster_without_metrics = Ok h
    /\ ClusterHealth.node_count h = 2
    /\ ClusterHealth.unhealthy_nodes h = 1
    /\ node_counts_consistent h.
Proof.
  eexists. split; [vm_compute; reflexivity|]. do 2 (split; [reflexivity|]).
  apply (proj2 node_counts_add_up_and_unhealthy_is_critical example_env cluster_without_metrics).
  vm_compute. reflexivity.
Defined.

(** C9, at a pod with five restarts and a pod with six. *)
Lemma restart_threshold_example :
  let pod n := PodMetrics.mk (PyStr "p") (PyStr "default") (PyStr "Running")
                 "N/A" "N/A" n "1d" (PyStr "n") in
  high_restart_pods [pod 5; pod 6] = [pod 6]
  /\ In (pod 6) (high_restart_pods [pod 5; pod 6])
  /\ In "1 pods have high restart counts"
       (ClusterHealth.warnings (classify_cluster_health [] [pod 5; pod 6]))
  /\ In "Investigate pods with high restart counts for stability issues"
       (ClusterHealth.recommendations (classify_cluster_health [] [pod 5; pod 6])).
Proof.
  intros pod.
  destruct (restart_threshold_is_exclusive [] [pod 5; pod 6]) as (_ & _ & H6 & _ & Hw & Hr).
  split; [reflexivity|]. split; [|split].
  - apply H6; [right; left; reflexivity|reflexivity].
  - apply Hw. discriminate.
  - apply Hr. discriminate.
Defined.

(** C10, at one running pod, and at a pending pod, a running pod and a pod
    restarted seven times on another node. *)
Lemma problem_pods_block_example :
  let pod name status restarts node :=
    PodMetrics.mk (PyStr name) (PyStr "default") (PyStr status) "N/A" "N/A" restarts "1d"
      (PyStr node) in
  problem_pods_section (H := example_env) [pod "web-0" "Running" 0 "node-a"] = EmptyString
  /\ problem_pods_section (H := example_env)
       [pod "web-0" "Pending" 0 "node-a"; pod "web-1" "Running" 5 "node-a";
        pod "db-0" "Running" 7 "node-b"]
     = nl +:+ "## 🚨 Problem Pods (2 pods)" +:+ nl +:+ nl
       +:+ "| Name | Namespace | Status | Restarts | Node |" +:+ nl
       +:+ "|------|-----------|--------|----------|------|" +:+ nl
       +:+ "| web-0 | default | Pending | 0 | node-a |" +:+ nl
       +:+ "| db-0 | default | Running | 7 | node-b |" +:+ nl.
Proof.
  intros pod.
  destruct (problem_pods_block_only_for_problem_pods (H := example_env)
              (datetime.mk 2024 3 9 7 5 3 0) GENERIC (classify_cluster_health [] [])
              [] Karpenter.initial ArgoCD.initial true) as (before & after & Hblock).
  split.
  - apply (proj1 (proj2 (Hblock [pod "web-0" "Running" 0 "node-a"]))).
    intros p [<-|[]]. reflexivity.
  - apply (proj1 (proj2 (proj2
             (Hblock [pod "web-0" "Pending" 0 "node-a"; pod "web-1" "Running" 5 "node-a";
                      pod "db-0" "Running" 7 "node-b"])))
             (pod "web-0" "Pending" 0 "node-a"));
      [left; reflexivity|reflexivity].
Defined.

(** C2, at the JSON format. *)
Lemma structured_report_example :
  exists serialise : pyvalue -> string,
    generate_health_report (H := example_env) "json" true (datetime.mk 2024 3 9 7 5 3 0)
      GENERIC (classify_cluster_health [] []) [] [] Karpenter.initial ArgoCD.initial
    = serialise (report_data (datetime.mk 2024 3 9 7 5 3 0) (classify_cluster_health [] [])
                   [] Karpenter.initial ArgoCD.initial)
    /\ (serialise = @yaml_dump example_env \/ serialise = @json_dumps example_env).
Proof.
  apply (proj2 (proj2 (structured_report_round_trip (datetime.mk 2024 3 9 7 5 3 0)
                         (classify_cluster_health [] []) [] Karpenter.initial ArgoCD.initial))
           example_env "json" true GENERIC []).
  reflexivity.
Defined.

(** C6, at two readings within the same second. *)
Lemma same_second_same_markdown :
  generate_health_report (H := example_env) "markdown" true (datetime.mk 2024 3 9 7 5 3 120)
    GENERIC (classify_cluster_health [] []) [] [] Karpenter.initial ArgoCD.initial
  = generate_health_report (H := example_env) "markdown" true (datetime.mk 2024 3 9 7 5 3 950000)
      GENERIC (classify_cluster_health [] []) [] [] Karpenter.initial ArgoCD.initial.
Proof.
  apply (proj2 (proj2 (report_varies_only_with_the_clock_reading (H := example_env)
                         (datetime.mk 2024 3 9 7 5 3 120) (datetime.mk 2024 3 9 7 5 3 950000)
                         GENERIC (classify_cluster_health [] []) [] []
                         Karpenter.initial ArgoCD.initial true)) "markdown").
  reflexivity.
Defined.

(** ** The resource-fix generator *)

(** C5.  The f-string of the [resource_limits] branch ends its JSON patch
    with seven closing braces, three escaped pairs and a single one, so
    the branch has no value for any target and namespace: the interpreter
    rejects the literal. *)
Theorem resource_limits_fstring_is_rejected later_branches target namespace :
  generate_resource_fixes later_branches "resource_limits" target namespace
  = FSyntaxError "f-string: single '}' is not allowed".
Proof. vm_compute. reflexivity. Qed.

(** With the eighth brace the same template gives the manifest, the target
    and the namespace in their places. *)
Remark resource_limits_template_one_brace_short :
  let repaired :=
    String.substring 0 (String.length resource_limits_template - 2) resource_limits_template
    +:+ "}'" +:+ nl in
  exists manifest,
    fstring [("target", "web"); ("namespace", "prod")] None repaired = FValue manifest
    /\ str_contains ("# Resource Limits Fix for web" +:+ nl) manifest = true
    /\ str_contains ("  name: web-limits" +:+ nl +:+ "  namespace: prod" +:+ nl) manifest = true
    /\ str_contains "# kubectl patch deployment web -n prod -p '{" manifest = true.
Proof. eexists. vm_compute. repeat split. Qed.

(** ** Further properties of the classifier, the normaliser and the renderer *)

Lemma exclusive_counts {A : Type} (p q r : A -> bool) (l : list A) :
  (forall x, (p x && q x) || (p x && r x) || (q x && r x) = false) ->
  sum_ones p l + sum_ones q l + sum_ones r l <= len l.
Proof.
  intros Hex. rewrite !sum_ones_filter. unfold len.
  induction l as [|x l IH]; simpl; [lia|].
  specialize (Hex x).
  destruct (p x), (q x), (r x); simpl in *; try discriminate; lia.
Qed.

(** X1.  The three pod counters never exceed the number of pods: a phase is
    counted at most once, and the other phases not at all. *)
Theorem pod_counts_within_total nodes pods :
  let h := classify_cluster_health nodes pods in
  ClusterHealth.total_pods h = len pods
  /\ 0 <= ClusterHealth.running_pods h
  /\ 0 <= ClusterHealth.pending_pods h
  /\ 0 <= ClusterHealth.failed_pods h
  /\ ClusterHealth.running_pods h + ClusterHealth.pending_pods h + ClusterHealth.failed_pods h
     <= ClusterHealth.total_pods h.
Proof.
  intros h. split; [reflexivity|].
  split; [apply sum_ones_bounds|]. split; [apply sum_ones_bounds|].
  split; [apply sum_ones_bounds|].
  apply (exclusive_counts
           (fun pod => py_eq_str (PodMetrics.status pod) "Running")
           (fun pod => py_eq_str (PodMetrics.status pod) "Pending") is_failed).
  intros pod. unfold is_failed. destruct (PodMetrics.status pod) as [| | | |s| |]; try reflexivity.
  simpl.
  destruct (String.eqb_spec s "Running") as [->|_]; [reflexivity|].
  destruct (String.eqb_spec s "Pending") as [->|_]; reflexivity.
Qed.

(** X2.  The node table shows the first ten nodes and, past ten, a note with
    the number of nodes left out. *)
Theorem node_table_capped_at_ten `{PyEnv} (nodes : list NodeMetrics.t) :
  add_node_details nodes EmptyString
  = nl +:+ "## 🖥️ Node Details (" +:+ py_str_int (len nodes) +:+ " nodes)" +:+ nl +:+ nl
    +:+ "| Name | Status | CPU | Memory | Age | Version | Instance Type |" +:+ nl
    +:+ "|------|--------|-----|--------|-----|---------|---------------|" +:+ nl
    +:+ join_chars (map node_row (firstn 10 nodes))
    +:+ (if 10 <? len nodes
         then nl +:+ "*... and " +:+ py_str_int (len nodes - 10) +:+ " more nodes*" +:+ nl
         else EmptyString).
Proof.
  unfold add_node_details. cbv zeta.
  destruct (10 <? len nodes);
    rewrite fold_left_append, ?str_app_assoc, ?str_app_nil_l, ?str_app_nil_r; reflexivity.
Qed.

(** X3.  A format that is neither markdown nor yaml is rendered as JSON. *)
Theorem unknown_format_is_rendered_as_json `{PyEnv}
  format_type incl now provider health nodes pods karpenter argocd :
  String.eqb format_type "markdown" || String.eqb format_type "yaml" = false ->
  generate_health_report format_type incl now provider health nodes pods karpenter argocd
  = json_dumps (report_data now health nodes karpenter argocd).
Proof.
  intros Hfmt. apply orb_false_iff in Hfmt as [Hmd Hyaml].
  unfold generate_health_report. rewrite Hmd, Hyaml. reflexivity.
Qed.

(** X3, at the format html. *)
Lemma unknown_format_example :
  generate_health_report (H := example_env) "html" true (datetime.mk 2024 3 9 7 5 3 0)
    GENERIC (classify_cluster_health [] []) [] [] Karpenter.initial ArgoCD.initial
  = @json_dumps example_env
      (report_data (datetime.mk 2024 3 9 7 5 3 0) (classify_cluster_health [] [])
         [] Karpenter.initial ArgoCD.initial).
Proof.
  apply (unknown_format_is_rendered_as_json (H := example_env) "html"). reflexivity.
Defined.



(** ** The provider and the age of a resource *)

Lemma prefix_app (p s : string) :
  String.prefix p s = true <-> exists rest, s = p +:+ rest.
Proof.
  revert p. induction s as [|d s IH]; intros [|c p]; simpl.
  - split; [intros _; exists EmptyString; reflexivity|reflexivity].
  - split; [discriminate|]. intros (rest & E). rewrite str_app_cons in E. discriminate.
  - split; [intros _; exists (String d s); reflexivity|reflexivity].
  - destruct (Ascii.ascii_dec c d) as [->|Hne].
    + rewrite IH. split; intros (rest & E); exists rest.
      * rewrite str_app_cons, E. reflexivity.
      * rewrite str_app_cons in E. injection E as E. exact E.
    + split; [discriminate|]. intros (rest & E). rewrite str_app_cons in E. congruence.
Qed.

Lemma str_contains_mentions (needle hay : string) :
  str_contains needle hay = true <-> mentions needle hay.
Proof.
  unfold mentions. induction hay as [|c hay IH].
  - cbn [str_contains]. rewrite orb_false_r, prefix_app. split.
    + intros (rest & E). exists EmptyString, rest. rewrite str_app_nil_l. exact E.
    + intros (before & after & E). destruct before as [|b before].
      * rewrite str_app_nil_l in E. eauto.
      * rewrite str_app_cons in E. discriminate.
  - cbn [str_contains]. rewrite orb_true_iff, prefix_app, IH. split.
    + intros [(rest & E)|(before & after & E)].
      * exists EmptyString, rest. rewrite str_app_nil_l. exact E.
      * exists (String c before), after. rewrite str_app_cons, E. reflexivity.
    + intros (before & after & E). destruct before as [|b before].
      * rewrite str_app_nil_l in E. left. eauto.
      * rewrite str_app_cons in E. injection E as -> E. right. eauto.
Qed.

(** X5.  The provider is read off the cluster dump by the first marker
    that occurs in it, in the order EKS, GKE, AKS: it is EKS exactly when
    the command exited with 0 and its output mentions eks.amazonaws.com,
    GKE exactly when it mentions gke.googleapis.com and not the EKS
    marker, AKS exactly when it mentions aks.azure.com and neither of the
    other two, and GENERIC in every other case, a failed or crashed
    command included. *)
Theorem provider_follows_first_marker (result : Result (string * Z)) :
  let dump_mentions marker :=
    exists stdout, result = Ok (stdout, 0) /\ mentions marker stdout in
  (_detect_provider result = EKS <-> dump_mentions "eks.amazonaws.com")
  /\ (_detect_provider result = GKE
      <-> dump_mentions "gke.googleapis.com" /\ ~ dump_mentions "eks.amazonaws.com")
  /\ (_detect_provider result = AKS
      <-> dump_mentions "aks.azure.com"
          /\ ~ dump_mentions "eks.amazonaws.com" /\ ~ dump_mentions "gke.googleapis.com")
  /\ (_detect_provider result = GENERIC
      <-> ~ dump_mentions "eks.amazonaws.com" /\ ~ dump_mentions "gke.googleapis.com"
          /\ ~ dump_mentions "aks.azure.com").
Proof.
  intros dump_mentions.
  assert (Hno : forall marker, (forall stdout, result <> Ok (stdout, 0)) -> ~ dump_mentions marker).
  { intros marker Hne (stdout & E & _). exact (Hne stdout E). }
  assert (Hyes : forall marker stdout, result = Ok (stdout, 0) ->
                 (dump_mentions marker <-> str_contains marker stdout = true)).
  { intros marker stdout E. rewrite str_contains_mentions. split.
    - intros (stdout' & E' & Hm). congruence.
    - intros Hm. exists stdout. auto. }
  destruct result as [[stdout returncode]|e].
  - destruct (Z.eqb_spec returncode 0) as [->|Hne].
    + pose proof (Hyes "eks.amazonaws.com" stdout eq_refl) as He.
      pose proof (Hyes "gke.googleapis.com" stdout eq_refl) as Hg.
      pose proof (Hyes "aks.azure.com" stdout eq_refl) as Ha.
      rewrite He, Hg, Ha. simpl.
      destruct (str_contains "eks.amazonaws.com" stdout);
        destruct (str_contains "gke.googleapis.com" stdout);
        destruct (str_contains "aks.azure.com" stdout);
        intuition congruence.
    + assert (Hn : forall marker, ~ dump_mentions marker).
      { intros marker. apply Hno. congruence. }
      simpl. apply Z.eqb_neq in Hne. rewrite Hne.
      pose proof (Hn "eks.amazonaws.com"). pose proof (Hn "gke.googleapis.com").
      pose proof (Hn "aks.azure.com"). intuition congruence.
  - assert (Hn : forall marker, ~ dump_mentions marker).
    { intros marker. apply Hno. congruence. }
    simpl.
    pose proof (Hn "eks.amazonaws.com"). pose proof (Hn "gke.googleapis.com").
    pose proof (Hn "aks.azure.com"). intuition congruence.
Qed.

(** A dump that names two providers is read as the first of them. *)
Example dump_with_two_markers :
  _detect_provider (Ok ("server: https://aks.azure.com; oidc: https://oidc.eks.amazonaws.com", 0))
  = EKS.
Proof. reflexivity. Qed.

(** X6.  The age of a timestamp that parses, the elapsed time being
    [days] and [seconds] with [0 <= seconds < 86400] as [timedelta] keeps
    them: the days when there is at least one; else the whole hours of
    [seconds], between 1 and 23, when [seconds] is more than 3600; else the
    whole minutes of [seconds], between 0 and 60.  So an age of exactly one
    hour reads 60m, and a timestamp ahead of the clock, whose [days] are
    negative, is read from [seconds] alone. *)
Theorem age_unit_and_range `{PyEnv} (timestamp : string) (days seconds : Z) :
  timedelta_since (str_replace "Z" "+00:00" timestamp) = Some (days, seconds) ->
  0 <= seconds < 86400 ->
  let age := _calculate_age (PyStr timestamp) in
  (0 < days -> age = py_str_int days +:+ "d")
  /\ (days <= 0 -> 3600 < seconds ->
      exists hours, age = py_str_int hours +:+ "h"
                    /\ 1 <= hours <= 23 /\ 3600 * hours <= seconds < 3600 * (hours + 1))
  /\ (days <= 0 -> seconds <= 3600 ->
      exists minutes, age = py_str_int minutes +:+ "m"
                      /\ 0 <= minutes <= 60 /\ 60 * minutes <= seconds < 60 * (minutes + 1)).
Proof.
  intros Hdelta Hsec age. unfold age, _calculate_age. rewrite Hdelta.
  split; [|split].
  - intros Hd. apply Z.ltb_lt in Hd. rewrite Hd. reflexivity.
  - intros Hd Hs. apply Z.ltb_ge in Hd. rewrite Hd. apply Z.ltb_lt in Hs. rewrite Hs.
    exists (seconds / 3600). split; [reflexivity|].
    pose proof (Z.div_mod seconds 3600 ltac:(lia)).
    pose proof (Z.mod_pos_bound seconds 3600 ltac:(lia)).
    apply Z.ltb_lt in Hs. lia.
  - intros Hd Hs. apply Z.ltb_ge in Hd. rewrite Hd. apply Z.ltb_ge in Hs. rewrite Hs.
    exists (seconds / 60). split; [reflexivity|].
    pose proof (Z.div_mod seconds 60 ltac:(lia)).
    pose proof (Z.mod_pos_bound seconds 60 ltac:(lia)).
    apply Z.ltb_ge in Hs. lia.
Qed.

(** X6, at a timestamp three days old. *)
Lemma age_unit_and_range_example :
  let age := _calculate_age (H := example_env) (PyStr "2024-03-06T07:05:03Z") in
  (0 < 3 -> age = py_str_int 3 +:+ "d")
  /\ (3 <= 0 -> 3600 < 0 ->
      exists hours, age = py_str_int hours +:+ "h"
                    /\ 1 <= hours <= 23 /\ 3600 * hours <= 0 < 3600 * (hours + 1))
  /\ (3 <= 0 -> 0 <= 3600 ->
      exists minutes, age = py_str_int minutes +:+ "m"
                      /\ 0 <= minutes <= 60 /\ 60 * minutes <= 0 < 60 * (minutes + 1)).
Proof.
  apply (age_unit_and_range (H := example_env) "2024-03-06T07:05:03Z" 3 0); [reflexivity|lia].
Defined.

(** The two edges, with a clock of their own: one hour to the second, and
    a timestamp one minute ahead of the clock. *)
Example age_of_one_hour_and_of_a_future_timestamp :
  let clock delta : PyEnv :=
    {| json_loads _ := inr (JSONDecodeError EmptyString); json_dumps _ := EmptyString;
       yaml_dump _ := EmptyString; py_repr _ := EmptyString;
       timedelta_since _ := Some delta |} in
  _calculate_age (H := clock (0, 3600)) (PyStr "2024-03-09T06:05:03Z") = "60m"
  /\ _calculate_age (H := clock (0, 3601)) (PyStr "2024-03-09T06:05:02Z") = "1h"
  /\ _calculate_age (H := clock (-1, 86340)) (PyStr "2024-03-09T07:06:03Z") = "23h".
Proof. repeat split. Qed.

(** ** The usage snapshot, line by line *)

Lemma node_metrics_line_lookup (m : gmap string (string * string)) (line name : string) :
  node_metrics_line m line !! name
  = match node_line_usage name line with Some u => Some u | None => m !! name end.
Proof.
  unfold node_metrics_line, node_line_usage.
  destruct (String.eqb_spec line EmptyString) as [->|_]; simpl; [reflexivity|].
  destruct (str_split line) as [|p0 [|p1 [|p2 rest]]]; try reflexivity.
  destruct (String.eqb_spec p0 name) as [->|Hne].
  - apply lookup_insert_eq.
  - apply lookup_insert_ne. exact Hne.
Qed.

Lemma pod_metrics_line_lookup (namespace : string) (m : gmap string (string * string))
  (line key : string) :
  pod_metrics_line namespace m line !! key
  = match pod_line_usage namespace key line with Some u => Some u | None => m !! key end.
Proof.
  unfold pod_metrics_line, pod_line_usage.
  destruct (String.eqb_spec line EmptyString) as [->|_]; simpl.
  { destruct (String.eqb namespace "all"); reflexivity. }
  destruct (String.eqb namespace "all").
  - destruct (str_split line) as [|p0 [|p1 [|p2 [|p3 rest]]]]; try reflexivity.
    destruct (String.eqb_spec (p0 +:+ ":" +:+ p1) key) as [<-|Hne].
    + apply lookup_insert_eq.
    + apply lookup_insert_ne. exact Hne.
  - destruct (str_split line) as [|p0 [|p1 [|p2 rest]]]; try reflexivity.
    destruct (String.eqb_spec p0 key) as [->|Hne].
    + apply lookup_insert_eq.
    + apply lookup_insert_ne. exact Hne.
Qed.

(** A map filled line by line holds, under a key, what the last line that
    writes the key wrote. *)
Lemma fold_lines_lookup {K V : Type} `{Countable K}
  (step : gmap K V -> string -> gmap K V) (hit : string -> option V) (k : K) :
  (forall m line, step m line !! k = match hit line with Some u => Some u | None => m !! k end) ->
  forall lines m,
    fold_left step lines m !! k
    = match last (omap hit lines) with Some u => Some u | None => m !! k end.
Proof.
  intros Hstep. induction lines as [|line lines IH]; intros m; [reflexivity|].
  cbn [fold_left]. rewrite IH, Hstep. clear IH. cbn [omap list_omap].
  destruct (hit line) as [u|]; [rewrite last_cons|]; destruct (last _); reflexivity.
Qed.

(** X7.  What the usage map of [get_nodes_metrics] holds for a node name:
    the second and third field of the last snapshot line that has at least
    three fields and that name as its first; nothing when there is no such
    line.  A later line for a node replaces an earlier one, a line with
    fewer than three fields is passed over, fields after the third are not
    read. *)
Theorem node_usage_is_the_last_line_of_the_name (metrics_stdout name : string) :
  node_metrics_map metrics_stdout !! name
  = last (omap (node_line_usage name) (snapshot_lines metrics_stdout)).
Proof.
  unfold node_metrics_map.
  rewrite (fold_lines_lookup node_metrics_line (node_line_usage name) name)
    by (intros; apply node_metrics_line_lookup).
  rewrite lookup_empty. destruct (last _); reflexivity.
Qed.

(** A node listed twice, with a short line in between: the later line is
    the one kept, and of its columns the second and the third. *)
Example usage_of_a_node_listed_twice :
  node_metrics_map ("node-a 250m 12% 1024Mi 40%" +:+ nl +:+ "stray" +:+ nl
                    +:+ "node-a 300m 15% 2048Mi 80%" +:+ nl) !! "node-a"
  = Some ("300m", "15%").
Proof. vm_compute. reflexivity. Qed.

(** X8.  What the usage map of [get_pods_metrics] holds for a key: with
    every namespace listed, the third and fourth field of the last
    snapshot line that has at least four fields and whose first two
    fields, joined by a colon, are the key; for one namespace, the second
    and third field of the last line that has at least three fields and
    the key as its first. *)
Theorem pod_usage_is_the_last_line_of_the_key (namespace metrics_stdout key : string) :
  pod_metrics_map namespace metrics_stdout !! key
  = last (omap (pod_line_usage namespace key) (snapshot_lines metrics_stdout)).
Proof.
  unfold pod_metrics_map.
  rewrite (fold_lines_lookup (pod_metrics_line namespace) (pod_line_usage namespace key) key)
    by (intros; apply pod_metrics_line_lookup).
  rewrite lookup_empty. destruct (last _); reflexivity.
Qed.

(** ** Restart counts and utilisation *)

Lemma sum_restarts_from (statuses : list pyvalue) :
  forallb container_status_shaped statuses = true ->
  forall acc,
    for_fold (fun acc cs => n <- py_get cs "restartCount" (PyInt 0) ;; py_add_int acc n)
      statuses acc
    = Ok (acc + fold_right Z.add 0 (map restart_count statuses)).
Proof.
  induction statuses as [|cs rest IH]; simpl; intros Hs acc; [f_equal; lia|].
  apply andb_true_iff in Hs as [Hcs Hrest].
  destruct cs as [| | | | | |d]; try discriminate. simpl in Hcs. simpl.
  destruct (dict_lookup "restartCount" d) as [[| |n| | | |]|]; try discriminate; simpl;
    rewrite (IH Hrest); f_equal; lia.
Qed.

(** X9.  The restart count of a pod record is the sum of the
    [restartCount] of the pod's container statuses, a status without one
    counting 0; a pod without container statuses has 0 restarts. *)
Theorem restarts_are_summed_over_the_containers `{PyEnv} (namespace : string)
  (m : gmap string (string * string)) (pod status : pyvalue) (statuses : list pyvalue)
  (r : PodMetrics.t) :
  pod_record namespace m pod = Ok r ->
  py_getitem pod "status" = Ok status ->
  py_get status "containerStatuses" (PyList []) = Ok (PyList statuses) ->
  forallb container_status_shaped statuses = true ->
  PodMetrics.restarts r = fold_right Z.add 0 (map restart_count statuses)
  /\ (statuses = [] -> PodMetrics.restarts r = 0).
Proof.
  intros Hr Hstatus Hstatuses Hshaped.
  assert (E : PodMetrics.restarts r = fold_right Z.add 0 (map restart_count statuses)).
  { unfold pod_record in Hr. bind_inv Hr. injection Hr as <-. simpl.
    repeat match goal with
           | H1 : ?c = Ok ?a, H2 : ?c = Ok ?b |- _ =>
               assert (a = b) by congruence; subst; clear H2
           end.
    match goal with
    | Hi : py_iter (PyList statuses) = Ok ?l, Hsum : sum_restarts ?l = Ok ?n |- _ =>
        simpl in Hi; injection Hi as <-; unfold sum_restarts in Hsum;
        rewrite (sum_restarts_from statuses Hshaped 0) in Hsum; injection Hsum as <-
    end.
    lia. }
  split; [exact E|]. intros ->. exact E.
Qed.

(** X9, at a pod of two containers, restarted four times and twice. *)
Lemma restarts_example :
  let statuses := [PyDict [("restartCount", PyInt 4)]; PyDict [("restartCount", PyInt 2)]] in
  PodMetrics.restarts
    (PodMetrics.mk (PyStr "web-0") (PyStr "default") (PyStr "Running") "N/A" "N/A" 6 "3d"
       (PyStr "N/A"))
  = fold_right Z.add 0 (map restart_count statuses)
  /\ (statuses = [] ->
      PodMetrics.restarts
        (PodMetrics.mk (PyStr "web-0") (PyStr "default") (PyStr "Running") "N/A" "N/A" 6 "3d"
           (PyStr "N/A"))
      = 0).
Proof.
  intros statuses.
  apply (restarts_are_summed_over_the_containers (H := example_env) "all" ∅
           (PyDict [
              ("metadata", PyDict [("name", PyStr "web-0"); ("namespace", PyStr "default");
                                   ("creationTimestamp", PyStr "2024-03-06T07:05:03Z")]);
              ("spec", PyDict []);
              ("status", PyDict [("phase", PyStr "Running");
                                 ("containerStatuses", PyList statuses)])])
           (PyDict [("phase", PyStr "Running"); ("containerStatuses", PyList statuses)]));
    reflexivity.
Defined.

(** X10.  No verdict carries a measured utilisation, and no node record a
    disk usage: whatever the cluster and its usage snapshot, a verdict of
    [analyze_cluster_health] has 0.0 in its three utilisation fields, which
    the report prints as 0.0, and every record of [get_nodes_metrics] has
    N/A as its disk usage. *)
Theorem utilisation_is_never_measured `{PyEnv} (kubectl : Kubectl) :
  (forall h, analyze_cluster_health kubectl = Ok h ->
     ClusterHealth.cpu_utilization h = 0%float
     /\ ClusterHealth.memory_utilization h = 0%float
     /\ ClusterHealth.disk_utilization h = 0%float
     /\ format_1f (ClusterHealth.cpu_utilization h) = "0.0"
     /\ format_1f (ClusterHealth.memory_utilization h) = "0.0")
  /\ (forall nodes node, get_nodes_metrics kubectl = Ok nodes -> In node nodes ->
      NodeMetrics.disk_usage node = "N/A").
Proof.
  split.
  - intros h Hh. apply analyze_cluster_health_Ok in Hh as (nodes & pods & _ & _ & ->).
    repeat split.
  - intros nodes node Hnodes Hin. rewrite get_nodes_metrics_unfold in Hnodes. cbv zeta in Hnodes.
    destruct (negb _) in Hnodes; [injection Hnodes as <-; destruct Hin|].
    destruct (json_loads _) in Hnodes;
      [|apply except_json_decode_error_Ok in Hnodes; subst nodes; destruct Hin].
    bind_inv Hnodes. destruct (for_each_In _ _ _ _ Hnodes Hin) as (item & _ & Hitem).
    unfold node_record in Hitem. bind_inv Hitem. injection Hitem as <-. reflexivity.
Qed.

(** X10, at the cluster that reports usage for one of its nodes. *)
Lemma utilisation_example :
  let h := classify_cluster_health
             [NodeMetrics.mk (PyStr "node-a") "250m" "12%" "N/A" "Ready" "3d" (PyStr "v1.29.0")
                PyNone PyNone;
              NodeMetrics.mk (PyStr "node-b") "N/A" "N/A" "N/A" "NotReady" "3d" (PyStr "v1.29.0")
                PyNone PyNone]
             [PodMetrics.mk (PyStr "web-0") (PyStr "default") (PyStr "Running") "N/A" "N/A" 6 "3d"
                (PyStr "node-a")] in
  ClusterHealth.cpu_utilization h = 0%float
  /\ ClusterHealth.memory_utilization h = 0%float
  /\ ClusterHealth.disk_utilization h = 0%float
  /\ format_1f (ClusterHealth.cpu_utilization h) = "0.0"
  /\ format_1f (ClusterHealth.memory_utilization h) = "0.0".
Proof.
  intros h.
  apply (proj1 (utilisation_is_never_measured (H := example_env) cluster_with_one_usage_line)).
  vm_compute. reflexivity.
Defined.

(** ** Findings, recommendations and the blocks that show them *)

Lemma sum_ones_cons {A : Type} (p : A -> bool) (x : A) (l : list A) :
  sum_ones p (x :: l) = (if p x then 1 else 0) + sum_ones p l.
Proof.
  unfold sum_ones. simpl. rewrite !sum_ones_from. destruct (p x); lia.
Qed.

Lemma sum_ones_zero {A : Type} (p : A -> bool) (l : list A) :
  sum_ones p l = 0 <-> forall x, In x l -> p x = false.
Proof.
  induction l as [|x l IH]; [split; [intros _ x []|reflexivity]|].
  rewrite sum_ones_cons. pose proof (sum_ones_bounds p l) as B. split.
  - intros E y [Hxy|Hy].
    + subst y. destruct (p x); [lia|reflexivity].
    + apply IH; [destruct (p x); lia|exact Hy].
  - intros Hall. rewrite (Hall x (or_introl eq_refl)).
    apply IH. intros y Hy. apply Hall. right. exact Hy.
Qed.

Lemma sum_ones_all {A : Type} (p : A -> bool) (l : list A) :
  sum_ones p l = len l <-> forall x, In x l -> p x = true.
Proof.
  induction l as [|x l IH]; [split; [intros _ x []|reflexivity]|].
  rewrite sum_ones_cons. pose proof (sum_ones_bounds p l) as B.
  replace (len (x :: l)) with (1 + len l) by (unfold len; simpl length; lia). split.
  - intros E y [Hxy|Hy].
    + subst y. destruct (p x); [reflexivity|lia].
    + apply IH; [destruct (p x); lia|exact Hy].
  - intros Hall. rewrite (Hall x (or_introl eq_refl)).
    f_equal. apply IH. intros y Hy. apply Hall. right. exact Hy.
Qed.

Lemma append_if_nil (c : bool) (x : string) (l : list string) :
  append_if c x l = [] <-> c = false /\ l = [].
Proof.
  unfold append_if. destruct c.
  - split; [intros E; destruct l; discriminate|intros [E _]; discriminate].
  - split; [auto|intros [_ E]; exact E].
Qed.

Lemma positive_iff (n : Z) : 0 <= n -> ((0 <? n) = false <-> n = 0).
Proof. intros Hn. rewrite Z.ltb_ge. lia. Qed.

(** X11.  A verdict has no recommendation exactly when no node is
    unhealthy, no pod is pending and no pod has more than 5 restarts; any
    recommendation is one of three fixed sentences.  Failed pods bring
    none: a cluster whose only finding is failed pods is Critical and has
    an empty list of recommendations. *)
Theorem recommendations_follow_nodes_pending_and_restarts nodes pods :
  let h := classify_cluster_health nodes pods in
  (ClusterHealth.recommendations h = []
   <-> ClusterHealth.unhealthy_nodes h = 0 /\ ClusterHealth.pending_pods h = 0
       /\ high_restart_pods pods = [])
  /\ (forall r, In r (ClusterHealth.recommendations h) ->
      r = "Investigate unhealthy nodes and consider replacement"
      \/ r = "Check resource constraints and node availability"
      \/ r = "Investigate pods with high restart counts for stability issues")
  /\ (0 < ClusterHealth.failed_pods h ->
      ClusterHealth.unhealthy_nodes h = 0 -> ClusterHealth.pending_pods h = 0 ->
      high_restart_pods pods = [] ->
      ClusterHealth.overall_status h = "Critical" /\ ClusterHealth.recommendations h = []).
Proof.
  intros h.
  set (u := len nodes - sum_ones (fun node => String.eqb (NodeMetrics.status node) "Ready") nodes).
  set (p := sum_ones (fun pod => py_eq_str (PodMetrics.status pod) "Pending") pods).
  assert (R : ClusterHealth.recommendations h
              = append_if (nonempty (high_restart_pods pods))
                  "Investigate pods with high restart counts for stability issues"
                  (append_if (0 <? p) "Check resource constraints and node availability"
                     (append_if (0 <? u)
                        "Investigate unhealthy nodes and consider replacement" [])))
    by apply classify_recommendations.
  assert (Hu : ClusterHealth.unhealthy_nodes h = u) by reflexivity.
  assert (Hp : ClusterHealth.pending_pods h = p) by reflexivity.
  assert (Bu : 0 <= u).
  { pose proof (sum_ones_bounds (fun node => String.eqb (NodeMetrics.status node) "Ready") nodes).
    unfold u. lia. }
  assert (Bp : 0 <= p) by apply sum_ones_bounds.
  assert (Hnil : ClusterHealth.recommendations h = []
                 <-> ClusterHealth.unhealthy_nodes h = 0 /\ ClusterHealth.pending_pods h = 0
                     /\ high_restart_pods pods = []).
  { rewrite R, Hu, Hp, !append_if_nil, nonempty_false, !positive_iff by assumption. tauto. }
  split; [exact Hnil|split].
  - intros r Hr. rewrite R in Hr.
    apply in_append_if in Hr as [Hr|[_ Hr]]; [|auto].
    apply in_append_if in Hr as [Hr|[_ Hr]]; [|auto].
    apply in_append_if in Hr as [[]|[_ Hr]]. auto.
  - intros Hf Hu0 Hp0 Hr0. split; [|apply Hnil; auto].
    assert (E : ClusterHealth.overall_status h
                = if nonempty (ClusterHealth.critical_issues h) then "Critical"
                  else if nonempty (ClusterHealth.warnings h) then "Warning"
                  else "Healthy") by apply classify_overall_status.
    assert (C : ClusterHealth.critical_issues h
                = append_if (0 <? sum_ones is_failed pods)
                    (py_str_int (sum_ones is_failed pods) +:+ " pods are in failed state")
                    (append_if (0 <? u) (py_str_int u +:+ " nodes are not ready") []))
      by apply classify_critical_issues.
    assert (F : ClusterHealth.failed_pods h = sum_ones is_failed pods) by reflexivity.
    rewrite E, C. rewrite F in Hf. apply Z.ltb_lt in Hf. rewrite Hf.
    unfold append_if. destruct (0 <? u); reflexivity.
Qed.

(** X11, at a cluster whose one pod has failed. *)
Lemma only_failed_pods_example :
  let h := classify_cluster_health []
             [PodMetrics.mk (PyStr "p") (PyStr "default") (PyStr "Failed") "N/A" "N/A" 0 "1d"
                (PyStr "n")] in
  ClusterHealth.overall_status h = "Critical" /\ ClusterHealth.recommendations h = [].
Proof.
  intros h.
  apply (proj2 (proj2 (recommendations_follow_nodes_pending_and_restarts []
           [PodMetrics.mk (PyStr "p") (PyStr "default") (PyStr "Failed") "N/A" "N/A" 0 "1d"
              (PyStr "n")])));
    reflexivity.
Defined.

(** X12.  Every pod behind a finding of the classifier, be it pending,
    failed or restarted more than 5 times, is a problem pod of the report.
    And when the report has no problem pod, every pod is counted as
    running, none as pending or failed, the verdict has no warning, and it
    is Healthy unless a node is unhealthy. *)
Theorem pod_findings_are_among_the_problem_pods nodes pods :
  let h := classify_cluster_health nodes pods in
  (forall pod, In pod pods ->
     py_eq_str (PodMetrics.status pod) "Pending" = true \/ is_failed pod = true
     \/ 5 < PodMetrics.restarts pod ->
     In pod (problem_pods pods))
  /\ (problem_pods pods = [] ->
      ClusterHealth.running_pods h = ClusterHealth.total_pods h
      /\ ClusterHealth.pending_pods h = 0
      /\ ClusterHealth.failed_pods h = 0
      /\ ClusterHealth.warnings h = []
      /\ (ClusterHealth.overall_status h = "Healthy" \/ 0 < ClusterHealth.unhealthy_nodes h)).
Proof.
  intros h.
  assert (Hstatus : forall pod s, s <> "Running" ->
            py_eq_str (PodMetrics.status pod) s = true ->
            py_eq_str (PodMetrics.status pod) "Running" = false).
  { intros pod s Hs. destruct (PodMetrics.status pod); simpl; try reflexivity.
    intros E. apply String.eqb_eq in E. subst. apply String.eqb_neq. exact Hs. }
  split.
  - intros pod Hin Hfinding. unfold problem_pods. apply List.filter_In. split; [exact Hin|].
    apply orb_true_iff. destruct Hfinding as [Hp|[Hf|Hr]].
    + left. rewrite (Hstatus pod "Pending"); [reflexivity|discriminate|exact Hp].
    + left. unfold is_failed in Hf. apply orb_true_iff in Hf as [Hf|Hf].
      * rewrite (Hstatus pod "Failed"); [reflexivity|discriminate|exact Hf].
      * rewrite (Hstatus pod "CrashLoopBackOff"); [reflexivity|discriminate|exact Hf].
    + right. apply Z.ltb_lt. exact Hr.
  - intros Hnone. unfold problem_pods in Hnone. rewrite filter_nil_iff in Hnone.
    assert (Hrun : forall pod, In pod pods -> py_eq_str (PodMetrics.status pod) "Running" = true).
    { intros pod Hin. apply Hnone in Hin. apply orb_false_iff in Hin as [Hin _].
      apply negb_false_iff in Hin. exact Hin. }
    assert (Hrestarts : high_restart_pods pods = []).
    { unfold high_restart_pods. apply filter_nil_iff. intros pod Hin.
      apply Hnone in Hin. apply orb_false_iff in Hin as [_ Hin]. exact Hin. }
    assert (Hpending : sum_ones (fun pod => py_eq_str (PodMetrics.status pod) "Pending") pods = 0).
    { apply sum_ones_zero. intros pod Hin. specialize (Hrun pod Hin).
      destruct (PodMetrics.status pod); simpl in *; try reflexivity.
      apply String.eqb_eq in Hrun. subst. reflexivity. }
    assert (Hfailed : sum_ones is_failed pods = 0).
    { apply sum_ones_zero. intros pod Hin. specialize (Hrun pod Hin). unfold is_failed.
      destruct (PodMetrics.status pod); simpl in *; try reflexivity.
      apply String.eqb_eq in Hrun. subst. reflexivity. }
    assert (W : ClusterHealth.warnings h = []).
    { unfold h. rewrite classify_warnings. cbv zeta. rewrite Hrestarts, Hpending. reflexivity. }
    split; [apply sum_ones_all; exact Hrun|].
    split; [exact Hpending|]. split; [exact Hfailed|]. split; [exact W|].
    assert (E : ClusterHealth.overall_status h
                = if nonempty (ClusterHealth.critical_issues h) then "Critical"
                  else if nonempty (ClusterHealth.warnings h) then "Warning"
                  else "Healthy") by apply classify_overall_status.
    rewrite E, W. unfold h. rewrite classify_critical_issues. cbv zeta. rewrite Hfailed.
    change (ClusterHealth.unhealthy_nodes (classify_cluster_health nodes pods))
      with (len nodes - sum_ones (fun node => String.eqb (NodeMetrics.status node) "Ready") nodes).
    destruct (0 <? len nodes - sum_ones _ nodes) eqn:Hu.
    + right. apply Z.ltb_lt. exact Hu.
    + left. reflexivity.
Qed.

(** X12, at a cluster of one running pod. *)
Lemma pod_findings_example :
  let h := classify_cluster_health []
             [PodMetrics.mk (PyStr "web-0") (PyStr "default") (PyStr "Running") "N/A" "N/A" 0
                "1d" (PyStr "n")] in
  ClusterHealth.running_pods h = ClusterHealth.total_pods h
  /\ ClusterHealth.pending_pods h = 0
  /\ ClusterHealth.failed_pods h = 0
  /\ ClusterHealth.warnings h = []
  /\ (ClusterHealth.overall_status h = "Healthy" \/ 0 < ClusterHealth.unhealthy_nodes h).
Proof.
  intros h.
  apply (proj2 (pod_findings_are_among_the_problem_pods []
           [PodMetrics.mk (PyStr "web-0") (PyStr "default") (PyStr "Running") "N/A" "N/A" 0
              "1d" (PyStr "n")])).
  reflexivity.
Defined.

(** The converse does not hold: a pod that ran to completion is a problem
    pod of a Healthy cluster. *)
Example completed_pod_is_a_problem_pod_of_a_healthy_cluster :
  let pod := PodMetrics.mk (PyStr "job") (PyStr "default") (PyStr "Succeeded") "N/A" "N/A" 0
               "1d" (PyStr "n") in
  ClusterHealth.overall_status (classify_cluster_health [] [pod]) = "Healthy"
  /\ problem_pods [pod] = [pod].
Proof. vm_compute. split; reflexivity. Qed.

Lemma str_app_eq_prefix (a b x y : string) :
  a +:+ x = b +:+ y -> String.prefix a b = true \/ String.prefix b a = true.
Proof.
  revert b. induction a as [|c a IH]; intros [|d b] E.
  - left. reflexivity.
  - left. reflexivity.
  - right. reflexivity.
  - rewrite !str_app_cons in E. injection E as -> E. cbn [String.prefix].
    destruct (Ascii.ascii_dec d d) as [_|Hne]; [exact (IH b E)|contradiction].
Qed.

(** Two texts that part ways are different, whatever follows them. *)
Ltac texts_differ E :=
  rewrite <- ?str_app_assoc in E;
  match type of E with
  | _ +:+ _ = _ +:+ _ => idtac
  | _ +:+ _ = ?b => rewrite <- (str_app_nil_r b) in E
  end;
  apply str_app_eq_prefix in E; vm_compute in E; destruct E; discriminate.

(** X13.  In the report on a verdict of the classifier, the block of
    critical issues is the one line "No critical issues detected" exactly
    when no node is unhealthy and no pod has failed, and the block of
    warnings is its heading and the one line "No warnings" exactly when no
    pod is pending and none has more than 5 restarts. *)
Theorem all_clear_lines_mean_no_finding nodes pods :
  let h := classify_cluster_health nodes pods in
  (add_critical_issues h EmptyString = "- ✅ No critical issues detected" +:+ nl
   <-> ClusterHealth.unhealthy_nodes h = 0 /\ ClusterHealth.failed_pods h = 0)
  /\ (add_warnings h EmptyString = nl +:+ "### ⚠️ Warnings" +:+ nl +:+ "- ✅ No warnings" +:+ nl
      <-> ClusterHealth.pending_pods h = 0 /\ high_restart_pods pods = []).
Proof.
  intros h.
  set (u := len nodes - sum_ones (fun node => String.eqb (NodeMetrics.status node) "Ready") nodes).
  set (f := sum_ones is_failed pods).
  set (p := sum_ones (fun pod => py_eq_str (PodMetrics.status pod) "Pending") pods).
  assert (C : ClusterHealth.critical_issues h
              = append_if (0 <? f) (py_str_int f +:+ " pods are in failed state")
                  (append_if (0 <? u) (py_str_int u +:+ " nodes are not ready") []))
    by apply classify_critical_issues.
  assert (W : ClusterHealth.warnings h
              = append_if (nonempty (high_restart_pods pods))
                  (py_str_int (len (high_restart_pods pods)) +:+ " pods have high restart counts")
                  (append_if (0 <? p) (py_str_int p +:+ " pods are pending") []))
    by apply classify_warnings.
  assert (Bu : 0 <= u).
  { pose proof (sum_ones_bounds (fun node => String.eqb (NodeMetrics.status node) "Ready") nodes).
    unfold u. lia. }
  assert (Bf : 0 <= f) by apply sum_ones_bounds.
  assert (Bp : 0 <= p) by apply sum_ones_bounds.
  assert (Cnil : ClusterHealth.critical_issues h = []
                 <-> ClusterHealth.unhealthy_nodes h = 0 /\ ClusterHealth.failed_pods h = 0).
  { rewrite C. change (ClusterHealth.unhealthy_nodes h) with u.
    change (ClusterHealth.failed_pods h) with f.
    rewrite !append_if_nil, !positive_iff by assumption. tauto. }
  assert (Wnil : ClusterHealth.warnings h = []
                 <-> ClusterHealth.pending_pods h = 0 /\ high_restart_pods pods = []).
  { rewrite W. change (ClusterHealth.pending_pods h) with p.
    rewrite !append_if_nil, nonempty_false, !positive_iff by assumption. tauto. }
  split.
  - rewrite <- Cnil. unfold add_critical_issues.
    destruct (ClusterHealth.critical_issues h) as [|issue issues].
    + split; reflexivity.
    + split; [|discriminate]. intros E. exfalso.
      cbn [nonempty] in E. rewrite append_lines_app in E. cbn [map join_chars fold_right] in E.
      rewrite str_app_nil_l in E. texts_differ E.
  - rewrite <- Wnil. unfold add_warnings.
    destruct (ClusterHealth.warnings h) as [|warning warnings].
    + split; [reflexivity|]. intros _. cbn [nonempty]. block_text.
    + split; [|discriminate]. intros E. exfalso.
      cbn [nonempty] in E. rewrite append_lines_app in E. cbn [map join_chars fold_right] in E.
      rewrite !str_app_nil_l in E. texts_differ E.
Qed.

(** ** The two inspectors *)






(** What the text after the last colon is for an image with a registry
    port and no tag, for one with neither, and for one pinned by digest. *)
Example version_of_an_image_without_a_tag :
  find_version [PyDict [("image", PyStr "registry.local:5000/karpenter/controller")]]
  = Ok (Some "5000/karpenter/controller")
  /\ find_version [PyDict [("image", PyStr "public.ecr.aws/karpenter/controller")]]
     = Ok (Some "public.ecr.aws/karpenter/controller")
  /\ find_version
       [PyDict [("image", PyStr "public.ecr.aws/karpenter/controller@sha256:0123abcd")]]
     = Ok (Some "0123abcd").
Proof. repeat split. Qed.

Lemma apps_loop_completes (apps : list pyvalue) (infos : list AppInfo.t) :
  for_each app_info apps = Ok infos ->
  forall applications healthy_apps synced_apps,
    apps_loop apps applications healthy_apps synced_apps
    = (applications ++ infos,
       Ok (healthy_apps + sum_ones (fun a => py_eq_str (AppInfo.health a) "Healthy") infos,
           synced_apps + sum_ones (fun a => py_eq_str (AppInfo.sync a) "Synced") infos)).
Proof.
  revert infos. induction apps as [|app apps IH]; intros infos E acc h s; simpl in *.
  - injection E as <-. rewrite app_nil_r. unfold sum_ones. simpl. repeat f_equal; lia.
  - bind_inv E. injection E as <-.
    match goal with Happ : app_info app = Ok ?i |- _ => rewrite Happ end.
    erewrite IH by eassumption. rewrite <- app_assoc, !sum_ones_cons. simpl.
    repeat match goal with |- context [if ?c then _ else _] => destruct c end;
      f_equal; f_equal; f_equal; lia.
Qed.

(** X15.  When the application listing succeeds and every application can
    be read, the status holds one entry per application, in order, and its
    two summaries count, out of all applications, those whose health is
    Healthy and those whose sync is Synced; neither count exceeds the
    total.  With no application at all both summaries stay "Unknown"
    although ArgoCD is installed. *)
Theorem argocd_counts_over_all_applications `{PyEnv} (kubectl : Kubectl)
  (data : pyvalue) (apps : list pyvalue) (infos : list AppInfo.t) :
  let reply := kubectl argocd_args in
  let healthy := sum_ones (fun a => py_eq_str (AppInfo.health a) "Healthy") infos in
  let synced := sum_ones (fun a => py_eq_str (AppInfo.sync a) "Synced") infos in
  reply_code reply = 0 ->
  json_loads (reply_stdout reply) = inl data ->
  py_get data "items" (PyList []) = Ok (PyList apps) ->
  for_each app_info apps = Ok infos ->
  len infos = len apps
  /\ 0 <= healthy <= len apps
  /\ 0 <= synced <= len apps
  /\ get_argocd_status kubectl
     = if nonempty apps then
         ArgoCD.mk true infos
           (py_str_int healthy +:+ "/" +:+ py_str_int (len apps) +:+ " Healthy")
           (py_str_int synced +:+ "/" +:+ py_str_int (len apps) +:+ " Synced")
       else ArgoCD.mk true [] "Unknown" "Unknown".
Proof.
  intros reply healthy synced Hcode Hdata Hitems Hinfos.
  assert (Hlen : len infos = len apps).
  { unfold len. f_equal. eapply for_each_length. exact Hinfos. }
  split; [exact Hlen|].
  pose proof (sum_ones_bounds (fun a => py_eq_str (AppInfo.health a) "Healthy") infos) as Hh.
  pose proof (sum_ones_bounds (fun a => py_eq_str (AppInfo.sync a) "Synced") infos) as Hs.
  rewrite Hlen in Hh, Hs.
  split; [exact Hh|]. split; [exact Hs|].
  rewrite get_argocd_status_unfold. cbv zeta. fold reply.
  rewrite Hcode, Hdata, Hitems. simpl.
  rewrite (apps_loop_completes apps infos Hinfos). simpl.
  rewrite nonempty_len.
  destruct (0 <? len apps) eqn:Hpos; [reflexivity|].
  apply Z.ltb_ge in Hpos. destruct apps; [|unfold len in Hpos; simpl in Hpos; lia].
  simpl in Hinfos. injection Hinfos as <-. reflexivity.
Qed.

(** X15, at one application that is healthy and out of sync. *)
Lemma argocd_counts_example :
  let infos := [AppInfo.mk (PyStr "shop") (PyStr "Healthy") (PyStr "OutOfSync")
                  (PyStr "https://git.example/shop")] in
  len infos = len [shop_app]
  /\ 0 <= 1 <= len [shop_app]
  /\ 0 <= 0 <= len [shop_app]
  /\ get_argocd_status (H := gitops_env) cluster_with_one_application
     = ArgoCD.mk true infos "1/1 Healthy" "0/1 Synced".
Proof.
  intros infos.
  apply (argocd_counts_over_all_applications (H := gitops_env) cluster_with_one_application
           (PyDict [("items", PyList [shop_app])]) [shop_app] infos);
    reflexivity.
Defined.

Lemma karpenter_section_installed (k : Karpenter.t) :
  Karpenter.installed k = true ->
  exists rest,
    add_karpenter k EmptyString
    = nl +:+ "## 🚀 Karpenter Status" +:+ nl +:+ "- **Version**: " +:+ rest.
Proof.
  intros Hk. unfold add_karpenter. rewrite Hk.
  destruct (nonempty _); eexists; block_text.
Qed.

Lemma argocd_section_installed `{PyEnv} (a : ArgoCD.t) :
  ArgoCD.installed a = true ->
  exists rest,
    add_argocd a EmptyString
    = nl +:+ "## 🔄 ArgoCD Status" +:+ nl +:+ "- **Applications**: " +:+ rest.
Proof.
  intros Ha. unfold add_argocd. rewrite Ha.
  destruct (nonempty _); eexists; block_text.
Qed.

Lemma karpenter_installed_iff `{PyEnv} (kubectl : Kubectl) :
  Karpenter.installed (analyze_karpenter kubectl)
  = (reply_code (kubectl karpenter_deployment_args) =? 0).
Proof.
  rewrite analyze_karpenter_unfold. cbv zeta.
  destruct (reply_code (kubectl karpenter_deployment_args) =? 0); [|reflexivity].
  destruct (probe_version _); [|reflexivity].
  destruct (if reply_code (kubectl karpenter_nodepools_args) =? 0 then _ else _); [|reflexivity].
  destruct (if reply_code (kubectl karpenter_nodes_args) =? 0 then _ else _); reflexivity.
Qed.

Lemma argocd_installed_iff `{PyEnv} (kubectl : Kubectl) :
  ArgoCD.installed (get_argocd_status kubectl) = (reply_code (kubectl argocd_args) =? 0).
Proof.
  rewrite get_argocd_status_unfold. cbv zeta.
  destruct (reply_code (kubectl argocd_args) =? 0); [|reflexivity].
  destruct (json_loads _) as [data|msg]; [|reflexivity].
  destruct (bind _ _) as [apps|e]; [|reflexivity].
  destruct (apps_loop apps [] 0 0) as [applications [[healthy synced]|e]]; [|reflexivity].
  destruct (bind _ _) as [total|e]; [|reflexivity].
  destruct (0 <? total); reflexivity.
Qed.

(** X16.  The report says "Not installed" under Karpenter exactly when
    the command that looks for the Karpenter deployment exits non-zero,
    and under ArgoCD exactly when the command that lists the applications
    exits non-zero; a later failure of either inspector does not turn its
    section into "Not installed". *)
Theorem not_installed_is_reported_when_the_presence_probe_fails `{PyEnv} (kubectl : Kubectl) :
  (add_karpenter (analyze_karpenter kubectl) EmptyString
   = nl +:+ "## 🚀 Karpenter Status" +:+ nl +:+ "- ❌ Not installed" +:+ nl
   <-> reply_code (kubectl karpenter_deployment_args) <> 0)
  /\ (add_argocd (get_argocd_status kubectl) EmptyString
      = nl +:+ "## 🔄 ArgoCD Status" +:+ nl +:+ "- ❌ Not installed" +:+ nl
      <-> reply_code (kubectl argocd_args) <> 0).
Proof.
  split.
  - pose proof (karpenter_installed_iff kubectl) as Hi.
    destruct (Z.eqb_spec (reply_code (kubectl karpenter_deployment_args)) 0) as [Hz|Hnz].
    + split; [|intros Hne; contradiction].
      intros E. destruct (karpenter_section_installed _ Hi) as (rest & Hrest).
      rewrite Hrest in E. texts_differ E.
    + split; [intros _; exact Hnz|]. intros _.
      unfold add_karpenter. rewrite Hi. block_text.
  - pose proof (argocd_installed_iff kubectl) as Hi.
    destruct (Z.eqb_spec (reply_code (kubectl argocd_args)) 0) as [Hz|Hnz].
    + split; [|intros Hne; contradiction].
      intros E. destruct (argocd_section_installed _ Hi) as (rest & Hrest).
      rewrite Hrest in E. texts_differ E.
    + split; [intros _; exact Hnz|]. intros _.
      unfold add_argocd. rewrite Hi. block_text.
Qed.

(** ** The MCP tools *)

Lemma dict_lookup_app (k : string) (d d' : list (string * pyvalue)) :
  dict_lookup k (d ++ d')
  = match dict_lookup k d with Some v => Some v | None => dict_lookup k d' end.
Proof.
  induction d as [|[k' v] d IH]; simpl; [reflexivity|].
  destruct (String.eqb k' k); [reflexivity|exact IH].
Qed.

Lemma py_get_with_default (d : list (string * pyvalue)) (key k : string)
  (default fallback : pyvalue) :
  dict_lookup key d = None ->
  py_get (PyDict (d ++ [(key, default)])) k fallback
  = if String.eqb key k
    then Ok default
    else py_get (PyDict d) k fallback.
Proof.
  intros Hkey. simpl. rewrite dict_lookup_app. simpl.
  destruct (String.eqb_spec key k) as [<-|Hne]; [rewrite Hkey; reflexivity|].
  destruct (dict_lookup k d); reflexivity.
Qed.

(** X17.  A tool name that [handle_list_tools] does not advertise is
    answered with the one text "Unknown tool: " and the name, whatever the
    arguments, and without a look at the cluster. *)
Theorem unadvertised_tool_is_unknown `{PyEnv} (server : Server.t) (name : string)
  (arguments : pyvalue) :
  ~ In name (map Tool.name handle_list_tools) ->
  handle_call_tool server name arguments = Ok (text_content ("Unknown tool: " +:+ name)).
Proof.
  intros Hname. unfold handle_call_tool.
  repeat match goal with
         | |- context [String.eqb name ?s] =>
             destruct (String.eqb_spec name s) as [->|_];
             [exfalso; apply Hname; simpl; tauto|]
         end.
  reflexivity.
Qed.

(** X17, at a tool the server does not have. *)
Lemma unadvertised_tool_example :
  handle_call_tool (H := example_env) (steady_server cluster_without_metrics)
    "get_events" (PyDict [])
  = Ok (text_content "Unknown tool: get_events").
Proof.
  apply (unadvertised_tool_is_unknown (H := example_env)).
  simpl. intros [E|[E|[E|[E|[E|[E|[E|[E|[E|[]]]]]]]]]]; discriminate E.
Defined.

(** X18.  Every default an input schema advertises is the default the
    handler applies: for a tool of [handle_list_tools] and a property for
    which its schema declares a default, a call that leaves the property
    out has the outcome of the call that passes the declared default. *)
Theorem advertised_defaults_are_the_defaults_applied `{PyEnv} (server : Server.t)
  (tool : Tool.t) (key : string) (default : pyvalue) (arguments : list (string * pyvalue)) :
  In tool handle_list_tools ->
  In (key, default) (schema_defaults tool) ->
  dict_lookup key arguments = None ->
  handle_call_tool server (Tool.name tool) (PyDict arguments)
  = handle_call_tool server (Tool.name tool) (PyDict (arguments ++ [(key, default)])).
Proof.
  intros Htool Hdefault Hkey.
  simpl in Htool.
  destruct Htool as [<-|[<-|[<-|[<-|[<-|[<-|[<-|[<-|[<-|[]]]]]]]]]];
    cbn in Hdefault;
    repeat match goal with
           | Hd : _ \/ _ |- _ => destruct Hd as [Hd|Hd]
           | Hd : False |- _ => destruct Hd
           | Hd : (_, _) = (_, _) |- _ => injection Hd as <- <-
           end;
    unfold handle_call_tool; cbn [Tool.name String.eqb Ascii.eqb Bool.eqb];
    rewrite ?py_get_with_default by exact Hkey;
    cbn [String.eqb Ascii.eqb Bool.eqb];
    try reflexivity.
  - change (py_get (PyDict arguments) "namespace" (PyStr "all"))
      with (match dict_lookup "namespace" arguments with
            | Some x => Ok x | None => Ok (PyStr "all") end).
    rewrite Hkey. reflexivity.
  - change (py_get (PyDict arguments) "format" (PyStr "markdown"))
      with (match dict_lookup "format" arguments with
            | Some x => Ok x | None => Ok (PyStr "markdown") end).
    rewrite Hkey. reflexivity.
  - change (py_get (PyDict arguments) "include_recommendations" (PyBool true))
      with (match dict_lookup "include_recommendations" arguments with
            | Some x => Ok x | None => Ok (PyBool true) end).
    rewrite Hkey. reflexivity.
  - change (py_get (PyDict arguments) "namespace" (PyStr "default"))
      with (match dict_lookup "namespace" arguments with
            | Some x => Ok x | None => Ok (PyStr "default") end).
    rewrite Hkey. reflexivity.
Qed.

(** X18, at the report format: no format is the format markdown. *)
Lemma advertised_defaults_example :
  handle_call_tool (H := example_env) (steady_server cluster_without_metrics)
    "generate_health_report" (PyDict [("include_recommendations", PyBool false)])
  = handle_call_tool (H := example_env) (steady_server cluster_without_metrics)
      "generate_health_report"
      (PyDict ([("include_recommendations", PyBool false)] ++ [("format", PyStr "markdown")])).
Proof.
  apply (advertised_defaults_are_the_defaults_applied (H := example_env)
           (steady_server cluster_without_metrics)
           (nth 7 handle_list_tools (Tool.mk EmptyString EmptyString PyNone))
           "format" (PyStr "markdown") [("include_recommendations", PyBool false)]).
  - simpl. tauto.
  - left. reflexivity.
  - reflexivity.
Defined.

(** X19.  Two advertised flags are not read.  [include_metrics], which
    the schemas of [get_nodes_status] and [get_pods_status] declare, and
    [include_recommendations] in the schema of [cluster_health_check] have
    no effect: whatever value a call gives them, its outcome is that of
    the call without them. *)
Theorem metrics_and_health_flags_have_no_effect `{PyEnv} (server : Server.t)
  (tool : Tool.t) (key : string) (value : pyvalue) (arguments : list (string * pyvalue)) :
  In tool handle_list_tools ->
  In key (map fst (schema_properties tool)) ->
  key = "include_metrics" \/ Tool.name tool = "cluster_health_check" ->
  handle_call_tool server (Tool.name tool) (PyDict ((key, value) :: arguments))
  = handle_call_tool server (Tool.name tool) (PyDict arguments).
Proof.
  intros Htool Hkey Hflag.
  simpl in Htool.
  destruct Htool as [<-|[<-|[<-|[<-|[<-|[<-|[<-|[<-|[<-|[]]]]]]]]]];
    cbn in Hkey;
    repeat match goal with
           | Hd : _ \/ _ |- _ => destruct Hd as [Hd|Hd]
           | Hd : False |- _ => destruct Hd
           end;
    subst; try discriminate; reflexivity.
Qed.

(** X19, at a listing of one namespace that asks for no metrics. *)
Lemma ignored_flag_example :
  handle_call_tool (H := example_env) (steady_server cluster_without_metrics)
    "get_pods_status" (PyDict [("include_metrics", PyBool false); ("namespace", PyStr "shop")])
  = handle_call_tool (H := example_env) (steady_server cluster_without_metrics)
      "get_pods_status" (PyDict [("namespace", PyStr "shop")]).
Proof.
  apply (metrics_and_health_flags_have_no_effect (H := example_env)
           (steady_server cluster_without_metrics)
           (nth 2 handle_list_tools (Tool.mk EmptyString EmptyString PyNone))
           "include_metrics" (PyBool false) [("namespace", PyStr "shop")]).
  - simpl. tauto.
  - right. left. reflexivity.
  - left. reflexivity.
Defined.

Lemma mapM_parse_pod (pods : list PodMetrics.t) :
  mapM parse_pod (map asdict_pod pods) = Some pods.
Proof. apply mapM_fmap_Some. intros []; reflexivity. Qed.

Lemma mapM_parse_node (nodes : list NodeMetrics.t) :
  mapM parse_node (map asdict_node nodes) = Some nodes.
Proof. apply mapM_fmap_Some. intros []; reflexivity. Qed.

(** X20.  The three listing tools hand out what the client returned, and
    all of it.  When [cluster_health_check], [get_nodes_status] or
    [get_pods_status] (for a namespace that is a string) returns a reply,
    the reply is the one text that serialises the verdict, the list of
    node records or the list of pod records of the client, from which the
    verdict and every record, in order and field by field, can be read
    back. *)
Theorem listing_tools_return_every_record `{PyEnv} (server : Server.t)
  (arguments : pyvalue) (reply : list TextContent.t) :
  let cluster := Server.cluster server 0 in
  (handle_call_tool server "cluster_health_check" arguments = Ok reply ->
   exists health,
     analyze_cluster_health cluster = Ok health
     /\ reply = text_content (json_dumps (asdict_health health))
     /\ parse_health (asdict_health health) = Some health)
  /\ (handle_call_tool server "get_nodes_status" arguments = Ok reply ->
      exists nodes,
        get_nodes_metrics cluster = Ok nodes
        /\ reply = text_content (json_dumps (PyList (map asdict_node nodes)))
        /\ mapM parse_node (map asdict_node nodes) = Some nodes)
  /\ (forall namespace,
      py_get arguments "namespace" (PyStr "all") = Ok (PyStr namespace) ->
      handle_call_tool server "get_pods_status" arguments = Ok reply ->
      exists pods,
        get_pods_metrics cluster namespace = Ok pods
        /\ reply = text_content (json_dumps (PyList (map asdict_pod pods)))
        /\ mapM parse_pod (map asdict_pod pods) = Some pods).
Proof.
  intros cluster. split; [|split].
  - intros E. change (handle_call_tool server "cluster_health_check" arguments)
      with (health <- analyze_cluster_health cluster ;;
            Ok (text_content (json_dumps (asdict_health health)))) in E.
    apply bind_Ok in E as (health & Hh & E). injection E as <-.
    exists health. split; [exact Hh|]. split; [reflexivity|apply parse_health_asdict].
  - intros E. change (handle_call_tool server "get_nodes_status" arguments)
      with (nodes <- get_nodes_metrics cluster ;;
            Ok (text_content (json_dumps (PyList (map asdict_node nodes))))) in E.
    apply bind_Ok in E as (nodes & Hn & E). injection E as <-.
    exists nodes. split; [exact Hn|]. split; [reflexivity|apply mapM_parse_node].
  - intros namespace Hns E.
    change (handle_call_tool server "get_pods_status" arguments)
      with (namespace <- py_get arguments "namespace" (PyStr "all") ;;
            pods <- get_pods_metrics_for cluster namespace ;;
            Ok (text_content (json_dumps (PyList (map asdict_pod pods))))) in E.
    rewrite Hns in E. simpl in E.
    apply bind_Ok in E as (pods & Hp & E). injection E as <-.
    exists pods. split; [exact Hp|]. split; [reflexivity|apply mapM_parse_pod].
Qed.

(** X20, at the pods of every namespace. *)
Lemma listing_tools_example :
  exists pods,
    get_pods_metrics (H := example_env) cluster_without_metrics "all" = Ok pods
    /\ text_content
         (@json_dumps example_env
            (PyList (map asdict_pod
               [PodMetrics.mk (PyStr "web-0") (PyStr "default") (PyStr "Running") "N/A" "N/A"
                  6 "3d" (PyStr "node-a")])))
       = text_content (@json_dumps example_env (PyList (map asdict_pod pods)))
    /\ mapM parse_pod (map asdict_pod pods) = Some pods.
Proof.
  apply (proj2 (proj2 (listing_tools_return_every_record (H := example_env)
           (steady_server cluster_without_metrics) (PyDict []) _)) "all");
    reflexivity.
Defined.

Lemma chars_head_continuation (s g : string) (gs : list string) :
  chars s = g :: gs -> is_continuation g = is_continuation s.
Proof.
  destruct s as [|b s]; [discriminate|]. cbn [chars].
  destruct (chars s) as [|g' gs'].
  - intros E. injection E as <- <-. reflexivity.
  - destruct (is_continuation g'); intros E; injection E as <- <-; reflexivity.
Qed.

Lemma chars_app (a b : string) :
  is_continuation b = false -> chars (a +:+ b) = chars a ++ chars b.
Proof.
  intros Hb. induction a as [|c a IH]; [rewrite str_app_nil_l; reflexivity|].
  rewrite str_app_cons. cbn [chars]. rewrite IH.
  destruct (chars a) as [|g gs] eqn:Ea.
  - simpl. destruct (chars b) as [|g gs] eqn:Eb; [reflexivity|].
    rewrite (chars_head_continuation b g gs Eb), Hb. reflexivity.
  - simpl. destruct (is_continuation g); reflexivity.
Qed.

Lemma join_chars_chars (s : string) : join_chars (chars s) = s.
Proof.
  induction s as [|b s IH]; [reflexivity|]. cbn [chars].
  destruct (chars s) as [|g gs]; simpl in *.
  - rewrite <- IH. reflexivity.
  - destruct (is_continuation g); simpl; rewrite <- IH; rewrite ?str_app_cons, ?str_app_nil_l;
      reflexivity.
Qed.

Lemma split_chars_word (l : list string) (cur : string) :
  forallb (fun c => negb (is_space c)) l = true ->
  split_chars l cur
  = if String.eqb (cur +:+ join_chars l) EmptyString then [] else [cur +:+ join_chars l].
Proof.
  revert cur. induction l as [|c l IH]; intros cur Hl; simpl in *.
  - rewrite str_app_nil_r. reflexivity.
  - apply andb_true_iff in Hl as [Hc Hl]. apply negb_true_iff in Hc. rewrite Hc.
    rewrite IH by exact Hl. rewrite str_app_assoc. reflexivity.
Qed.

Lemma split_chars_space (l1 l2 : list string) (sp cur : string) :
  forallb (fun c => negb (is_space c)) l1 = true ->
  is_space sp = true ->
  split_chars (l1 ++ sp :: l2) cur = split_chars l1 cur ++ split_chars l2 EmptyString.
Proof.
  revert cur. induction l1 as [|c l1 IH]; intros cur Hl Hsp; simpl in *.
  - rewrite Hsp. destruct (String.eqb cur EmptyString); reflexivity.
  - apply andb_true_iff in Hl as [Hc Hl]. apply negb_true_iff in Hc. rewrite Hc.
    apply IH; assumption.
Qed.

Lemma join_words_not_continuation (words : list string) :
  forallb is_word words = true -> is_continuation (join_words words) = false.
Proof.
  destruct words as [|w rest]; [reflexivity|]. simpl. intros Hw.
  apply andb_true_iff in Hw as [Hw _]. unfold is_word in Hw.
  apply andb_true_iff in Hw as [Hw _]. apply andb_true_iff in Hw as [Hne Hw].
  apply negb_true_iff in Hw.
  destruct rest; [exact Hw|].
  destruct w as [|b w]; [discriminate|]. rewrite str_app_cons. exact Hw.
Qed.

(** Splitting words joined by single spaces gives the words back. *)
Lemma str_split_join_words (words : list string) :
  forallb is_word words = true -> str_split (join_words words) = words.
Proof.
  unfold str_split.
  induction words as [|w rest IH]; [reflexivity|]. intros Hall.
  pose proof Hall as Hall'. simpl in Hall'.
  apply andb_true_iff in Hall' as [Hw Hrest].
  unfold is_word in Hw. apply andb_true_iff in Hw as [Hw Hplain].
  apply andb_true_iff in Hw as [Hne Hcont].
  assert (Hword : split_chars (chars w) EmptyString = [w]).
  { rewrite split_chars_word by exact Hplain. rewrite str_app_nil_l, join_chars_chars.
    apply negb_true_iff in Hne. rewrite Hne. reflexivity. }
  destruct rest as [|w' rest]; [exact Hword|].
  change (join_words (w :: w' :: rest)) with (w +:+ " " +:+ join_words (w' :: rest)).
  pose proof (join_words_not_continuation (w' :: rest) Hrest) as Hnc.
  rewrite chars_app by reflexivity.
  change (" " +:+ join_words (w' :: rest))
    with (String " " EmptyString +:+ join_words (w' :: rest)).
  rewrite chars_app by exact Hnc.
  change (chars (String " " EmptyString)) with [String " " EmptyString].
  change ([String " " EmptyString] ++ chars (join_words (w' :: rest)))
    with (String " " EmptyString :: chars (join_words (w' :: rest))).
  rewrite split_chars_space by (exact Hplain || reflexivity).
  rewrite Hword, (IH Hrest). reflexivity.
Qed.

(** X21.  [kubectl_query] and [helm_query] run the words of the command:
    for a command made of words joined by single spaces, each word its own
    argument, and the reply is the one text that serialises the command
    with the program's name before it, the exit code, and the two outputs
    of that run.  No command at all is the empty list of words, so the
    bare program is run.  A non-zero exit code is reported in the reply,
    not raised. *)
Theorem query_tools_run_the_words_of_the_command `{PyEnv} (server : Server.t)
  (arguments : pyvalue) (words : list string) :
  forallb is_word words = true ->
  py_get arguments "command" (PyStr EmptyString) = Ok (PyStr (join_words words)) ->
  let document program reply :=
    PyDict [("command", PyStr (program +:+ " " +:+ join_words words));
            ("returncode", PyInt (reply_code reply));
            ("stdout", PyStr (reply_stdout reply));
            ("stderr", PyStr (snd (fst reply)))] in
  handle_call_tool server "kubectl_query" arguments
  = Ok (text_content (json_dumps (document "kubectl" (Server.cluster server 0 words))))
  /\ handle_call_tool server "helm_query" arguments
     = Ok (text_content (json_dumps (document "helm" (Server.helm server words)))).
Proof.
  intros Hwords Hcommand document.
  unfold handle_call_tool. cbn [String.eqb Ascii.eqb Bool.eqb].
  rewrite Hcommand. cbn [bind py_split]. rewrite (str_split_join_words words Hwords).
  unfold document, reply_code, reply_stdout.
  destruct (Server.cluster server 0 words) as [[stdout stderr] code].
  destruct (Server.helm server words) as [[stdout' stderr'] code'].
  split; reflexivity.
Qed.

(** X21, at the listing of the nodes. *)
Lemma query_words_example :
  let server := steady_server cluster_without_metrics in
  let arguments := PyDict [("command", PyStr "get nodes -o json")] in
  let document program reply :=
    PyDict [("command", PyStr (program +:+ " " +:+ "get nodes -o json"));
            ("returncode", PyInt (reply_code reply));
            ("stdout", PyStr (reply_stdout reply));
            ("stderr", PyStr (snd (fst reply)))] in
  handle_call_tool (H := example_env) server "kubectl_query" arguments
  = Ok (text_content
          (@json_dumps example_env
             (document "kubectl" (Server.cluster server 0 ["get"; "nodes"; "-o"; "json"]))))
  /\ handle_call_tool (H := example_env) server "helm_query" arguments
     = Ok (text_content
             (@json_dumps example_env
                (document "helm" (Server.helm server ["get"; "nodes"; "-o"; "json"])))).
Proof.
  intros server arguments document.
  apply (query_tools_run_the_words_of_the_command (H := example_env) server arguments
           ["get"; "nodes"; "-o"; "json"]);
    reflexivity.
Defined.

(** Quotes are characters of a word like any other: a quoted argument with
    a space in it reaches the program as two arguments. *)
Example quoting_is_not_interpreted :
  str_split "get pods -l 'app in (a, b)'" = ["get"; "pods"; "-l"; "'app"; "in"; "(a,"; "b)'"].
Proof. reflexivity. Qed.

(** X22.  The health report on a cluster that answers the same throughout
    the call.  When [generate_health_report] returns a reply, the reply is
    the one text that renders, in the format asked for, the verdict of the
    classifier on the node and pod records, those node records, the pod
    records (markdown only) and the results of the two inspectors, all
    taken from that cluster; so the node count and the pod count of its
    summary are the lengths of the lists its tables are made from. *)
Theorem report_counts_match_its_tables_on_a_steady_cluster `{PyEnv} (server : Server.t)
  (arguments : pyvalue) (reply : list TextContent.t) :
  (forall n, Server.cluster server n = Server.cluster server 0) ->
  handle_call_tool server "generate_health_report" arguments = Ok reply ->
  let cluster := Server.cluster server 0 in
  exists format_type include_recommendations nodes pods,
    py_get arguments "format" (PyStr "markdown") = Ok format_type
    /\ py_get arguments "include_recommendations" (PyBool true) = Ok include_recommendations
    /\ get_nodes_metrics cluster = Ok nodes
    /\ get_pods_metrics cluster "all" = Ok pods
    /\ ClusterHealth.node_count (classify_cluster_health nodes pods) = len nodes
    /\ ClusterHealth.total_pods (classify_cluster_health nodes pods) = len pods
    /\ reply
       = text_content
           (if py_eq_str format_type "markdown" then
              generate_markdown_report (Server.clock server) (Server.provider server)
                (classify_cluster_health nodes pods) nodes pods
                (analyze_karpenter cluster) (get_argocd_status cluster)
                (py_truthy include_recommendations)
            else if py_eq_str format_type "yaml" then
              yaml_dump (report_data (Server.clock server) (classify_cluster_health nodes pods)
                           nodes (analyze_karpenter cluster) (get_argocd_status cluster))
            else
              json_dumps (report_data (Server.clock server) (classify_cluster_health nodes pods)
                            nodes (analyze_karpenter cluster) (get_argocd_status cluster))).
Proof.
  intros Hsteady E cluster.
  unfold handle_call_tool in E. cbn [String.eqb Ascii.eqb Bool.eqb] in E.
  rewrite (Hsteady 1%nat), (Hsteady 2%nat), (Hsteady 3%nat), (Hsteady 4%nat) in E.
  fold cluster in E.
  apply bind_Ok in E as (format_type & Hformat & E).
  apply bind_Ok in E as (include_recommendations & Hinclude & E).
  apply bind_Ok in E as (health & Hhealth & E).
  apply bind_Ok in E as (nodes & Hnodes & E).
  apply bind_Ok in E as (pods & Hpods & E).
  apply analyze_cluster_health_Ok in Hhealth as (nodes' & pods' & Hnodes' & Hpods' & ->).
  assert (nodes' = nodes) by congruence. assert (pods' = pods) by congruence. subst.
  injection E as <-.
  exists format_type, include_recommendations, nodes, pods.
  repeat (split; [assumption || reflexivity|]). reflexivity.
Qed.

(** X22, at the report in markdown on a cluster of two nodes and one pod. *)
Lemma steady_cluster_report_example :
  let server := steady_server cluster_without_metrics in
  let cluster := Server.cluster server 0 in
  let node name status :=
    NodeMetrics.mk (PyStr name) "N/A" "N/A" "N/A" status "3d" (PyStr "v1.29.0") PyNone PyNone in
  let reply :=
    text_content
      (generate_markdown_report (H := example_env) (Server.clock server) GENERIC
         (classify_cluster_health [node "node-a" "Ready"; node "node-b" "NotReady"]
            [PodMetrics.mk (PyStr "web-0") (PyStr "default") (PyStr "Running") "N/A" "N/A" 6
               "3d" (PyStr "node-a")])
         [node "node-a" "Ready"; node "node-b" "NotReady"]
         [PodMetrics.mk (PyStr "web-0") (PyStr "default") (PyStr "Running") "N/A" "N/A" 6
            "3d" (PyStr "node-a")]
         Karpenter.initial ArgoCD.initial true) in
  exists format_type include_recommendations nodes pods,
    py_get (PyDict []) "format" (PyStr "markdown") = Ok format_type
    /\ py_get (PyDict []) "include_recommendations" (PyBool true) = Ok include_recommendations
    /\ get_nodes_metrics (H := example_env) cluster = Ok nodes
    /\ get_pods_metrics (H := example_env) cluster "all" = Ok pods
    /\ ClusterHealth.node_count (classify_cluster_health nodes pods) = len nodes
    /\ ClusterHealth.total_pods (classify_cluster_health nodes pods) = len pods
    /\ reply
       = text_content
           (if py_eq_str format_type "markdown" then
              generate_markdown_report (H := example_env) (Server.clock server)
                (Server.provider server)
                (classify_cluster_health nodes pods) nodes pods
                (analyze_karpenter (H := example_env) cluster)
                (get_argocd_status (H := example_env) cluster)
                (py_truthy include_recommendations)
            else if py_eq_str format_type "yaml" then
              @yaml_dump example_env
                (report_data (Server.clock server) (classify_cluster_health nodes pods)
                   nodes (analyze_karpenter (H := example_env) cluster)
                   (get_argocd_status (H := example_env) cluster))
            else
              @json_dumps example_env
                (report_data (Server.clock server) (classify_cluster_health nodes pods)
                   nodes (analyze_karpenter (H := example_env) cluster)
                   (get_argocd_status (H := example_env) cluster))).
Proof.
  intros server cluster node reply.
  apply (report_counts_match_its_tables_on_a_steady_cluster (H := example_env)
           server (PyDict []) reply).
  - intros n. reflexivity.
  - vm_compute. reflexivity.
Defined.

(** On a cluster that changes during the call the two can disagree: the
    verdict is made from a first listing, the node table from a second
    one.  Two nodes at the first, a failing command at the second. *)
Example summary_and_table_of_a_changing_cluster :
  let server :=
    Server.mk GENERIC
      (fun n => match n with O => cluster_without_metrics | _ => table_kubectl [] end)
      (fun _ => (EmptyString, EmptyString, 1))
      (datetime.mk 2024 3 9 7 5 3 0)
      (fun _ _ _ => Raise (Unmodelled "generate_resource_fixes")) in
  exists report,
    handle_call_tool (H := example_env) server "generate_health_report" (PyDict [])
    = Ok (text_content report)
    /\ str_contains "- **Nodes**: 2 total (1 healthy, 1 unhealthy)" report = true
    /\ str_contains "Node Details (0 nodes)" report = true.
Proof. eexists. vm_compute. repeat split. Qed.

(** X23.  [include_recommendations] shapes the markdown report only.  For
    a format other than markdown the outcome of [generate_health_report]
    is the same whatever value the flag is given: the structured report
    always carries the recommendations of the verdict.  In markdown the
    block of recommendations is left out exactly when the flag is false or
    the verdict has no recommendation. *)
Theorem recommendations_flag_only_shapes_markdown `{PyEnv} (server : Server.t) :
  (forall (arguments : list (string * pyvalue)) (value format_type : pyvalue),
     py_get (PyDict arguments) "format" (PyStr "markdown") = Ok format_type ->
     py_eq_str format_type "markdown" = false ->
     handle_call_tool server "generate_health_report"
       (PyDict (("include_recommendations", value) :: arguments))
     = handle_call_tool server "generate_health_report" (PyDict arguments))
  /\ (forall include_recommendations health,
      add_recommendations include_recommendations health EmptyString = EmptyString
      <-> include_recommendations = false \/ ClusterHealth.recommendations health = []).
Proof.
  split.
  - intros arguments value format_type Hformat Hmd.
    unfold handle_call_tool. cbn [String.eqb Ascii.eqb Bool.eqb].
    change (py_get (PyDict (("include_recommendations", value) :: arguments)) "format"
              (PyStr "markdown"))
      with (py_get (PyDict arguments) "format" (PyStr "markdown")).
    rewrite Hformat. cbn [bind].
    change (py_get (PyDict (("include_recommendations", value) :: arguments))
              "include_recommendations" (PyBool true))
      with (Ok (A := pyvalue) value).
    cbn [bind py_get].
    destruct (dict_lookup "include_recommendations" arguments) as [other|]; cbn [bind];
      destruct (analyze_cluster_health _) as [health|e]; cbn [bind]; try reflexivity;
      destruct (get_nodes_metrics _) as [nodes|e]; cbn [bind]; try reflexivity;
      destruct (get_pods_metrics _ _) as [pods|e]; cbn [bind]; try reflexivity;
      rewrite Hmd; reflexivity.
  - intros incl health. unfold add_recommendations.
    destruct incl; cbn [andb].
    + destruct (ClusterHealth.recommendations health) as [|r rest]; cbn [nonempty].
      * split; [intros _; right; reflexivity|reflexivity].
      * split; [|intros [E|E]; discriminate E].
        intros E. rewrite append_lines_app in E. discriminate E.
    + split; [intros _; left; reflexivity|reflexivity].
Qed.

(** X23, at a report in JSON that asks for no recommendations. *)
Lemma recommendations_flag_example :
  handle_call_tool (H := example_env) (steady_server cluster_without_metrics)
    "generate_health_report"
    (PyDict (("include_recommendations", PyBool false) :: [("format", PyStr "json")]))
  = handle_call_tool (H := example_env) (steady_server cluster_without_metrics)
      "generate_health_report" (PyDict [("format", PyStr "json")]).
Proof.
  apply (proj1 (recommendations_flag_only_shapes_markdown (H := example_env)
                  (steady_server cluster_without_metrics))
           [("format", PyStr "json")] (PyBool false) (PyStr "json"));
    reflexivity.
Defined.
